(** * Model registration and retrieval workflow

    A shallow embedding of [vertexai/preview/_workflow/shared/model_utils.py]:
    [register] pushes a local model to the Model Registry and
    [from_pretrained] pulls a model back from the registry, from a finished
    CustomJob or from Model Garden.

    Python values are modelled as plain data, the remote services and the
    serializer as a record of collaborators acting on an abstract
    environment, and every call the workflow makes is logged in a trace so
    that ordering and "exactly once" properties can be stated. *)

From Stdlib Require Import String Ascii List Bool Arith ZArith Lia.
Import ListNotations.
Open Scope string_scope.

(** ** Python strings, paths and dictionaries *)

Module Py.

(** [s.startswith(p)] *)
Definition startswith (s p : string) : bool := String.prefix p s.

(** [s.endswith(suf)]: some tail of [s] is [suf]. *)
Fixpoint endswith (s suf : string) : bool :=
  String.eqb s suf ||
  match s with
  | EmptyString => false
  | String _ s' => endswith s' suf
  end.

(** [sub in s]: [sub] starts at some position of [s]. *)
Fixpoint contains (sub s : string) : bool :=
  String.prefix sub s ||
  match s with
  | EmptyString => false
  | String _ s' => contains sub s'
  end.

(** Truth value of a [str]: only the empty string is falsy. *)
Definition nonempty (s : string) : bool :=
  match s with
  | EmptyString => false
  | String _ _ => true
  end.

(** Truth value of an [Optional[str]]: [None] and the empty string are
    falsy.  The result carries the string of a truthy value. *)
Definition truthy (v : option string) : option string :=
  match v with
  | Some s => if nonempty s then Some s else None
  | None => None
  end.

(** [os.path.join(a, b)] of posixpath, for two components. *)
Definition os_path_join (a b : string) : string :=
  if startswith b "/" then b
  else if negb (nonempty a) || endswith a "/" then a ++ b
  else a ++ "/" ++ b.

(** A [dict] with string keys, in insertion order. *)
Definition dict (V : Type) : Type := list (string * V).

(** [d.get(k)] *)
Fixpoint dict_get {V : Type} (d : dict V) (k : string) : option V :=
  match d with
  | [] => None
  | (k', v) :: d' => if String.eqb k' k then Some v else dict_get d' k
  end.

(** [list(d.keys())] *)
Definition dict_keys {V : Type} (d : dict V) : list string := map fst d.

(** [repr] of a [str].  The quote is the single quote, unless the string
    holds a single quote and no double quote; the quote in use and the
    backslash are escaped, tab, line feed and carriage return are written
    [\t], [\n] and [\r], the other control characters and DEL as [\xhh],
    and every other character is kept.  This is [repr] for ASCII text;
    characters above 127 are kept as they are, which is what [repr] does
    with the printable ones. *)
Definition double_quote : ascii := ascii_of_nat 34.

Fixpoint has_char (c : ascii) (s : string) : bool :=
  match s with
  | EmptyString => false
  | String x s' => Ascii.eqb x c || has_char c s'
  end.

Definition repr_quote (s : string) : ascii :=
  if has_char "'" s && negb (has_char double_quote s) then double_quote
  else "'"%char.

Definition hex_digit (n : nat) : ascii :=
  if Nat.ltb n 10 then ascii_of_nat (48 + n) else ascii_of_nat (87 + n).

Definition repr_char (quote c : ascii) : string :=
  let n := nat_of_ascii c in
  if Ascii.eqb c quote || Ascii.eqb c "\" then
    String "\" (String c EmptyString)
  else if Nat.eqb n 9 then "\t"
  else if Nat.eqb n 10 then "\n"
  else if Nat.eqb n 13 then "\r"
  else if Nat.ltb n 32 || Nat.eqb n 127 then
    String "\" (String "x"
      (String (hex_digit (Nat.div n 16))
         (String (hex_digit (Nat.modulo n 16)) EmptyString)))
  else String c EmptyString.

Fixpoint repr_body (quote : ascii) (s : string) : string :=
  match s with
  | EmptyString => EmptyString
  | String c s' => repr_char quote c ++ repr_body quote s'
  end.

Definition repr (s : string) : string :=
  String (repr_quote s)
    (repr_body (repr_quote s) s ++ String (repr_quote s) EmptyString).

(** [repr] of a list of strings, as an f-string prints it. *)
Fixpoint repr_items (l : list string) : string :=
  match l with
  | [] => EmptyString
  | [k] => repr k
  | k :: l' => repr k ++ ", " ++ repr_items l'
  end.

Definition repr_list (l : list string) : string := "[" ++ repr_items l ++ "]".

Definition is_lower (c : ascii) : bool :=
  Nat.leb 97 (nat_of_ascii c) && Nat.leb (nat_of_ascii c) 122.

Definition is_digit (c : ascii) : bool :=
  Nat.leb 48 (nat_of_ascii c) && Nat.leb (nat_of_ascii c) 57.

(** The rest of [s] after its longest prefix of lowercase letters. *)
Fixpoint skip_lower (s : string) : string :=
  match s with
  | String c s' => if is_lower c then skip_lower s' else s
  | EmptyString => s
  end.

(** [[a-z]+-]: a non-empty run of lowercase letters and a dash.  The dash
    is no lowercase letter, so the greedy run is the only way to match. *)
Definition lower_run_dash (s : string) : option string :=
  match s with
  | String c s' =>
      if is_lower c then
        match skip_lower s' with
        | String "-" rest => Some rest
        | _ => None
        end
      else None
  | EmptyString => None
  end.

(** [[0-9]{3}$]: three digits, then the end of the string or one line feed
    that ends it (what [$] accepts without [re.MULTILINE]). *)
Definition three_digits_end (s : string) : bool :=
  match s with
  | String a (String b (String c rest)) =>
      is_digit a && is_digit b && is_digit c &&
      match rest with
      | EmptyString => true
      | String "010" EmptyString => true
      | _ => false
      end
  | _ => false
  end.

(** [re.match(r"(^[a-z]+-[a-z]+-[0-9]{3}$)", s)] is not [None]. *)
Definition re_match_tuned_model_id (s : string) : bool :=
  match lower_run_dash s with
  | Some s1 =>
      match lower_run_dash s1 with
      | Some s2 => three_digits_end s2
      | None => false
      end
  | None => false
  end.

End Py.

(** ** Exceptions and results *)

(** Every error the module raises itself is a [ValueError]; anything else a
    collaborator raises is an [OtherError] tagged with its class name. *)
Inductive exn : Type :=
| ValueError (msg : string)
| OtherError (class : string).

Inductive Res (A : Type) : Type :=
| Ok (a : A)
| Raise (e : exn).
Arguments Ok {A} a.
Arguments Raise {A} e.

Definition raised_of {A : Type} (r : Res A) : option exn :=
  match r with
  | Ok _ => None
  | Raise e => Some e
  end.

(** ** Data model *)

(** A local model object, as far as the workflow looks at it: the module of
    its class, the two attributes probed with [hasattr], its content and
    the remote-execution wrapper it currently carries. *)
Record ModelObj : Type := {
  module_name : string;
  has_tracking_metadata : bool;
  has_state_dict : bool;
  payload : string;
  wrapper : option string
}.

(** The closure returned by [driver._unwrapper]: it remembers the wrapper
    it took off. *)
Record Rewrapper : Type := { captured : option string }.

(** What the serializer stores. *)
Inductive Obj : Type :=
| OModel (m : ModelObj)
| ORewrapper (r : Rewrapper).

Record ContainerRequest : Type := {
  framework : string;
  framework_version : string;
  accelerator : option string
}.

Record UploadRequest : Type := {
  display_name : string;
  artifact_uri : string;
  serving_container_image_uri : string;
  upload_labels : Py.dict string;
  sync : bool
}.

(** [aiplatform.Model]: [image_uri] stands for [container_spec.image_uri]. *)
Record ModelResource : Type := {
  name : string;
  uri : string;
  image_uri : string;
  labels : Py.dict string
}.

(** Modelled from the spec: the [JobState] enum of the service, which is
    declared outside this module; the spec names PENDING, RUNNING,
    SUCCEEDED, FAILED and CANCELLED, the others stand for "...". *)
Inductive JobState : Type :=
| JOB_STATE_UNSPECIFIED
| JOB_STATE_QUEUED
| JOB_STATE_PENDING
| JOB_STATE_RUNNING
| JOB_STATE_SUCCEEDED
| JOB_STATE_FAILED
| JOB_STATE_CANCELLING
| JOB_STATE_CANCELLED
| JOB_STATE_PAUSED
| JOB_STATE_EXPIRED.

Definition JobState_eqb (a b : JobState) : bool :=
  match a, b with
  | JOB_STATE_UNSPECIFIED, JOB_STATE_UNSPECIFIED
  | JOB_STATE_QUEUED, JOB_STATE_QUEUED
  | JOB_STATE_PENDING, JOB_STATE_PENDING
  | JOB_STATE_RUNNING, JOB_STATE_RUNNING
  | JOB_STATE_SUCCEEDED, JOB_STATE_SUCCEEDED
  | JOB_STATE_FAILED, JOB_STATE_FAILED
  | JOB_STATE_CANCELLING, JOB_STATE_CANCELLING
  | JOB_STATE_CANCELLED, JOB_STATE_CANCELLED
  | JOB_STATE_PAUSED, JOB_STATE_PAUSED
  | JOB_STATE_EXPIRED, JOB_STATE_EXPIRED => true
  | _, _ => false
  end.

(** [x in states] *)
Definition state_in (x : JobState) (states : list JobState) : bool :=
  existsb (JobState_eqb x) states.

(** [aiplatform.CustomJob]: [output_uri_prefix] stands for
    [job_spec.base_output_directory.output_uri_prefix]; [state] is read
    from the service each time. *)
Record Job : Type := {
  job_name : string;
  job_labels : Py.dict string;
  output_uri_prefix : string
}.

Record PublisherModel : Type := { resource_name : string }.

(** A [_ModelGardenModel] instance, opaque here. *)
Record Handle : Type := { interface_class : string }.

(** What [from_pretrained] hands back: a deserialized object, a Model
    Garden handle, or [None] when the function falls off its end. *)
Inductive Value : Type :=
| VObj (o : Obj)
| VHandle (h : Handle)
| VNone.

(** [vertexai.preview.global_config] *)
Record Config : Type := {
  staging_bucket : option string;
  project : option string;
  location : option string;
  credentials : option string
}.

(** ** Collaborators

    Everything the module calls but does not define: the clock behind
    [utils.timestamped_unique_name], [AnySerializer], the container-image
    helper, the Model Registry, the CustomJob service and Model Garden.
    Reads are functions of the environment, writes return a new one, and
    each may raise.

    [AnySerializer] is the construction [any_serializer.AnySerializer()]
    in [register], where it stands between the detaching of the wrapper
    and the [try] block; [serialize] and [deserialize] are the methods of
    the object it returns.  In the retrieval functions the construction
    is directly followed by the first [deserialize], and the two are one
    call of [deserialize] here: what the construction raises there is what
    that call raises. *)

Record Collaborators (E : Type) : Type := {
  AnySerializer : E -> Res unit * E;
  timestamped_unique_name : E -> string * E;
  serialize : Obj -> string -> option string -> E -> Res unit * E;
  deserialize : string -> E -> Res Obj;
  get_prebuilt_prediction_container_uri : ContainerRequest -> Res string;
  Model_upload : UploadRequest -> E -> Res ModelResource * E;
  Model_get : string -> Config -> E -> Res ModelResource;
  CustomJob_get : string -> Config -> E -> Res Job;
  CustomJob_state : Job -> E -> Res JobState;
  get_remote_logs_until_complete : Job -> E -> Res unit * E;
  PublisherModel_get : string -> E -> Res PublisherModel;
  get_model_id_from_tuning_model_id : string -> string;
  model_garden_from_pretrained :
    string -> PublisherModel -> option ModelResource -> E -> Res Handle;
  JOB_PENDING_STATES : list JobState
}.
Arguments AnySerializer {E} _.
Arguments timestamped_unique_name {E} _.
Arguments serialize {E} _.
Arguments deserialize {E} _.
Arguments get_prebuilt_prediction_container_uri {E} _.
Arguments Model_upload {E} _.
Arguments Model_get {E} _.
Arguments CustomJob_get {E} _.
Arguments CustomJob_state {E} _.
Arguments get_remote_logs_until_complete {E} _.
Arguments PublisherModel_get {E} _.
Arguments get_model_id_from_tuning_model_id {E} _.
Arguments model_garden_from_pretrained {E} _.
Arguments JOB_PENDING_STATES {E} _.

(** ** Trace of calls *)

Inductive Call : Type :=
| CAnySerializer
| CUniqueName (result : string)
| CSerialize (o : Obj) (path : string) (save_format : option string)
| CDeserialize (path : string)
| CResolveImage (req : ContainerRequest)
| CUpload (req : UploadRequest)
| CGetModel (model_name : string)
| CGetJob (custom_job_name : string)
| CJobState (job : string)
| CPoll (job : string)
| CPublisherModel (resource : string)
| CBuildHandle (model_name : string) (publisher_model : PublisherModel)
    (tuned_vertex_model : option ModelResource).

(** [EvCall c (Some e)] is a call that raised [e]. *)
Inductive Event : Type :=
| EvUnwrap
| EvRewrap
| EvCall (c : Call) (raised : option exn).

Definition is_unwrap (ev : Event) : bool :=
  match ev with EvUnwrap => true | _ => false end.

Definition is_rewrap (ev : Event) : bool :=
  match ev with EvRewrap => true | _ => false end.

Definition is_serialize (ev : Event) : bool :=
  match ev with EvCall (CSerialize _ _ _) _ => true | _ => false end.

Definition is_upload (ev : Event) : bool :=
  match ev with EvCall (CUpload _) _ => true | _ => false end.

Definition is_poll (ev : Event) : bool :=
  match ev with EvCall (CPoll _) _ => true | _ => false end.

Definition is_deserialize (ev : Event) : bool :=
  match ev with EvCall (CDeserialize _) _ => true | _ => false end.

Definition count (p : Event -> bool) (t : list Event) : nat :=
  length (filter p t).

(** ** The world and its monad *)

Record World (E : Type) : Type := {
  global_config : Config;
  env : E;
  trace : list Event
}.
Arguments global_config {E} _.
Arguments env {E} _.
Arguments trace {E} _.

Definition log {E : Type} (ev : Event) (w : World E) : World E :=
  {| global_config := global_config w;
     env := env w;
     trace := trace w ++ [ev] |}.

Definition set_env {E : Type} (e : E) (w : World E) : World E :=
  {| global_config := global_config w;
     env := e;
     trace := trace w |}.

(** A computation runs in a world and returns or raises; the world it
    leaves behind is kept either way. *)
Definition M (E A : Type) : Type := World E -> Res A * World E.

Definition ret {E A : Type} (a : A) : M E A := fun w => (Ok a, w).

Definition raise {E A : Type} (e : exn) : M E A := fun w => (Raise e, w).

Definition bind {E A B : Type} (c : M E A) (k : A -> M E B) : M E B :=
  fun w =>
    match c w with
    | (Ok a, w') => k a w'
    | (Raise e, w') => (Raise e, w')
    end.

Notation "x <- c ;; k" := (bind c (fun x => k))
  (at level 61, c at next level, right associativity).

Definition lift_res {E A : Type} (r : Res A) : M E A := fun w => (r, w).

(** A call that only reads the environment. *)
Definition call_read {E A : Type} (c : Call) (f : E -> Res A) : M E A :=
  fun w => let r := f (env w) in (r, log (EvCall c (raised_of r)) w).

(** A call that may change the environment. *)
Definition call_write {E A : Type} (c : Call) (f : E -> Res A * E) : M E A :=
  fun w =>
    let '(r, e') := f (env w) in
    (r, log (EvCall c (raised_of r)) (set_env e' w)).

(** ** Constants of the module *)

Definition _SKLEARN_FILE_NAME : string := "model.pkl".
Definition _TF_DIR_NAME : string := "saved_model".
Definition _PYTORCH_FILE_NAME : string := "model.mar".
Definition _REWRAPPER_NAME : string := "rewrapper".
Definition _OUTPUT_DIR : string := "output".
Definition _OUTPUT_ESTIMATOR_DIR : string := "output_estimator".

(** ** The errors of the spec's taxonomy, all [ValueError]s in the code *)

Definition ConfigurationError : exn :=
  ValueError
    ("A default staging bucket is required to upload the model file. " ++
     "Please call `vertexai.init(staging_bucket='gs://my-bucket').").

Definition UnsupportedFrameworkError_upload : exn :=
  ValueError "Support uploading PyTorch, scikit-learn and TensorFlow only.".

Definition UnsupportedFrameworkError_load : exn :=
  ValueError "Support loading PyTorch, scikit-learn and TensorFlow only.".

Definition UnverifiedJobError : exn :=
  ValueError
    "This job wasn't created with SDK remote training, or it was created with a Vertex SDK version <= 1.32.0".

Definition InvalidModelGardenReferenceError : exn :=
  ValueError "Please provide a valid Model Garden model resource.".

Definition ArgumentError (keys : list string) : exn :=
  ValueError
    ("Exactly one of " ++ Py.repr_list keys ++
     " must be provided to from_pretrained.").

Definition NotRegisteredError (model_name : string) : exn :=
  ValueError
    ("The model " ++ model_name ++
     " was not registered through `vertexai.preview.register` or created from Model Garden.").

Definition NotFromModelGardenError (model_name : string) : exn :=
  ValueError
    ("The model " ++ model_name ++
     " was not created from a Model Garden model.").

Definition JobNotSucceededError : exn :=
  ValueError
    "The provided job did not complete successfully. Please provide a pending or successful customJob ID.".

(** ** The wrapper *)

Definition set_wrapper (wr : option string) (m : ModelObj) : ModelObj :=
  {| module_name := module_name m;
     has_tracking_metadata := has_tracking_metadata m;
     has_state_dict := has_state_dict m;
     payload := payload m;
     wrapper := wr |}.

(** Modelled from the spec: [driver._unwrapper] is defined outside this
    module; it "extracts and detaches any remote-execution wrapper from the
    model, producing a Rewrapper value and an unwrapped model". *)
Definition _unwrapper (model : ModelObj) : Rewrapper * ModelObj :=
  ({| captured := wrapper model |}, set_wrapper None model).

(** Modelled from the spec: calling a Rewrapper "re-applies the
    remote-execution wrapper" to the object it is given, in place. *)
Definition rewrap (rewrapper : Rewrapper) (model : ModelObj) : ModelObj :=
  set_wrapper (captured rewrapper) model.

(** [rewrapper(model)] on two deserialized objects, whose kinds are only
    known at run time: calling something that is no Rewrapper, or wrapping
    something that is no model, is a [TypeError]. *)
Definition call_rewrapper (rewrapper model : Obj) : Res Obj :=
  match rewrapper, model with
  | ORewrapper r, OModel m => Ok (OModel (rewrap r m))
  | _, _ => Raise (OtherError "TypeError")
  end.

(** ** The workflow *)

Section Workflow.

Context {E : Type} (C : Collaborators E).

(** [any_serializer.AnySerializer()] *)
Definition new_serializer : M E unit :=
  call_write CAnySerializer (AnySerializer C).

Definition unique_name : M E string :=
  fun w =>
    let '(ts, e') := timestamped_unique_name C (env w) in
    (Ok ts, log (EvCall (CUniqueName ts) None) (set_env e' w)).

Definition do_serialize (o : Obj) (path : string) (save_format : option string)
  : M E unit :=
  call_write (CSerialize o path save_format) (serialize C o path save_format).

Definition do_deserialize (path : string) : M E Obj :=
  call_read (CDeserialize path) (deserialize C path).

Definition resolve_image (req : ContainerRequest) : M E string :=
  call_read (CResolveImage req)
    (fun _ => get_prebuilt_prediction_container_uri C req).

Definition do_upload (req : UploadRequest) : M E ModelResource :=
  call_write (CUpload req) (Model_upload C req).

(** [_get_model_file_from_image_uri] *)
Definition _get_model_file_from_image_uri (container_image_uri : string)
  : Res string :=
  if Py.contains "tf" container_image_uri then Ok EmptyString
  else if Py.contains "sklearn" container_image_uri then Ok _SKLEARN_FILE_NAME
  else if Py.contains "pytorch" container_image_uri then Ok _PYTORCH_FILE_NAME
  else Raise UnsupportedFrameworkError_load.

Definition option_string_eqb (a : option string) (b : string) : bool :=
  match a with
  | Some s => String.eqb s b
  | None => false
  end.

(** [_verify_custom_job] *)
Definition _verify_custom_job (job : Job) : Res unit :=
  if negb (match Py.truthy (Py.dict_get (job_labels job) "trained_by_vertex_ai")
           with Some _ => true | None => false end)
     || negb (option_string_eqb
                (Py.dict_get (job_labels job) "trained_by_vertex_ai") "true")
  then Raise UnverifiedJobError
  else Ok tt.

(** [_generate_remote_job_output_path] *)
Definition _generate_remote_job_output_path (base_gcs_dir : string) : string :=
  Py.os_path_join base_gcs_dir _OUTPUT_DIR.

(** In-place [rewrapper(model)] on deserialized objects. *)
Definition do_call_rewrapper (rewrapper model : Obj) : M E Obj :=
  fun w =>
    match call_rewrapper rewrapper model with
    | Ok model' => (Ok model', log EvRewrap w)
    | Raise e => (Raise e, w)
    end.

(** [_get_model_from_successful_custom_job] *)
Definition _get_model_from_successful_custom_job (job_dir : string)
  : M E Obj :=
  model <- do_deserialize
             (Py.os_path_join (_generate_remote_job_output_path job_dir)
                _OUTPUT_ESTIMATOR_DIR) ;;
  rewrapper <- do_deserialize
                 (Py.os_path_join (_generate_remote_job_output_path job_dir)
                    _REWRAPPER_NAME) ;;
  model <- do_call_rewrapper rewrapper model ;;
  ret model.

Definition registered_labels : Py.dict string :=
  [("registered_by_vertex_ai", "true")].

(** [_register_sklearn_model]; the serializer argument is the collaborator
    record. *)
Definition _register_sklearn_model (model : ModelObj) (staging_bucket : string)
    (rewrapper : Rewrapper) : M E ModelResource :=
  ts <- unique_name ;;
  let unique_model_name := "vertex-ai-registered-sklearn-model-" ++ ts in
  let gcs_dir := Py.os_path_join staging_bucket unique_model_name in
  let file_path := Py.os_path_join gcs_dir _REWRAPPER_NAME in
  _ <- do_serialize (ORewrapper rewrapper) file_path None ;;
  let file_path := Py.os_path_join gcs_dir _SKLEARN_FILE_NAME in
  _ <- do_serialize (OModel model) file_path None ;;
  container_image_uri <-
    resolve_image {| framework := "sklearn";
                     framework_version := "1.0";
                     accelerator := None |} ;;
  do_upload {| display_name := unique_model_name;
               artifact_uri := gcs_dir;
               serving_container_image_uri := container_image_uri;
               upload_labels := registered_labels;
               sync := true |}.

(** [_register_tf_model] *)
Definition _register_tf_model (model : ModelObj) (staging_bucket : string)
    (rewrapper : Rewrapper) (use_gpu : bool) : M E ModelResource :=
  ts <- unique_name ;;
  let unique_model_name := "vertex-ai-registered-tensorflow-model-" ++ ts in
  let gcs_dir := Py.os_path_join staging_bucket unique_model_name in
  let file_path :=
    Py.os_path_join gcs_dir (_TF_DIR_NAME ++ "/" ++ _REWRAPPER_NAME) in
  _ <- do_serialize (ORewrapper rewrapper) file_path None ;;
  let file_path := Py.os_path_join gcs_dir _TF_DIR_NAME in
  _ <- do_serialize (OModel model) file_path (Some "tf") ;;
  container_image_uri <-
    resolve_image {| framework := "tensorflow";
                     framework_version := "2.11";
                     accelerator := Some (if use_gpu then "gpu" else "cpu") |} ;;
  do_upload {| display_name := unique_model_name;
               artifact_uri := file_path;
               serving_container_image_uri := container_image_uri;
               upload_labels := registered_labels;
               sync := true |}.

(** [_register_pytorch_model] *)
Definition _register_pytorch_model (model : ModelObj) (staging_bucket : string)
    (rewrapper : Rewrapper) (use_gpu : bool) : M E ModelResource :=
  ts <- unique_name ;;
  let unique_model_name := "vertex-ai-registered-pytorch-model-" ++ ts in
  let gcs_dir := Py.os_path_join staging_bucket unique_model_name in
  let file_path := Py.os_path_join gcs_dir _REWRAPPER_NAME in
  _ <- do_serialize (ORewrapper rewrapper) file_path None ;;
  let archive_file_path := Py.os_path_join gcs_dir _PYTORCH_FILE_NAME in
  _ <- do_serialize (OModel model) archive_file_path None ;;
  container_image_uri <-
    resolve_image {| framework := "pytorch";
                     framework_version := "1.12";
                     accelerator := Some (if use_gpu then "gpu" else "cpu") |} ;;
  do_upload {| display_name := unique_model_name;
               artifact_uri := gcs_dir;
               serving_container_image_uri := container_image_uri;
               upload_labels := registered_labels;
               sync := true |}.

(** [_get_publisher_model_resource]: the bare [except] turns every failure
    into one [ValueError]. *)
Definition _get_publisher_model_resource (short_model_name : string)
  : M E PublisherModel :=
  let short_model_name :=
    if negb (Py.contains "/" short_model_name)
    then "publishers/google/models/" ++ short_model_name
    else short_model_name in
  fun w =>
    match call_read (CPublisherModel short_model_name)
            (PublisherModel_get C short_model_name) w with
    | (Ok publisher_model_resource, w') => (Ok publisher_model_resource, w')
    | (Raise _, w') => (Raise InvalidModelGardenReferenceError, w')
    end.

(** [_check_from_pretrained_passed_exactly_one_arg] *)
Definition passed_args (fn_args : Py.dict (option string)) : nat :=
  fold_left
    (fun passed kv =>
       match snd kv with
       | Some _ => passed + 1
       | None => passed
       end)
    fn_args 0.

Definition _check_from_pretrained_passed_exactly_one_arg
    (fn_args : Py.dict (option string)) : Res unit :=
  if negb (Nat.eqb (passed_args fn_args) 1)
  then Raise (ArgumentError (Py.dict_keys fn_args))
  else Ok tt.

(** The body of the [try] in [register], on the unwrapped model. *)
Definition register_try (model : ModelObj) (staging_bucket : string)
    (rewrapper : Rewrapper) (use_gpu : bool) : M E ModelResource :=
  if Py.startswith (module_name model) "sklearn" then
    _register_sklearn_model model staging_bucket rewrapper
  else if Py.startswith (module_name model) "keras"
          || has_tracking_metadata model then
    _register_tf_model model staging_bucket rewrapper use_gpu
  else if Py.contains "torch" (module_name model) || has_state_dict model then
    _register_pytorch_model model staging_bucket rewrapper use_gpu
  else raise UnsupportedFrameworkError_upload.

(** [register].  The model object is mutated in place, so its final state
    is returned next to the result.  The serializer is constructed after
    the wrapper is detached and before the [try] block is entered: when
    the construction raises, no [finally] runs and the model stays as the
    unwrapper left it.  Inside the block,
    [except Exception as e: raise e] re-raises what it caught and
    [finally] runs on every path. *)
Definition register (model : ModelObj) (use_gpu : bool) (w : World E)
  : Res ModelResource * ModelObj * World E :=
  match Py.truthy (staging_bucket (global_config w)) with
  | None => (Raise ConfigurationError, model, w)
  | Some staging_bucket =>
      let '(rewrapper, model) := _unwrapper model in
      let w := log EvUnwrap w in
      match new_serializer w with
      | (Raise e, w) => (Raise e, model, w)
      | (Ok _, w) =>
          let '(result, w) :=
            register_try model staging_bucket rewrapper use_gpu w in
          let model := rewrap rewrapper model in
          let w := log EvRewrap w in
          (result, model, w)
      end
  end.

(** One turn of the loop over the labels of a model that is not registered
    by this workflow; [except ValueError: continue] catches nothing else. *)
Definition try_label (vertex_model : ModelResource) (label_key : string)
    (continue : M E Value) : M E Value :=
  match Py.dict_get (labels vertex_model) label_key with
  | None => raise (OtherError "TypeError")
  | Some publisher_model_label =>
      if Py.re_match_tuned_model_id publisher_model_label then
        let short_model_id :=
          get_model_id_from_tuning_model_id C publisher_model_label in
        fun w =>
          match
            (publisher_model <- _get_publisher_model_resource short_model_id ;;
             h <- call_read
                    (CBuildHandle short_model_id publisher_model
                       (Some vertex_model))
                    (model_garden_from_pretrained C short_model_id
                       publisher_model (Some vertex_model)) ;;
             ret (VHandle h)) w
          with
          | (Ok v, w') => (Ok v, w')
          | (Raise (ValueError _), w') => continue w'
          | (Raise e, w') => (Raise e, w')
          end
      else continue
  end.

Fixpoint scan_labels (vertex_model : ModelResource) (model_name : string)
    (keys : list string) : M E Value :=
  match keys with
  | [] => raise (NotFromModelGardenError model_name)
  | label_key :: keys' =>
      try_label vertex_model label_key
        (scan_labels vertex_model model_name keys')
  end.

(** The [if model_name:] block of [from_pretrained]. *)
Definition from_registered_model (model_name : string) : M E Value :=
  fun w =>
    (vertex_model <-
       call_read (CGetModel model_name)
         (Model_get C model_name (global_config w)) ;;
     if option_string_eqb
          (Py.dict_get (labels vertex_model) "registered_by_vertex_ai") "true"
     then
       let artifact_uri := uri vertex_model in
       model_file <-
         lift_res (_get_model_file_from_image_uri (image_uri vertex_model)) ;;
       model <- do_deserialize (Py.os_path_join artifact_uri model_file) ;;
       rewrapper <-
         do_deserialize (Py.os_path_join artifact_uri _REWRAPPER_NAME) ;;
       model <- do_call_rewrapper rewrapper model ;;
       ret (VObj model)
     else
       match labels vertex_model with
       | [] => raise (NotRegisteredError model_name)
       | _ :: _ =>
           scan_labels vertex_model model_name
             (Py.dict_keys (labels vertex_model))
       end) w.

(** The [if custom_job_name:] block of [from_pretrained]. *)
Definition from_custom_job (custom_job_name : string) : M E Value :=
  fun w =>
    (job <-
       call_read (CGetJob custom_job_name)
         (CustomJob_get C custom_job_name (global_config w)) ;;
     job_state <- call_read (CJobState (job_name job)) (CustomJob_state C job) ;;
     _ <- lift_res (_verify_custom_job job) ;;
     let job_dir := output_uri_prefix job in
     job_state <-
       (if state_in job_state (JOB_PENDING_STATES C) then
          _ <- call_write (CPoll (job_name job))
                 (get_remote_logs_until_complete C job) ;;
          call_read (CJobState (job_name job)) (CustomJob_state C job)
        else ret job_state) ;;
     if JobState_eqb job_state JOB_STATE_SUCCEEDED then
       model <- _get_model_from_successful_custom_job job_dir ;;
       ret (VObj model)
     else raise JobNotSucceededError) w.

(** The [if foundation_model_name:] block of [from_pretrained]. *)
Definition from_foundation_model (foundation_model_name : string)
  : M E Value :=
  publisher_model <- _get_publisher_model_resource foundation_model_name ;;
  h <- call_read
         (CBuildHandle foundation_model_name publisher_model None)
         (model_garden_from_pretrained C foundation_model_name
            publisher_model None) ;;
  ret (VHandle h).

(** [from_pretrained]; [locals()] lists the three keyword arguments in the
    order they are declared. *)
Definition from_pretrained
    (model_name custom_job_name foundation_model_name : option string)
  : M E Value :=
  _ <- lift_res
         (_check_from_pretrained_passed_exactly_one_arg
            [("model_name", model_name);
             ("custom_job_name", custom_job_name);
             ("foundation_model_name", foundation_model_name)]) ;;
  match Py.truthy model_name with
  | Some model_name => from_registered_model model_name
  | None =>
      match Py.truthy custom_job_name with
      | Some custom_job_name => from_custom_job custom_job_name
      | None =>
          match Py.truthy foundation_model_name with
          | Some foundation_model_name =>
              from_foundation_model foundation_model_name
          | None => ret VNone
          end
      end
  end.

End Workflow.

(** ** Locations

    A directory is the same place with or without its final slash. *)

(** A path without one final slash. *)
Fixpoint strip_slash (s : string) : string :=
  match s with
  | EmptyString => EmptyString
  | String c s' =>
      match s' with
      | EmptyString => if Ascii.eqb c "/" then EmptyString else s
      | String _ _ => String c (strip_slash s')
      end
  end.


(** ** A simulated environment

    Collaborators that behave: a clock, an object store addressed by
    location (a directory is the same location with or without its final
    slash), a registry, a table of jobs with the states the service will
    report, and a catalogue of publisher models.  It instantiates the
    statements below on concrete inputs. *)

Module Sim.

Record Env : Type := {
  clock : nat;
  store : Py.dict Obj;
  registry : Py.dict ModelResource;
  jobs : Py.dict Job;
  timeline : Py.dict (list JobState);
  catalogue : list string
}.

Fixpoint stamp (n : nat) : string :=
  match n with
  | 0 => "20230801120000-ab1c2"
  | S n' => stamp n' ++ "x"
  end.

Definition tick (e : Env) : string * Env :=
  (stamp (clock e),
   {| clock := S (clock e); store := store e; registry := registry e;
      jobs := jobs e; timeline := timeline e; catalogue := catalogue e |}).

Definition put (o : Obj) (path : string) (save_format : option string)
    (e : Env) : Res unit * Env :=
  (Ok tt,
   {| clock := clock e; store := (strip_slash path, o) :: store e;
      registry := registry e; jobs := jobs e; timeline := timeline e;
      catalogue := catalogue e |}).

Definition fetch (path : string) (e : Env) : Res Obj :=
  match Py.dict_get (store e) (strip_slash path) with
  | Some o => Ok o
  | None => Raise (OtherError "NotFound")
  end.

Definition image_for (req : ContainerRequest) : Res string :=
  let acc :=
    match accelerator req with
    | Some a => if String.eqb a "gpu" then "gpu" else "cpu"
    | None => "cpu"
    end in
  if String.eqb (framework req) "sklearn" then
    Ok "us-docker.pkg.dev/vertex-ai/prediction/sklearn-cpu.1-0:latest"
  else if String.eqb (framework req) "tensorflow" then
    Ok ("us-docker.pkg.dev/vertex-ai/prediction/tf2-" ++ acc ++ ".2-11:latest")
  else if String.eqb (framework req) "pytorch" then
    Ok ("us-docker.pkg.dev/vertex-ai/prediction/pytorch-" ++ acc
        ++ ".1-12:latest")
  else Raise (ValueError "No serving container for the framework.").

Definition upload (req : UploadRequest) (e : Env)
  : Res ModelResource * Env :=
  let vm :=
    {| name := "projects/p/locations/l/models/" ++ stamp (length (registry e));
       uri := artifact_uri req;
       image_uri := serving_container_image_uri req;
       labels := upload_labels req |} in
  (Ok vm,
   {| clock := clock e; store := store e;
      registry := (name vm, vm) :: registry e;
      jobs := jobs e; timeline := timeline e; catalogue := catalogue e |}).

Definition get_model (model_name : string) (cfg : Config) (e : Env)
  : Res ModelResource :=
  match Py.dict_get (registry e) model_name with
  | Some vm => Ok vm
  | None => Raise (OtherError "NotFound")
  end.

Definition get_job (custom_job_name : string) (cfg : Config) (e : Env)
  : Res Job :=
  match Py.dict_get (jobs e) custom_job_name with
  | Some j => Ok j
  | None => Raise (OtherError "NotFound")
  end.

Definition pending_states : list JobState :=
  [JOB_STATE_QUEUED; JOB_STATE_PENDING; JOB_STATE_RUNNING;
   JOB_STATE_CANCELLING].

(** The state a job is in: the head of what is left of its timeline. *)
Definition job_state (j : Job) (e : Env) : Res JobState :=
  match Py.dict_get (timeline e) (job_name j) with
  | Some (s :: _) => Ok s
  | _ => Ok JOB_STATE_UNSPECIFIED
  end.

Fixpoint run_to_completion (states : list JobState) : list JobState :=
  match states with
  | s :: rest =>
      if state_in s pending_states then run_to_completion rest else states
  | [] => []
  end.

Definition wait_for (j : Job) (e : Env) : Res unit * Env :=
  match Py.dict_get (timeline e) (job_name j) with
  | Some states =>
      (Ok tt,
       {| clock := clock e; store := store e; registry := registry e;
          jobs := jobs e;
          timeline := (job_name j, run_to_completion states) :: timeline e;
          catalogue := catalogue e |})
  | None => (Raise (OtherError "NotFound"), e)
  end.

Definition get_publisher_model (resource : string) (e : Env)
  : Res PublisherModel :=
  if existsb (String.eqb resource) (catalogue e)
  then Ok {| resource_name := resource |}
  else Raise (OtherError "NotFound").

(** [tuning_model_id.rpartition("-")] *)
Fixpoint rpartition_dash (s : string) : option (string * string) :=
  match s with
  | EmptyString => None
  | String c s' =>
      match rpartition_dash s' with
      | Some (a, b) => Some (String c a, b)
      | None => if Ascii.eqb c "-" then Some (EmptyString, s') else None
      end
  end.

Definition model_id (tuning_model_id : string) : string :=
  match rpartition_dash tuning_model_id with
  | Some (model_name, version) =>
      "publishers/google/models/" ++ model_name ++ "@" ++ version
  | None => "publishers/google/models/@" ++ tuning_model_id
  end.

Definition build_handle (model_name : string) (pm : PublisherModel)
    (tuned : option ModelResource) (e : Env) : Res Handle :=
  Ok {| interface_class := resource_name pm |}.

(** The serializer can be constructed. *)
Definition ready (e : Env) : Res unit * Env := (Ok tt, e).

Definition collaborators : Collaborators Env :=
  {| AnySerializer := ready;
     timestamped_unique_name := tick;
     serialize := put;
     deserialize := fetch;
     get_prebuilt_prediction_container_uri := image_for;
     Model_upload := upload;
     Model_get := get_model;
     CustomJob_get := get_job;
     CustomJob_state := job_state;
     get_remote_logs_until_complete := wait_for;
     PublisherModel_get := get_publisher_model;
     get_model_id_from_tuning_model_id := model_id;
     model_garden_from_pretrained := build_handle;
     JOB_PENDING_STATES := pending_states |}.

(** The same collaborators with a handle construction that fails with an
    exception that is no [ValueError]. *)
Definition failing_build (model_name : string) (pm : PublisherModel)
    (tuned : option ModelResource) (e : Env) : Res Handle :=
  Raise (OtherError "RuntimeError").

Definition collaborators_failing_build : Collaborators Env :=
  {| AnySerializer := ready;
     timestamped_unique_name := tick;
     serialize := put;
     deserialize := fetch;
     get_prebuilt_prediction_container_uri := image_for;
     Model_upload := upload;
     Model_get := get_model;
     CustomJob_get := get_job;
     CustomJob_state := job_state;
     get_remote_logs_until_complete := wait_for;
     PublisherModel_get := get_publisher_model;
     get_model_id_from_tuning_model_id := model_id;
     model_garden_from_pretrained := failing_build;
     JOB_PENDING_STATES := pending_states |}.

(** The same collaborators with a serializer whose construction fails. *)
Definition failing_construction (e : Env) : Res unit * Env :=
  (Raise (OtherError "RuntimeError"), e).

Definition collaborators_failing_serializer : Collaborators Env :=
  {| AnySerializer := failing_construction;
     timestamped_unique_name := tick;
     serialize := put;
     deserialize := fetch;
     get_prebuilt_prediction_container_uri := image_for;
     Model_upload := upload;
     Model_get := get_model;
     CustomJob_get := get_job;
     CustomJob_state := job_state;
     get_remote_logs_until_complete := wait_for;
     PublisherModel_get := get_publisher_model;
     get_model_id_from_tuning_model_id := model_id;
     model_garden_from_pretrained := build_handle;
     JOB_PENDING_STATES := pending_states |}.




Definition config (bucket : option string) : Config :=
  {| staging_bucket := bucket;
     project := Some "p";
     location := Some "l";
     credentials := None |}.

Definition empty_env : Env :=
  {| clock := 0; store := []; registry := []; jobs := []; timeline := [];
     catalogue := [] |}.

Definition world (bucket : option string) (e : Env) : World Env :=
  {| global_config := config bucket; env := e; trace := [] |}.

Definition sklearn_model : ModelObj :=
  {| module_name := "sklearn.linear_model._logistic";
     has_tracking_metadata := false;
     has_state_dict := false;
     payload := "coef=[0.5, -1.25]";
     wrapper := Some "remote(training)" |}.

Definition keras_model : ModelObj :=
  {| module_name := "keras.engine.sequential";
     has_tracking_metadata := true;
     has_state_dict := false;
     payload := "dense(4)->dense(1)";
     wrapper := Some "remote(training)" |}.

Definition torch_model : ModelObj :=
  {| module_name := "__main__";
     has_tracking_metadata := false;
     has_state_dict := true;
     payload := "linear(2,1)";
     wrapper := Some "remote(training)" |}.

(** An object of a class declared in a module whose name has "torch"
    inside but not in front, with neither probed attribute. *)
Definition torch_core_object : ModelObj :=
  {| module_name := "fastai.torch_core";
     has_tracking_metadata := false;
     has_state_dict := false;
     payload := "tensor";
     wrapper := None |}.

(** An object no branch of the detection accepts. *)
Definition xgboost_model : ModelObj :=
  {| module_name := "xgboost.sklearn";
     has_tracking_metadata := false;
     has_state_dict := false;
     payload := "booster";
     wrapper := Some "remote(training)" |}.

(** A registry holding a tuned Model Garden model, a model whose
    registration label is not the lowercase "true", and a model that
    [register] uploaded for a container this module does not know. *)
Definition tuned_model : ModelResource :=
  {| name := "tuned";
     uri := "gs://bucket/tuned";
     image_uri := EmptyString;
     labels :=
       [("google-vertex-llm-tuning-base-model-id", "text-bison-001");
        ("tune-type", "sft");
        ("fallback-base-model-id", "chat-bison-001")] |}.

Definition mislabelled_model : ModelResource :=
  {| name := "mislabelled";
     uri := "gs://bucket/mislabelled";
     image_uri :=
       "us-docker.pkg.dev/vertex-ai/prediction/sklearn-cpu.1-0:latest";
     labels := [("registered_by_vertex_ai", "True")] |}.

Definition unlabelled_model : ModelResource :=
  {| name := "unlabelled";
     uri := "gs://bucket/unlabelled";
     image_uri :=
       "us-docker.pkg.dev/vertex-ai/prediction/sklearn-cpu.1-0:latest";
     labels := [] |}.

Definition finished_job : Job :=
  {| job_name := "job-1";
     job_labels := [("trained_by_vertex_ai", "true")];
     output_uri_prefix := "gs://bucket/job-1" |}.

Definition foreign_job : Job :=
  {| job_name := "job-2";
     job_labels := [("team", "research")];
     output_uri_prefix := "gs://bucket/job-2" |}.

Definition failing_job : Job :=
  {| job_name := "job-3";
     job_labels := [("trained_by_vertex_ai", "true")];
     output_uri_prefix := "gs://bucket/job-3" |}.

Definition garden_env : Env :=
  {| clock := 0;
     store :=
       [("gs://bucket/job-1/output/output_estimator",
         OModel (set_wrapper None sklearn_model));
        ("gs://bucket/job-1/output/rewrapper",
         ORewrapper {| captured := Some "remote(training)" |})];
     registry :=
       [("tuned", tuned_model); ("mislabelled", mislabelled_model);
        ("unlabelled", unlabelled_model)];
     jobs :=
       [("job-1", finished_job); ("job-2", foreign_job);
        ("job-3", failing_job)];
     timeline :=
       [("job-1",
         [JOB_STATE_RUNNING; JOB_STATE_RUNNING; JOB_STATE_SUCCEEDED]);
        ("job-2", [JOB_STATE_RUNNING; JOB_STATE_FAILED]);
        ("job-3", [JOB_STATE_PENDING; JOB_STATE_RUNNING; JOB_STATE_FAILED])];
     catalogue :=
       ["publishers/google/models/text-bison@001";
        "publishers/google/models/chat-bison@001"] |}.

End Sim.

(** ** Vocabulary of the statements *)

Inductive Framework : Type := Sklearn | Tensorflow | Pytorch.

Definition framework_name (f : Framework) : string :=
  match f with
  | Sklearn => "sklearn"
  | Tensorflow => "tensorflow"
  | Pytorch => "pytorch"
  end.

(** The classification [register] performs, read off its if/elif chain. *)
Definition detect_framework (model : ModelObj) : option Framework :=
  if Py.startswith (module_name model) "sklearn" then Some Sklearn
  else if Py.startswith (module_name model) "keras"
          || has_tracking_metadata model then Some Tensorflow
  else if Py.contains "torch" (module_name model) || has_state_dict model
  then Some Pytorch
  else None.

(** The classification as the specification words it, with "torch" looked
    for as a prefix of the module name like the other two. *)
Definition detect_framework_by_prefix (model : ModelObj) : option Framework :=
  if Py.startswith (module_name model) "sklearn" then Some Sklearn
  else if Py.startswith (module_name model) "keras"
          || has_tracking_metadata model then Some Tensorflow
  else if Py.startswith (module_name model) "torch" || has_state_dict model
  then Some Pytorch
  else None.

(** What [register] does between its guard and its [try] block: the
    wrapper is detached, then the serializer is constructed. *)
Definition serializer_construction {E : Type} (C : Collaborators E)
    (w : World E) : Res unit * World E :=
  new_serializer C (log EvUnwrap w).

(** The registration routine of a framework. *)
Definition register_as {E : Type} (C : Collaborators E) (f : Framework)
    (model : ModelObj) (staging_bucket : string) (rewrapper : Rewrapper)
    (use_gpu : bool) : M E ModelResource :=
  match f with
  | Sklearn => _register_sklearn_model C model staging_bucket rewrapper
  | Tensorflow => _register_tf_model C model staging_bucket rewrapper use_gpu
  | Pytorch => _register_pytorch_model C model staging_bucket rewrapper use_gpu
  end.

(** The serving container asked for: the version is pinned per framework;
    the accelerator follows [use_gpu] for tensorflow and pytorch and is not
    passed for sklearn. *)
Definition container_request (f : Framework) (use_gpu : bool)
  : ContainerRequest :=
  match f with
  | Sklearn =>
      {| framework := "sklearn"; framework_version := "1.0";
         accelerator := None |}
  | Tensorflow =>
      {| framework := "tensorflow"; framework_version := "2.11";
         accelerator := Some (if use_gpu then "gpu" else "cpu") |}
  | Pytorch =>
      {| framework := "pytorch"; framework_version := "1.12";
         accelerator := Some (if use_gpu then "gpu" else "cpu") |}
  end.

(** The serving container as the specification words it: the accelerator
    follows [use_gpu] for every framework. *)
Definition container_request_as_specified (f : Framework) (use_gpu : bool)
  : ContainerRequest :=
  {| framework := framework_name f;
     framework_version :=
       match f with
       | Sklearn => "1.0"
       | Tensorflow => "2.11"
       | Pytorch => "1.12"
       end;
     accelerator := Some (if use_gpu then "gpu" else "cpu") |}.

(** Where the artifacts of a framework go, under the staging directory
    [gcs_dir] of one registration. *)
Definition written_model_path (f : Framework) (gcs_dir : string) : string :=
  match f with
  | Sklearn => Py.os_path_join gcs_dir "model.pkl"
  | Tensorflow => Py.os_path_join gcs_dir "saved_model"
  | Pytorch => Py.os_path_join gcs_dir "model.mar"
  end.

Definition written_rewrapper_path (f : Framework) (gcs_dir : string)
  : string :=
  match f with
  | Sklearn => Py.os_path_join gcs_dir "rewrapper"
  | Tensorflow => Py.os_path_join gcs_dir "saved_model/rewrapper"
  | Pytorch => Py.os_path_join gcs_dir "rewrapper"
  end.

(** The artifact URI a registration uploads. *)
Definition artifact_root (f : Framework) (gcs_dir : string) : string :=
  match f with
  | Tensorflow => Py.os_path_join gcs_dir "saved_model"
  | _ => gcs_dir
  end.


(** The requests found in a trace. *)
Definition resolved_images (t : list Event) : list ContainerRequest :=
  flat_map
    (fun ev =>
       match ev with
       | EvCall (CResolveImage req) _ => [req]
       | _ => []
       end) t.

Definition uploads (t : list Event) : list UploadRequest :=
  flat_map
    (fun ev =>
       match ev with
       | EvCall (CUpload req) _ => [req]
       | _ => []
       end) t.

Definition non_null (v : option string) : nat :=
  match v with
  | Some _ => 1
  | None => 0
  end.

Definition argument_names : list string :=
  ["model_name"; "custom_job_name"; "foundation_model_name"].

(** The name a registration gives the model, from the unique suffix. *)
Definition registered_name (f : Framework) (ts : string) : string :=
  "vertex-ai-registered-" ++ framework_name f ++ "-model-" ++ ts.

(** The format option passed when the model is serialized. *)
Definition save_format_of (f : Framework) : option string :=
  match f with
  | Tensorflow => Some "tf"
  | _ => None
  end.

(** The upload a registration asks for. *)
Definition upload_request (f : Framework) (staging_bucket ts img : string)
  : UploadRequest :=
  {| display_name := registered_name f ts;
     artifact_uri :=
       artifact_root f (Py.os_path_join staging_bucket (registered_name f ts));
     serving_container_image_uri := img;
     upload_labels := registered_labels;
     sync := true |}.

(** The calls of a registration that goes through, in order. *)
Definition registration_calls (f : Framework) (model : ModelObj)
    (staging_bucket : string) (rewrapper : Rewrapper) (use_gpu : bool)
    (ts img : string) : list Call :=
  let gcs_dir := Py.os_path_join staging_bucket (registered_name f ts) in
  [CUniqueName ts;
   CSerialize (ORewrapper rewrapper) (written_rewrapper_path f gcs_dir) None;
   CSerialize (OModel model) (written_model_path f gcs_dir) (save_format_of f);
   CResolveImage (container_request f use_gpu);
   CUpload (upload_request f staging_bucket ts img)].

Definition returned (c : Call) : Event := EvCall c None.

(** An event of a collaborator, neither unwrap nor rewrap. *)
Definition is_call (ev : Event) : bool :=
  match ev with EvCall _ _ => true | _ => false end.

(** The publisher-model resource a short name stands for. *)
Definition publisher_resource (short_model_name : string) : string :=
  if Py.contains "/" short_model_name then short_model_name
  else "publishers/google/models/" ++ short_model_name.

(** Loading a model and its Rewrapper from two paths, in the words of the
    specification: deserialize the model, deserialize the Rewrapper,
    reapply it in place, return the model; a failure of a step comes out
    as it is. *)
Inductive Loaded {E : Type} (C : Collaborators E)
    (model_path rewrapper_path : string) (w : World E)
  : Res Value * World E -> Prop :=
| loaded_no_model (e : exn) :
    deserialize C model_path (env w) = Raise e ->
    Loaded C model_path rewrapper_path w
      (Raise e, log (EvCall (CDeserialize model_path) (Some e)) w)
| loaded_no_rewrapper (model : Obj) (e : exn) :
    deserialize C model_path (env w) = Ok model ->
    deserialize C rewrapper_path (env w) = Raise e ->
    Loaded C model_path rewrapper_path w
      (Raise e,
       log (EvCall (CDeserialize rewrapper_path) (Some e))
         (log (EvCall (CDeserialize model_path) None) w))
| loaded_rewrapped (model : ModelObj) (rewrapper : Rewrapper) :
    deserialize C model_path (env w) = Ok (OModel model) ->
    deserialize C rewrapper_path (env w) = Ok (ORewrapper rewrapper) ->
    Loaded C model_path rewrapper_path w
      (Ok (VObj (OModel (rewrap rewrapper model))),
       log EvRewrap
         (log (EvCall (CDeserialize rewrapper_path) None)
            (log (EvCall (CDeserialize model_path) None) w)))
| loaded_ill_typed (model rewrapper : Obj) (e : exn) :
    deserialize C model_path (env w) = Ok model ->
    deserialize C rewrapper_path (env w) = Ok rewrapper ->
    call_rewrapper rewrapper model = Raise e ->
    Loaded C model_path rewrapper_path w
      (Raise e,
       log (EvCall (CDeserialize rewrapper_path) None)
         (log (EvCall (CDeserialize model_path) None) w)).

(** Scanning the labels of a model for a tuned-model id, label by label:
    a value that does not match the pattern is passed over; a match whose
    publisher model cannot be resolved, or whose handle construction raises
    a [ValueError], is passed over too; a match that yields a handle ends
    the scan with it; any other exception of the handle construction ends
    the scan and comes out; running out of labels is
    NotFromModelGardenError. *)
Inductive Scanned {E : Type} (C : Collaborators E) (vm : ModelResource)
    (model_name : string)
  : list string -> World E -> Res Value * World E -> Prop :=
| scanned_all (w : World E) :
    Scanned C vm model_name [] w
      (Raise (NotFromModelGardenError model_name), w)
| scanned_no_match (k v : string) (ks : list string) (w : World E)
    (out : Res Value * World E) :
    Py.dict_get (labels vm) k = Some v ->
    Py.re_match_tuned_model_id v = false ->
    Scanned C vm model_name ks w out ->
    Scanned C vm model_name (k :: ks) w out
| scanned_unresolved (k v : string) (ks : list string) (w : World E)
    (e : exn) (out : Res Value * World E) :
    Py.dict_get (labels vm) k = Some v ->
    Py.re_match_tuned_model_id v = true ->
    let id := get_model_id_from_tuning_model_id C v in
    PublisherModel_get C (publisher_resource id) (env w) = Raise e ->
    Scanned C vm model_name ks
      (log (EvCall (CPublisherModel (publisher_resource id)) (Some e)) w)
      out ->
    Scanned C vm model_name (k :: ks) w out
| scanned_handle (k v : string) (ks : list string) (w : World E)
    (pm : PublisherModel) (h : Handle) :
    Py.dict_get (labels vm) k = Some v ->
    Py.re_match_tuned_model_id v = true ->
    let id := get_model_id_from_tuning_model_id C v in
    PublisherModel_get C (publisher_resource id) (env w) = Ok pm ->
    model_garden_from_pretrained C id pm (Some vm) (env w) = Ok h ->
    Scanned C vm model_name (k :: ks) w
      (Ok (VHandle h),
       log (EvCall (CBuildHandle id pm (Some vm)) None)
         (log (EvCall (CPublisherModel (publisher_resource id)) None) w))
| scanned_value_error (k v : string) (ks : list string) (w : World E)
    (pm : PublisherModel) (msg : string) (out : Res Value * World E) :
    Py.dict_get (labels vm) k = Some v ->
    Py.re_match_tuned_model_id v = true ->
    let id := get_model_id_from_tuning_model_id C v in
    PublisherModel_get C (publisher_resource id) (env w) = Ok pm ->
    model_garden_from_pretrained C id pm (Some vm) (env w)
    = Raise (ValueError msg) ->
    Scanned C vm model_name ks
      (log (EvCall (CBuildHandle id pm (Some vm)) (Some (ValueError msg)))
         (log (EvCall (CPublisherModel (publisher_resource id)) None) w))
      out ->
    Scanned C vm model_name (k :: ks) w out
| scanned_other_error (k v : string) (ks : list string) (w : World E)
    (pm : PublisherModel) (class : string) :
    Py.dict_get (labels vm) k = Some v ->
    Py.re_match_tuned_model_id v = true ->
    let id := get_model_id_from_tuning_model_id C v in
    PublisherModel_get C (publisher_resource id) (env w) = Ok pm ->
    model_garden_from_pretrained C id pm (Some vm) (env w)
    = Raise (OtherError class) ->
    Scanned C vm model_name (k :: ks) w
      (Raise (OtherError class),
       log (EvCall (CBuildHandle id pm (Some vm)) (Some (OtherError class)))
         (log (EvCall (CPublisherModel (publisher_resource id)) None) w)).

(** The separator [os.path.join] puts after its first component. *)
Definition separator (a : string) : string :=
  if negb (Py.nonempty a) || Py.endswith a "/" then EmptyString else "/".



(** Every character of a string passes a test. *)
Fixpoint all_chars (p : ascii -> bool) (s : string) : bool :=
  match s with
  | EmptyString => true
  | String c s' => p c && all_chars p s'
  end.

Definition line_feed : string := String "010" EmptyString.

(** Case analysis on the collaborator calls of a registration routine. *)
Ltac run_call :=
  match goal with
  | |- context [timestamped_unique_name ?C ?e] =>
      let ts := fresh "ts" in let e' := fresh "e" in
      destruct (timestamped_unique_name C e) as [ts e'] eqn:?
  | |- context [serialize ?C ?o ?p ?f ?e] =>
      let r := fresh "r" in let e' := fresh "e" in
      destruct (serialize C o p f e) as [[r|?] e'] eqn:?
  | |- context [get_prebuilt_prediction_container_uri ?C ?q] =>
      destruct (get_prebuilt_prediction_container_uri C q) eqn:?
  | |- context [Model_upload ?C ?q ?e] =>
      let e' := fresh "e" in
      destruct (Model_upload C q e) as [[?|?] e'] eqn:?
  end; cbn.

Ltac unfold_routines :=
  unfold register_as, _register_sklearn_model, _register_tf_model,
    _register_pytorch_model, bind, unique_name, do_serialize, resolve_image,
    do_upload, call_write, call_read; cbn.

(** ** Vocabulary of the further properties *)

(** The entries of an argument dictionary whose value is not [None]. *)
Definition non_null_values (fn_args : Py.dict (option string))
  : Py.dict (option string) :=
  filter (fun kv => match snd kv with Some _ => true | None => false end)
    fn_args.

(** A string of ASCII characters. *)
Definition ascii_text (s : string) : bool :=
  all_chars (fun c => Nat.ltb (nat_of_ascii c) 128) s.

(** An event that writes nothing: neither a serialization, nor an upload,
    nor the detaching of a wrapper. *)
Definition writes_nothing (ev : Event) : bool :=
  negb (is_serialize ev || is_upload ev || is_unwrap ev).

(** A run that retrieves: the events it adds write nothing, and among
    them are at most [polls] waits for a job, [loads] deserializations
    and [rewraps] applications of a Rewrapper. *)
Definition Retrieves {E A : Type} (polls loads rewraps : nat)
    (w : World E) (out : Res A * World E) : Prop :=
  exists mid,
    trace (snd out) = (trace w ++ mid)%list /\
    forallb writes_nothing mid = true /\
    count is_poll mid <= polls /\
    count is_deserialize mid <= loads /\
    count is_rewrap mid <= rewraps.


(** ** The specialist pool service client

    The helpers of
    [google/cloud/aiplatform_v1/services/specialist_pool_service/client.py]
    that compute on strings and options: resource paths and their parsers,
    the mTLS endpoint, and the choice of endpoint and client certificate. *)

Module SpecialistPoolServiceClient.

(** What these helpers raise. *)
Inductive error : Type :=
| ClientValueError (msg : string)
| MutualTLSChannelError (msg : string)
| AttributeError (msg : string).

Inductive Result (A : Type) : Type :=
| Returned (a : A)
| Thrown (e : error).
Arguments Returned {A} a.
Arguments Thrown {A} e.

(** [s] without its prefix [p], when it starts with [p]. *)
Fixpoint strip_prefix (p s : string) : option string :=
  match p with
  | EmptyString => Some s
  | String a p' =>
      match s with
      | String b s' => if Ascii.eqb a b then strip_prefix p' s' else None
      | EmptyString => None
      end
  end.

Definition is_line_feed (c : ascii) : bool := Ascii.eqb c "010".

(** [$]: the end of the string, or just before a line feed that ends it. *)
Definition at_end (s : string) : bool :=
  match s with
  | EmptyString => true
  | String c EmptyString => is_line_feed c
  | _ => false
  end.

(** The patterns of the path parsers: literal text and named lazy groups
    [(?P<name>.+?)], anchored at both ends. *)
Inductive Piece : Type :=
| Lit (text : string)
| Group (name : string).

(** A lazy group followed by the rest of the pattern [k]: one more
    character that is no line feed is taken, then [k] is tried on what is
    left; if [k] fails the group grows.  The first success is the match. *)
Fixpoint lazy_group (k : string -> option (Py.dict string))
    (name taken s : string) : option (Py.dict string) :=
  match s with
  | EmptyString => None
  | String c s' =>
      if is_line_feed c then None
      else
        let taken' := taken ++ String c EmptyString in
        match k s' with
        | Some groups => Some ((name, taken') :: groups)
        | None => lazy_group k name taken' s'
        end
  end.

(** [re.match] of such a pattern: the [groupdict] of the match, if any. *)
Fixpoint re_match (pattern : list Piece) : string -> option (Py.dict string) :=
  match pattern with
  | [] => fun s => if at_end s then Some [] else None
  | Lit text :: pattern' =>
      fun s =>
        match strip_prefix text s with
        | Some rest => re_match pattern' rest
        | None => None
        end
  | Group name :: pattern' => lazy_group (re_match pattern') name EmptyString
  end.

(** [m.groupdict() if m else {}] *)
Definition groupdict_or_empty (m : option (Py.dict string)) : Py.dict string :=
  match m with
  | Some groups => groups
  | None => []
  end.

Definition specialist_pool_path (project location specialist_pool : string)
  : string :=
  "projects/" ++ project ++ "/locations/" ++ location ++ "/specialistPools/"
  ++ specialist_pool.

Definition parse_specialist_pool_path (path : string) : Py.dict string :=
  groupdict_or_empty
    (re_match
       [Lit "projects/"; Group "project"; Lit "/locations/";
        Group "location"; Lit "/specialistPools/"; Group "specialist_pool"]
       path).

Definition common_billing_account_path (billing_account : string) : string :=
  "billingAccounts/" ++ billing_account.

Definition parse_common_billing_account_path (path : string)
  : Py.dict string :=
  groupdict_or_empty
    (re_match [Lit "billingAccounts/"; Group "billing_account"] path).

Definition common_folder_path (folder : string) : string :=
  "folders/" ++ folder.

Definition parse_common_folder_path (path : string) : Py.dict string :=
  groupdict_or_empty (re_match [Lit "folders/"; Group "folder"] path).

Definition common_organization_path (organization : string) : string :=
  "organizations/" ++ organization.

Definition parse_common_organization_path (path : string) : Py.dict string :=
  groupdict_or_empty
    (re_match [Lit "organizations/"; Group "organization"] path).

Definition common_project_path (project : string) : string :=
  "projects/" ++ project.

Definition parse_common_project_path (path : string) : Py.dict string :=
  groupdict_or_empty (re_match [Lit "projects/"; Group "project"] path).

Definition common_location_path (project location : string) : string :=
  "projects/" ++ project ++ "/locations/" ++ location.

Definition parse_common_location_path (path : string) : Py.dict string :=
  groupdict_or_empty
    (re_match
       [Lit "projects/"; Group "project"; Lit "/locations/";
        Group "location"] path).

(** [[^.]+]: the longest prefix without a dot, and what follows it. *)
Fixpoint take_name (s : string) : string * string :=
  match s with
  | EmptyString => (EmptyString, EmptyString)
  | String c s' =>
      if Ascii.eqb c "." then (EmptyString, s)
      else let '(n, rest) := take_name s' in (String c n, rest)
  end.

(** An optional greedy group of literal text: taken when it is there. *)
Definition optional_group (text s : string) : option string * string :=
  match strip_prefix text s with
  | Some rest => (Some text, rest)
  | None => (None, s)
  end.

Record EndpointGroups : Type := {
  name_group : string;
  mtls_group : option string;
  sandbox_group : option string;
  googledomain_group : option string
}.

(** [mtls_endpoint_re.match(api_endpoint)]: the pattern is anchored at the
    start only, and nothing after an optional group can make it give the
    group up. *)
Definition mtls_endpoint_re_match (api_endpoint : string)
  : option EndpointGroups :=
  let '(name, r0) := take_name api_endpoint in
  if Py.nonempty name then
    let '(mtls, r1) := optional_group ".mtls" r0 in
    let '(sandbox, r2) := optional_group ".sandbox" r1 in
    let '(googledomain, _) := optional_group ".googleapis.com" r2 in
    Some {| name_group := name; mtls_group := mtls;
            sandbox_group := sandbox; googledomain_group := googledomain |}
  else None.

(** [s.replace(old, new)] for a non-empty [old]: every occurrence, from
    the left, occurrences not overlapping.  [skip] counts the characters
    of an occurrence still to be passed over. *)
Fixpoint replace_from (old new : string) (skip : nat) (s : string) : string :=
  match s with
  | EmptyString => EmptyString
  | String c s' =>
      match skip with
      | S skip' => replace_from old new skip' s'
      | 0 =>
          match strip_prefix old s with
          | Some _ => new ++ replace_from old new (String.length old - 1) s'
          | None => String c (replace_from old new 0 s')
          end
      end
  end.

Definition replace (old new s : string) : string := replace_from old new 0 s.

Definition is_some {A : Type} (o : option A) : bool :=
  match o with
  | Some _ => true
  | None => false
  end.

(** [_get_default_mtls_endpoint].  A group that took part in the match is
    a non-empty string, so its truth value is whether it matched. *)
Definition _get_default_mtls_endpoint (api_endpoint : option string)
  : Result (option string) :=
  match Py.truthy api_endpoint with
  | None => Returned api_endpoint
  | Some endpoint =>
      match mtls_endpoint_re_match endpoint with
      | None =>
          Thrown
            (AttributeError "'NoneType' object has no attribute 'groups'")
      | Some m =>
          if is_some (mtls_group m) || negb (is_some (googledomain_group m))
          then Returned (Some endpoint)
          else if is_some (sandbox_group m) then
            Returned
              (Some (replace "sandbox.googleapis.com"
                       "mtls.sandbox.googleapis.com" endpoint))
          else
            Returned
              (Some (replace ".googleapis.com" ".mtls.googleapis.com"
                       endpoint))
      end
  end.

Definition DEFAULT_ENDPOINT : string := "aiplatform.googleapis.com".

Definition DEFAULT_MTLS_ENDPOINT : string :=
  match _get_default_mtls_endpoint (Some DEFAULT_ENDPOINT) with
  | Returned (Some endpoint) => endpoint
  | _ => EmptyString
  end.

(** The two fields of [ClientOptions] the endpoint choice reads; a client
    certificate source is a callable, opaque here. *)
Record ClientOptions : Type := {
  api_endpoint : option string;
  client_cert_source : option string
}.

(** [client_options_lib.ClientOptions()] *)
Definition default_client_options : ClientOptions :=
  {| api_endpoint := None; client_cert_source := None |}.

(** [os.environ], as far as it is read. *)
Record Environ : Type := {
  GOOGLE_API_USE_CLIENT_CERTIFICATE : option string;
  GOOGLE_API_USE_MTLS_ENDPOINT : option string
}.

(** [google.auth.transport.mtls], taken as given. *)
Record Mtls : Type := {
  has_default_client_cert_source : bool;
  default_client_cert_source : Result string
}.

(** [os.getenv(name, default)] *)
Definition getenv (value : option string) (default : string) : string :=
  match value with
  | Some v => v
  | None => default
  end.

(** [x in (a, b, ...)] *)
Definition one_of (x : string) (values : list string) : bool :=
  existsb (String.eqb x) values.

(** [get_mtls_endpoint_and_cert_source] *)
Definition get_mtls_endpoint_and_cert_source (environ : Environ)
    (mtls : Mtls) (client_options : option ClientOptions)
  : Result (string * option string) :=
  let client_options :=
    match client_options with
    | None => default_client_options
    | Some o => o
    end in
  let use_client_cert :=
    getenv (GOOGLE_API_USE_CLIENT_CERTIFICATE environ) "false" in
  let use_mtls_endpoint :=
    getenv (GOOGLE_API_USE_MTLS_ENDPOINT environ) "auto" in
  if negb (one_of use_client_cert ["true"; "false"]) then
    Thrown
      (ClientValueError
         "Environment variable `GOOGLE_API_USE_CLIENT_CERTIFICATE` must be either `true` or `false`")
  else if negb (one_of use_mtls_endpoint ["auto"; "never"; "always"]) then
    Thrown
      (MutualTLSChannelError
         "Environment variable `GOOGLE_API_USE_MTLS_ENDPOINT` must be `never`, `auto` or `always`")
  else
    let found : Result (option string) :=
      if String.eqb use_client_cert "true" then
        match client_cert_source client_options with
        | Some source => Returned (Some source)
        | None =>
            if has_default_client_cert_source mtls then
              match default_client_cert_source mtls with
              | Returned source => Returned (Some source)
              | Thrown e => Thrown e
              end
            else Returned None
        end
      else Returned None in
    match found with
    | Thrown e => Thrown e
    | Returned client_cert_source =>
        let endpoint :=
          match api_endpoint client_options with
          | Some endpoint => endpoint
          | None =>
              if String.eqb use_mtls_endpoint "always"
                 || (String.eqb use_mtls_endpoint "auto"
                     && is_some client_cert_source)
              then DEFAULT_MTLS_ENDPOINT
              else DEFAULT_ENDPOINT
          end in
        Returned (endpoint, client_cert_source)
    end.

(** Strings without a character. *)
Definition free_of (c : ascii) (s : string) : bool :=
  all_chars (fun x => negb (Ascii.eqb x c)) s.

(** A path segment that parses back: not empty, on one line. *)
Definition one_line (s : string) : Prop :=
  Py.nonempty s = true /\ free_of "010" s = true.

(** A segment that is also free of slashes. *)
Definition plain_segment (s : string) : Prop :=
  one_line s /\ free_of "/" s = true.

End SpecialistPoolServiceClient.

(** ** Pipeline job schedules

    [PipelineJobSchedule.create] and [_create] of
    [google/cloud/aiplatform/pipeline_job_schedules.py].  [_create] is the
    body the [base.optional_sync] decorator runs for a synchronous call.
    The schedule message, the service client, the configuration and the
    dashboard link are collaborators acting on an abstract environment; the
    message is held by reference, an assignment to one of its fields is a
    call that may raise, and every call is recorded in order. *)

Module PipelineJobSchedule.

(** The fields of [gca_schedule.Schedule] that [_create] assigns; the last
    two are [create_pipeline_job_request.pipeline_job.service_account] and
    [create_pipeline_job_request.pipeline_job.network]. *)
Inductive Field : Type :=
| Cron
| StartTime
| EndTime
| AllowQueueing
| MaxRunCount
| MaxConcurrentRunCount
| PipelineJobServiceAccount
| PipelineJobNetwork.

Inductive Value : Type :=
| Str (s : string)
| Boolean (b : bool)
| Int (n : Z).

(** Truth value of an optional argument: [None], the empty string, [False]
    and [0] are falsy. *)
Definition truth (v : option Value) : bool :=
  match v with
  | None => false
  | Some (Str s) => Py.nonempty s
  | Some (Boolean b) => b
  | Some (Int n) => negb (Z.eqb n 0)
  end.

(** [a or b] on optional strings. *)
Definition or_ (a b : option string) : option string :=
  if truth (option_map Str a) then a else b.

Section Create.

Context {E Msg T : Type}.

(** The object: [self._parent] and [self._gca_resource]. *)
Record Self : Type := {
  _parent : string;
  _gca_resource : Msg
}.

(** The keyword arguments of [create] and [_create]; the timeout is only
    passed on. *)
Record CreateArgs : Type := {
  cron_expression : string;
  start_time : option string;
  end_time : option string;
  allow_queuing : option bool;
  max_run_count : option Z;
  max_concurrent_run_count : option Z;
  service_account : option string;
  network : option string;
  create_request_timeout : option T
}.

Inductive Effect : Type :=
| Assign (message : Msg) (field : Field) (value : Value)
    (raised : option exn)
| LogCreateWithLro
| CreateSchedule (parent : string) (schedule : Msg) (timeout : option T)
    (outcome : Res Msg)
| LogCreateComplete (resource : Msg)
| DashboardUri (raised : option exn)
| LogInfo (text : string).

(** [setattr] is an assignment to a field of a message,
    [global_config_network] reads [initializer.global_config.network]. *)
Record Service : Type := {
  setattr : Msg -> Field -> Value -> E -> Res unit * E;
  create_schedule : string -> Msg -> option T -> E -> Res Msg * E;
  global_config_network : E -> option string;
  _dashboard_uri : Self -> E -> Res string * E
}.

Record State : Type := {
  self : Self;
  environ : E;
  effects : list Effect
}.

Definition Run (A : Type) : Type := State -> Res A * State.

Definition pure {A : Type} (a : A) : Run A := fun s => (Ok a, s).

Definition and_then {A B : Type} (c : Run A) (k : A -> Run B) : Run B :=
  fun s =>
    match c s with
    | (Ok a, s') => k a s'
    | (Raise e, s') => (Raise e, s')
    end.

Definition emit (ev : Effect) : Run unit :=
  fun s =>
    (Ok tt,
     {| self := self s; environ := environ s;
        effects := (effects s ++ [ev])%list |}).

Variable svc : Service.

(** [self._gca_resource.<field> = value] *)
Definition assign (f : Field) (v : Value) : Run unit :=
  fun s =>
    let m := _gca_resource (self s) in
    let r := setattr svc m f v (environ s) in
    (fst r,
     {| self := self s; environ := snd r;
        effects := (effects s ++ [Assign m f v (raised_of (fst r))])%list |}).

(** [if value: self._gca_resource.<field> = value] *)
Definition assign_if (f : Field) (v : option Value) : Run unit :=
  match v with
  | Some x => if truth v then assign f x else pure tt
  | None => pure tt
  end.

(** [network or initializer.global_config.network] *)
Definition network_or_configured (given : option string)
  : Run (option string) :=
  fun s => (Ok (or_ given (global_config_network svc (environ s))), s).

Definition call_create_schedule (timeout : option T) : Run Msg :=
  fun s =>
    let m := _gca_resource (self s) in
    let r := create_schedule svc (_parent (self s)) m timeout (environ s) in
    (fst r,
     {| self := self s; environ := snd r;
        effects :=
          (effects s
             ++ [CreateSchedule (_parent (self s)) m timeout (fst r)])%list
     |}).

(** [self._gca_resource = response] *)
Definition set_gca_resource (response : Msg) : Run unit :=
  fun s =>
    (Ok tt,
     {| self := {| _parent := _parent (self s); _gca_resource := response |};
        environ := environ s;
        effects := effects s |}).

Definition call_dashboard_uri : Run string :=
  fun s =>
    let r := _dashboard_uri svc (self s) (environ s) in
    (fst r,
     {| self := self s; environ := snd r;
        effects := (effects s ++ [DashboardUri (raised_of (fst r))])%list |}).

(** What [_create] does once the fields are assigned. *)
Definition send (timeout : option T) : Run unit :=
  and_then (emit LogCreateWithLro) (fun _ =>
  and_then (call_create_schedule timeout) (fun response =>
  and_then (set_gca_resource response) (fun _ =>
  and_then (emit (LogCreateComplete response)) (fun _ =>
  and_then call_dashboard_uri (fun uri =>
  emit (LogInfo ("View Schedule:" ++ line_feed ++ uri))))))).

Definition _create (args : CreateArgs) : Run unit :=
  and_then (assign_if Cron (Some (Str (cron_expression args)))) (fun _ =>
  and_then (assign_if StartTime (option_map Str (start_time args))) (fun _ =>
  and_then (assign_if EndTime (option_map Str (end_time args))) (fun _ =>
  and_then
    (assign_if AllowQueueing (option_map Boolean (allow_queuing args)))
    (fun _ =>
  and_then (assign_if MaxRunCount (option_map Int (max_run_count args)))
    (fun _ =>
  and_then
    (assign_if MaxConcurrentRunCount
       (option_map Int (max_concurrent_run_count args)))
    (fun _ =>
  and_then (network_or_configured (network args)) (fun network' =>
  and_then
    (assign_if PipelineJobServiceAccount
       (option_map Str (service_account args)))
    (fun _ =>
  and_then (assign_if PipelineJobNetwork (option_map Str network'))
    (fun _ =>
  send (create_request_timeout args)))))))))).

Definition with_network (network' : option string) (args : CreateArgs)
  : CreateArgs :=
  {| cron_expression := cron_expression args;
     start_time := start_time args;
     end_time := end_time args;
     allow_queuing := allow_queuing args;
     max_run_count := max_run_count args;
     max_concurrent_run_count := max_concurrent_run_count args;
     service_account := service_account args;
     network := network';
     create_request_timeout := create_request_timeout args |}.

Definition create (args : CreateArgs) : Run unit :=
  and_then (network_or_configured (network args)) (fun network' =>
  _create (with_network network' args)).

End Create.

Arguments Self : clear implicits.
Arguments CreateArgs : clear implicits.
Arguments Effect : clear implicits.
Arguments Service : clear implicits.
Arguments State : clear implicits.

(** Assignments and calls of the service among the effects. *)
Definition is_assign {Msg T : Type} (ev : Effect Msg T) : bool :=
  match ev with
  | Assign _ _ _ _ => true
  | _ => false
  end.

Definition is_service_call {Msg T : Type} (ev : Effect Msg T) : bool :=
  match ev with
  | CreateSchedule _ _ _ _ => true
  | _ => false
  end.

(** The schedules the service answered with. *)
Definition responses {Msg T : Type} (evs : list (Effect Msg T))
  : list Msg :=
  flat_map
    (fun ev =>
       match ev with
       | CreateSchedule _ _ _ (Ok m) => [m]
       | _ => []
       end)
    evs.

(** An assignment of a truthy value to a field of [m]. *)
Definition assigns_truthy {Msg T : Type} (m : Msg) (ev : Effect Msg T)
  : Prop :=
  match ev with
  | Assign m' _ v _ => m' = m /\ truth (Some v) = true
  | _ => False
  end.

(** What a collaborator raised, if it did. *)
Definition raised_by {Msg T : Type} (ev : Effect Msg T) : option exn :=
  match ev with
  | Assign _ _ _ raised => raised
  | CreateSchedule _ _ _ outcome => raised_of outcome
  | DashboardUri raised => raised
  | _ => None
  end.

Section Runs.

Context {E Msg T : Type}.

(** Where a run of conditional assignments stands: the object is the one
    it started with, and the effects so far are assignments of truthy
    values to its message, of which only the last may have raised. *)
Definition assigning (s0 : State E Msg T) (r : Res unit)
    (s1 : State E Msg T) : Prop :=
  self s1 = self s0 /\
  exists pre,
    Forall
      (fun ev =>
         assigns_truthy (_gca_resource (self s0)) ev /\ raised_by ev = None)
      pre /\
    match r with
    | Ok _ => effects s1 = (effects s0 ++ pre)%list
    | Raise err =>
        exists f x,
          truth (Some x) = true /\
          effects s1
          = (effects s0 ++ pre
               ++ [Assign (_gca_resource (self s0)) f x (Some err)])%list
    end.

(** How a call ends once the assignments are done. *)
Definition sent (s0 : State E Msg T) (timeout : option T) (r : Res unit)
    (s1 : Self Msg) (tail : list (Effect Msg T)) : Prop :=
  let p := _parent (self s0) in
  let m := _gca_resource (self s0) in
  (exists err,
     r = Raise err /\ s1 = self s0 /\
     tail = [LogCreateWithLro; CreateSchedule p m timeout (Raise err)]) \/
  (exists response err,
     r = Raise err /\
     s1 = {| _parent := p; _gca_resource := response |} /\
     tail = [LogCreateWithLro; CreateSchedule p m timeout (Ok response);
             LogCreateComplete response; DashboardUri (Some err)]) \/
  (exists response uri,
     r = Ok tt /\
     s1 = {| _parent := p; _gca_resource := response |} /\
     tail = [LogCreateWithLro; CreateSchedule p m timeout (Ok response);
             LogCreateComplete response; DashboardUri None;
             LogInfo ("View Schedule:" ++ line_feed ++ uri)]).

(** Every run of [_create]: assignments of truthy values that did not
    raise, then either one that raised or the sending. *)
Definition created (s0 : State E Msg T) (timeout : option T) (r : Res unit)
    (s1 : State E Msg T) : Prop :=
  exists pre tail,
    effects s1 = (effects s0 ++ pre ++ tail)%list /\
    Forall
      (fun ev =>
         assigns_truthy (_gca_resource (self s0)) ev /\ raised_by ev = None)
      pre /\
    ((exists f x err,
        truth (Some x) = true /\ r = Raise err /\ self s1 = self s0 /\
        tail = [Assign (_gca_resource (self s0)) f x (Some err)]) \/
     sent s0 timeout r (self s1) tail).

End Runs.

(** A service for the examples: messages are numbered, the environment
    lists the assignments made, the service answers with the next message
    and the network of the configuration is fixed. *)
Definition example_service
  : Service (list (nat * Field * Value)) nat nat :=
  {| setattr := fun m f v e => (Ok tt, (e ++ [(m, f, v)])%list);
     create_schedule := fun _ m _ e => (Ok (S m), e);
     global_config_network :=
       fun _ => Some "projects/12345/global/networks/myVPC";
     _dashboard_uri :=
       fun _ e => (Ok "https://console.cloud.google.com/schedules", e) |}.

Definition example_args : CreateArgs nat :=
  {| cron_expression := "* * * * *";
     start_time := None;
     end_time := None;
     allow_queuing := Some false;
     max_run_count := None;
     max_concurrent_run_count := Some 1%Z;
     service_account := None;
     network := None;
     create_request_timeout := None |}.

Definition example_state : State (list (nat * Field * Value)) nat nat :=
  {| self := {| _parent := "projects/p/locations/us-central1";
                _gca_resource := 0 |};
     environ := [];
     effects := [] |}.

End PipelineJobSchedule.

(** * Properties *)

(** ** Strings and paths *)

Lemma truthy_some (v : option string) (s : string) :
  Py.truthy v = Some s -> v = Some s /\ Py.nonempty s = true.
Proof.
  destruct v as [t|]; simpl; [|discriminate].
  destruct (Py.nonempty t) eqn:Hne; [|discriminate].
  intros H; injection H as <-. split; [reflexivity|assumption].
Qed.

Lemma truthy_none (v : option string) :
  Py.truthy v = None <-> v = None \/ v = Some EmptyString.
Proof.
  split.
  - destruct v as [[|c t]|]; simpl; intros H;
      [right; reflexivity | discriminate | left; reflexivity].
  - intros [-> | ->]; reflexivity.
Qed.

(** ** The staging bucket *)

(** C8: when no staging location is configured (no value, or the empty
    string), [register] raises ConfigurationError and does nothing else:
    the model object and the whole world, its trace of calls included, are
    what they were, so the wrapper is not detached and nothing is
    serialized or uploaded. *)
Theorem register_requires_staging_bucket {E : Type} (C : Collaborators E)
    (model : ModelObj) (use_gpu : bool) (w : World E) :
  staging_bucket (global_config w) = None \/
  staging_bucket (global_config w) = Some EmptyString ->
  register C model use_gpu w = (Raise ConfigurationError, model, w) /\
  count is_unwrap (trace (snd (register C model use_gpu w)))
    = count is_unwrap (trace w) /\
  count is_serialize (trace (snd (register C model use_gpu w)))
    = count is_serialize (trace w) /\
  count is_upload (trace (snd (register C model use_gpu w)))
    = count is_upload (trace w).
Proof.
  intros H. apply truthy_none in H.
  assert (Heq : register C model use_gpu w = (Raise ConfigurationError, model, w)).
  { unfold register. rewrite H. reflexivity. }
  rewrite Heq. simpl. repeat split.
Qed.

Lemma register_requires_staging_bucket_witness :
  (staging_bucket (global_config (Sim.world None Sim.empty_env)) = None \/
   staging_bucket (global_config (Sim.world None Sim.empty_env))
     = Some EmptyString) /\
  register Sim.collaborators Sim.sklearn_model true
    (Sim.world None Sim.empty_env)
  = (Raise ConfigurationError, Sim.sklearn_model,
     Sim.world None Sim.empty_env).
Proof.
  split.
  - left. reflexivity.
  - apply (register_requires_staging_bucket Sim.collaborators
             Sim.sklearn_model true (Sim.world None Sim.empty_env)).
    left. reflexivity.
Defined.

(** ** The arguments of [from_pretrained] *)

(** C4: [from_pretrained] called with no argument or with two or more
    arguments that are not [None] raises ArgumentError, whose message says
    that exactly one of the three argument names must be provided, and
    leaves the world untouched; hence any call it makes to a retrieval
    collaborator happens with exactly one argument that is not [None], and
    with exactly one such argument the check passes and the block of that
    argument decides the result. *)
Theorem from_pretrained_exactly_one_argument {E : Type} (C : Collaborators E)
    (model_name custom_job_name foundation_model_name : option string)
    (w : World E) :
  (non_null model_name + non_null custom_job_name
     + non_null foundation_model_name <> 1 ->
   from_pretrained C model_name custom_job_name foundation_model_name w
   = (Raise (ArgumentError argument_names), w)) /\
  (trace (snd (from_pretrained C model_name custom_job_name
                 foundation_model_name w)) <> trace w ->
   non_null model_name + non_null custom_job_name
     + non_null foundation_model_name = 1) /\
  (non_null model_name + non_null custom_job_name
     + non_null foundation_model_name = 1 ->
   from_pretrained C model_name custom_job_name foundation_model_name w
   = match Py.truthy model_name, Py.truthy custom_job_name,
           Py.truthy foundation_model_name with
     | Some n, _, _ => from_registered_model C n w
     | None, Some n, _ => from_custom_job C n w
     | None, None, Some n => from_foundation_model C n w
     | None, None, None => (Ok VNone, w)
     end) /\
  ArgumentError argument_names
  = ValueError
      "Exactly one of ['model_name', 'custom_job_name', 'foundation_model_name'] must be provided to from_pretrained.".
Proof.
  repeat split.
  - destruct model_name, custom_job_name, foundation_model_name;
      simpl; intros H; try reflexivity; exfalso; apply H; reflexivity.
  - destruct model_name, custom_job_name, foundation_model_name;
      simpl; intros H; try reflexivity; exfalso; apply H; reflexivity.
  - destruct model_name as [a|], custom_job_name as [b|],
      foundation_model_name as [c|];
      simpl; intros H; try discriminate H.
    + unfold from_pretrained, bind, lift_res; simpl.
      destruct (Py.nonempty a); reflexivity.
    + unfold from_pretrained, bind, lift_res; simpl.
      destruct (Py.nonempty b); reflexivity.
    + unfold from_pretrained, bind, lift_res; simpl.
      destruct (Py.nonempty c); reflexivity.
Qed.

Lemma from_pretrained_exactly_one_argument_witness :
  non_null (Some "123") + non_null (Some "456") + non_null None <> 1 /\
  from_pretrained Sim.collaborators (Some "123") (Some "456") None
    (Sim.world None Sim.empty_env)
  = (Raise (ArgumentError argument_names), Sim.world None Sim.empty_env).
Proof.
  split.
  - simpl. discriminate.
  - apply (proj1 (from_pretrained_exactly_one_argument Sim.collaborators
                    (Some "123") (Some "456") None
                    (Sim.world None Sim.empty_env))).
    simpl. discriminate.
Defined.

(** ** Runs of the registration routines *)

(** A registration that returns has made its five calls, each returning. *)
Lemma register_as_ok {E : Type} (C : Collaborators E) (f : Framework)
    (model : ModelObj) (bucket : string) (rewrapper : Rewrapper)
    (use_gpu : bool) (w w' : World E) (vm : ModelResource) :
  register_as C f model bucket rewrapper use_gpu w = (Ok vm, w') ->
  exists ts e1 e2 e3 img,
    let gcs_dir := Py.os_path_join bucket (registered_name f ts) in
    timestamped_unique_name C (env w) = (ts, e1) /\
    serialize C (ORewrapper rewrapper) (written_rewrapper_path f gcs_dir)
      None e1 = (Ok tt, e2) /\
    serialize C (OModel model) (written_model_path f gcs_dir)
      (save_format_of f) e2 = (Ok tt, e3) /\
    get_prebuilt_prediction_container_uri C (container_request f use_gpu)
      = Ok img /\
    Model_upload C (upload_request f bucket ts img) e3 = (Ok vm, env w') /\
    trace w' =
      (trace w
       ++ map returned
            (registration_calls f model bucket rewrapper use_gpu ts img))%list /\
    global_config w' = global_config w.
Proof.
  destruct f; unfold_routines; repeat run_call; intros H;
    try discriminate H; injection H as <- <-;
    match goal with
    | Hs1 : serialize _ (ORewrapper _) _ _ _ = (Ok ?u1, _),
      Hs2 : serialize _ (OModel _) _ _ _ = (Ok ?u2, _) |- _ =>
        destruct u1, u2
    end;
    do 5 eexists; cbn;
    (repeat split; try eassumption; try reflexivity);
    cbn; rewrite <- !app_assoc; reflexivity.
Qed.

(** Whatever a registration does, it only adds collaborator calls to the
    trace; when it raises, the exception is the one its last call raised,
    and when it returns, its last call is the upload. *)
Lemma register_as_trace {E : Type} (C : Collaborators E) (f : Framework)
    (model : ModelObj) (bucket : string) (rewrapper : Rewrapper)
    (use_gpu : bool) (w w' : World E) (res : Res ModelResource) :
  register_as C f model bucket rewrapper use_gpu w = (res, w') ->
  exists mid,
    trace w' = (trace w ++ mid)%list /\
    forallb is_call mid = true /\
    global_config w' = global_config w /\
    (forall e, res = Raise e ->
       exists c, last mid EvUnwrap = EvCall c (Some e)) /\
    (forall vm, res = Ok vm ->
       exists req, last mid EvUnwrap = EvCall (CUpload req) None) /\
    (forall o p fmt r,
       In (EvCall (CSerialize o p fmt) r) mid ->
       o = ORewrapper rewrapper \/ o = OModel model).
Proof.
  destruct f; unfold_routines; repeat run_call; intros H;
    injection H as <- <-; eexists; cbn;
    (split; [rewrite <- ?app_assoc; cbn; reflexivity|]);
    (split; [reflexivity|]); (split; [reflexivity|]);
    (split; [intros ? Hr; try discriminate Hr; injection Hr as <-;
             eexists; reflexivity|]);
    (split; [intros ? Hr; try discriminate Hr; eexists; reflexivity|]);
    intros o' p' fmt' r' Hin; cbn in Hin;
    repeat (destruct Hin as [Hin|Hin];
            [try discriminate Hin; injection Hin as <- <- <- <-;
             auto|]);
    try contradiction.
Qed.

(** The [try] block dispatches on the detected framework. *)
Lemma register_try_dispatch {E : Type} (C : Collaborators E)
    (model : ModelObj) (bucket : string) (rewrapper : Rewrapper)
    (use_gpu : bool) :
  register_try C model bucket rewrapper use_gpu =
  match detect_framework model with
  | Some f => register_as C f model bucket rewrapper use_gpu
  | None => raise UnsupportedFrameworkError_upload
  end.
Proof.
  unfold register_try, detect_framework.
  destruct (Py.startswith (module_name model) "sklearn"); [reflexivity|].
  destruct (Py.startswith (module_name model) "keras"
            || has_tracking_metadata model); [reflexivity|].
  destruct (Py.contains "torch" (module_name model) || has_state_dict model);
    reflexivity.
Qed.

(** Detaching the wrapper does not change what the detection looks at. *)
Lemma detect_framework_unwrapped (model : ModelObj) :
  detect_framework (snd (_unwrapper model)) = detect_framework model.
Proof. reflexivity. Qed.

Lemma rewrap_unwrapper (model : ModelObj) :
  rewrap (fst (_unwrapper model)) (snd (_unwrapper model)) = model.
Proof. destruct model; reflexivity. Qed.

(** The construction of the serializer adds the unwrap and its own call
    to the trace and keeps the configuration. *)
Lemma serializer_construction_trace {E : Type} (C : Collaborators E)
    (w : World E) :
  trace (snd (serializer_construction C w))
  = (trace w
     ++ [EvUnwrap;
         EvCall CAnySerializer
           (raised_of (fst (serializer_construction C w)))])%list /\
  global_config (snd (serializer_construction C w)) = global_config w.
Proof.
  unfold serializer_construction, new_serializer, call_write.
  cbn [log env]. destruct (AnySerializer C (env w)) as [r e'].
  cbn [fst snd log set_env trace global_config].
  rewrite <- app_assoc. split; reflexivity.
Qed.

(** [register] with a staging bucket: unwrap and construction of the
    serializer; then, if the construction returned, the [try] block and
    the rewrap. *)
Lemma register_unfold {E : Type} (C : Collaborators E) (model : ModelObj)
    (use_gpu : bool) (w : World E) (bucket : string) :
  Py.truthy (staging_bucket (global_config w)) = Some bucket ->
  register C model use_gpu w =
  match fst (serializer_construction C w) with
  | Raise e =>
      (Raise e, snd (_unwrapper model), snd (serializer_construction C w))
  | Ok _ =>
      (fst (register_try C (snd (_unwrapper model)) bucket
              (fst (_unwrapper model)) use_gpu
              (snd (serializer_construction C w))),
       model,
       log EvRewrap
         (snd (register_try C (snd (_unwrapper model)) bucket
                 (fst (_unwrapper model)) use_gpu
                 (snd (serializer_construction C w)))))
  end.
Proof.
  intros H. unfold register, serializer_construction. rewrite H.
  cbn [_unwrapper fst snd].
  destruct (new_serializer C (log EvUnwrap w)) as [[u|e] w0];
    cbn [fst snd]; [|reflexivity].
  destruct (register_try C _ bucket _ use_gpu w0) as [r w1].
  cbn [fst snd]. f_equal. f_equal. apply (rewrap_unwrapper model).
Qed.

Lemma count_app (p : Event -> bool) (t1 t2 : list Event) :
  count p (t1 ++ t2) = count p t1 + count p t2.
Proof. unfold count. rewrite filter_app, length_app. reflexivity. Qed.

Lemma count_calls_unwrap (mid : list Event) :
  forallb is_call mid = true -> count is_unwrap mid = 0.
Proof.
  induction mid as [|ev mid IH]; [reflexivity|].
  simpl. intros H. apply andb_prop in H as [Hev Hmid].
  destruct ev; try discriminate Hev. apply IH, Hmid.
Qed.

Lemma count_calls_rewrap (mid : list Event) :
  forallb is_call mid = true -> count is_rewrap mid = 0.
Proof.
  induction mid as [|ev mid IH]; [reflexivity|].
  simpl. intros H. apply andb_prop in H as [Hev Hmid].
  destruct ev; try discriminate Hev. apply IH, Hmid.
Qed.

(** The trace of the [try] block, whatever the framework. *)
Lemma register_try_trace {E : Type} (C : Collaborators E)
    (model : ModelObj) (bucket : string) (rewrapper : Rewrapper)
    (use_gpu : bool) (w : World E) :
  exists mid,
    trace (snd (register_try C model bucket rewrapper use_gpu w))
    = (trace w ++ mid)%list /\
    forallb is_call mid = true /\
    (detect_framework model = None ->
     fst (register_try C model bucket rewrapper use_gpu w)
     = Raise UnsupportedFrameworkError_upload /\ mid = []) /\
    (forall e,
       fst (register_try C model bucket rewrapper use_gpu w) = Raise e ->
       (detect_framework model = None /\ e = UnsupportedFrameworkError_upload)
       \/ exists c, last mid EvUnwrap = EvCall c (Some e)) /\
    (forall o p fmt r,
       In (EvCall (CSerialize o p fmt) r) mid ->
       o = ORewrapper rewrapper \/ o = OModel model).
Proof.
  rewrite register_try_dispatch.
  destruct (detect_framework model) as [f|] eqn:Hf.
  - destruct (register_as C f model bucket rewrapper use_gpu w)
      as [res w'] eqn:Hrun.
    destruct (register_as_trace C f model bucket rewrapper use_gpu w w' res
                Hrun) as (mid & Ht & Hc & _ & He & _ & Hs).
    exists mid. cbn. repeat split; try assumption.
    + discriminate.
    + discriminate.
    + intros e Hr. right. apply He, Hr.
  - exists []. cbn. rewrite app_nil_r. repeat split.
    + intros e Hr. left. injection Hr as <-. split; reflexivity.
    + intros o p fmt r [].
Qed.

(** ** The unwrap/rewrap pair *)

(** X23: with a staging bucket configured, [register] detaches the
    wrapper exactly once, before every collaborator call, and then
    constructs the serializer.  When the construction returns, the wrapper
    is reapplied exactly once as the last step, on every path: what is
    serialized is the unwrapped model and its Rewrapper, the model object
    ends as it started, and an exception that comes out is
    UnsupportedFrameworkError_upload raised with no further call made, or
    the very exception the last collaborator call raised.  When the
    construction raises, its exception comes out and nothing else happens:
    the wrapper is not reapplied and the model object is left unwrapped. *)
Theorem register_unwrap_rewrap_pair {E : Type} (C : Collaborators E)
    (model : ModelObj) (use_gpu : bool) (w : World E) (bucket : string) :
  Py.truthy (staging_bucket (global_config w)) = Some bucket ->
  match fst (serializer_construction C w) with
  | Raise e =>
      fst (register C model use_gpu w) = (Raise e, set_wrapper None model) /\
      trace (snd (register C model use_gpu w))
      = (trace w ++ [EvUnwrap; EvCall CAnySerializer (Some e)])%list /\
      count is_unwrap (trace (snd (register C model use_gpu w)))
      = count is_unwrap (trace w) + 1 /\
      count is_rewrap (trace (snd (register C model use_gpu w)))
      = count is_rewrap (trace w)
  | Ok _ =>
      exists mid,
        trace (snd (register C model use_gpu w))
        = (trace w ++ [EvUnwrap; EvCall CAnySerializer None] ++ mid
           ++ [EvRewrap])%list /\
        forallb is_call mid = true /\
        count is_unwrap (trace (snd (register C model use_gpu w)))
        = count is_unwrap (trace w) + 1 /\
        count is_rewrap (trace (snd (register C model use_gpu w)))
        = count is_rewrap (trace w) + 1 /\
        snd (fst (register C model use_gpu w)) = model /\
        (forall o p fmt r,
           In (EvCall (CSerialize o p fmt) r) mid ->
           o = ORewrapper {| captured := wrapper model |}
           \/ o = OModel (set_wrapper None model)) /\
        (detect_framework model = None ->
         fst (fst (register C model use_gpu w))
         = Raise UnsupportedFrameworkError_upload /\ mid = []) /\
        (forall e,
           fst (fst (register C model use_gpu w)) = Raise e ->
           (detect_framework model = None
            /\ e = UnsupportedFrameworkError_upload)
           \/ exists c, last mid EvUnwrap = EvCall c (Some e))
  end.
Proof.
  intros Hb. rewrite (register_unfold C model use_gpu w bucket Hb).
  destruct (serializer_construction_trace C w) as [Hct _].
  destruct (fst (serializer_construction C w)) as [u|e] eqn:Hc;
    cbn [raised_of] in Hct; cbn [_unwrapper fst snd].
  - destruct (register_try_trace C (set_wrapper None model) bucket
                {| captured := wrapper model |} use_gpu
                (snd (serializer_construction C w)))
      as (mid & Ht & Hcalls & Hnone & Hraise & Hser).
    exists mid. cbn [log trace]. rewrite Ht, Hct.
    split; [rewrite <- !app_assoc; reflexivity|].
    split; [assumption|].
    split.
    { rewrite !count_app, (count_calls_unwrap mid Hcalls). cbn. lia. }
    split.
    { rewrite !count_app, (count_calls_rewrap mid Hcalls). cbn. lia. }
    split; [reflexivity|].
    split; [assumption|].
    split; assumption.
  - rewrite Hct. split; [reflexivity|]. split; [reflexivity|].
    rewrite !count_app. cbn. split; lia.
Qed.

Lemma register_unwrap_rewrap_pair_witness :
  Py.truthy
    (staging_bucket
       (global_config (Sim.world (Some "gs://bucket") Sim.empty_env)))
  = Some "gs://bucket" /\
  count is_unwrap
    (trace (snd (register Sim.collaborators Sim.xgboost_model false
                   (Sim.world (Some "gs://bucket") Sim.empty_env)))) = 1 /\
  count is_rewrap
    (trace (snd (register Sim.collaborators Sim.xgboost_model false
                   (Sim.world (Some "gs://bucket") Sim.empty_env)))) = 1.
Proof.
  split; [reflexivity|].
  destruct (register_unwrap_rewrap_pair Sim.collaborators Sim.xgboost_model
              false (Sim.world (Some "gs://bucket") Sim.empty_env)
              "gs://bucket" eq_refl)
    as (mid & _ & _ & Hu & Hr & _).
  split; [exact Hu | exact Hr].
Defined.

(** C2: the rewrap is not guaranteed on every exit path.  On a model that
    carries a wrapper, with a staging bucket configured and a serializer
    whose construction raises, [register] detaches the wrapper, raises
    what the construction raised and never reapplies the wrapper: one
    unwrap, no rewrap, and the model object is left without its wrapper.
    The construction stands between the unwrapper and the [try] block
    whose [finally] reapplies the wrapper on every later failure. *)
Lemma register_construction_failure_skips_rewrap :
  let out :=
    register Sim.collaborators_failing_serializer Sim.sklearn_model false
      (Sim.world (Some "gs://bucket") Sim.empty_env) in
  fst (fst out) = Raise (OtherError "RuntimeError") /\
  wrapper Sim.sklearn_model = Some "remote(training)" /\
  wrapper (snd (fst out)) = None /\
  trace (snd out)
  = [EvUnwrap; EvCall CAnySerializer (Some (OtherError "RuntimeError"))] /\
  count is_unwrap (trace (snd out)) = 1 /\
  count is_rewrap (trace (snd out)) = 0.
Proof. cbv zeta. repeat split. Qed.

(** ** Framework detection *)

(** C3, as amended: with a staging bucket configured and its serializer
    constructed, [register] runs the routine of the first matching
    framework: sklearn when the module name starts with "sklearn"; else
    tensorflow when it starts with "keras" or the object has
    [_tracking_metadata]; else pytorch when "torch" occurs anywhere in the
    module name or the object has [state_dict]; else it raises
    UnsupportedFrameworkError_upload.  (When the construction of the
    serializer raises, that exception comes out before any of this.) *)
Theorem register_detects_framework {E : Type} (C : Collaborators E)
    (model : ModelObj) (use_gpu : bool) (w : World E) (bucket : string) :
  Py.truthy (staging_bucket (global_config w)) = Some bucket ->
  fst (fst (register C model use_gpu w))
  = match fst (serializer_construction C w) with
    | Raise e => Raise e
    | Ok _ =>
        match detect_framework model with
        | Some f =>
            fst (register_as C f (snd (_unwrapper model)) bucket
                   (fst (_unwrapper model)) use_gpu
                   (snd (serializer_construction C w)))
        | None => Raise UnsupportedFrameworkError_upload
        end
    end /\
  (Py.startswith (module_name model) "sklearn" = true ->
   detect_framework model = Some Sklearn) /\
  (Py.startswith (module_name model) "sklearn" = false ->
   Py.startswith (module_name model) "keras" = true
   \/ has_tracking_metadata model = true ->
   detect_framework model = Some Tensorflow) /\
  (Py.startswith (module_name model) "sklearn" = false ->
   Py.startswith (module_name model) "keras" = false ->
   has_tracking_metadata model = false ->
   Py.contains "torch" (module_name model) = true
   \/ has_state_dict model = true ->
   detect_framework model = Some Pytorch) /\
  (Py.startswith (module_name model) "sklearn" = false ->
   Py.startswith (module_name model) "keras" = false ->
   has_tracking_metadata model = false ->
   Py.contains "torch" (module_name model) = false ->
   has_state_dict model = false ->
   detect_framework model = None).
Proof.
  intros Hb. split.
  - rewrite (register_unfold C model use_gpu w bucket Hb).
    destruct (fst (serializer_construction C w)); [|reflexivity].
    cbn [_unwrapper fst snd]. rewrite register_try_dispatch.
    change (detect_framework (set_wrapper None model))
      with (detect_framework model).
    destruct (detect_framework model); reflexivity.
  - unfold detect_framework. repeat split.
    + intros ->. reflexivity.
    + intros -> [-> | ->]; [reflexivity|].
      rewrite orb_true_r. reflexivity.
    + intros -> -> -> [-> | ->]; [reflexivity|].
      rewrite orb_true_r. reflexivity.
    + intros -> -> -> -> ->. reflexivity.
Qed.

Lemma register_detects_framework_witness :
  Py.truthy
    (staging_bucket
       (global_config (Sim.world (Some "gs://bucket") Sim.empty_env)))
  = Some "gs://bucket" /\
  fst (fst (register Sim.collaborators Sim.xgboost_model false
              (Sim.world (Some "gs://bucket") Sim.empty_env)))
  = Raise UnsupportedFrameworkError_upload.
Proof.
  split; [reflexivity|].
  exact (proj1 (register_detects_framework Sim.collaborators
                  Sim.xgboost_model false
                  (Sim.world (Some "gs://bucket") Sim.empty_env)
                  "gs://bucket" eq_refl)).
Defined.

(** C3, as the specification states it, fails: an object whose class lives
    in module "fastai.torch_core", with neither probed attribute, matches
    no prefix, so the stated rule makes [register] raise; the code finds
    "torch" inside the name and registers it as a pytorch model. *)
Lemma torch_inside_module_name_registers :
  detect_framework_by_prefix Sim.torch_core_object = None /\
  fst (fst (register Sim.collaborators Sim.torch_core_object false
              (Sim.world (Some "gs://bucket") Sim.empty_env)))
  <> Raise UnsupportedFrameworkError_upload /\
  map display_name
    (uploads
       (trace (snd (register Sim.collaborators Sim.torch_core_object false
                      (Sim.world (Some "gs://bucket") Sim.empty_env)))))
  = ["vertex-ai-registered-pytorch-model-20230801120000-ab1c2"].
Proof.
  split; [reflexivity|]. split; [|reflexivity].
  vm_compute. discriminate.
Qed.

(** ** The serving container *)

Lemma resolved_images_app (t1 t2 : list Event) :
  resolved_images (t1 ++ t2) = (resolved_images t1 ++ resolved_images t2)%list.
Proof. apply flat_map_app. Qed.

Lemma uploads_app (t1 t2 : list Event) :
  uploads (t1 ++ t2) = (uploads t1 ++ uploads t2)%list.
Proof. apply flat_map_app. Qed.

(** C7, as amended: a [register] that returns has resolved the serving
    container once, with the version pinned per detected framework
    (sklearn 1.0, tensorflow 2.11, pytorch 1.12); the accelerator passed is
    "gpu" or "cpu" after [use_gpu] for tensorflow and pytorch, and none is
    passed for sklearn whatever [use_gpu] is.  The one upload is named
    vertex-ai-registered-<framework>-model-<unique suffix>, carries the
    resolved image and the label registered_by_vertex_ai=true, and for a
    sklearn model on staging bucket gs://bucket its artifact URI is
    gs://bucket/vertex-ai-registered-sklearn-model-<unique suffix>. *)
Theorem register_serving_container {E : Type} (C : Collaborators E)
    (model : ModelObj) (use_gpu : bool) (w : World E) (bucket : string)
    (vm : ModelResource) :
  Py.truthy (staging_bucket (global_config w)) = Some bucket ->
  fst (fst (register C model use_gpu w)) = Ok vm ->
  exists f ts img,
    detect_framework model = Some f /\
    resolved_images (trace (snd (register C model use_gpu w)))
    = (resolved_images (trace w) ++ [container_request f use_gpu])%list /\
    get_prebuilt_prediction_container_uri C (container_request f use_gpu)
    = Ok img /\
    uploads (trace (snd (register C model use_gpu w)))
    = (uploads (trace w) ++ [upload_request f bucket ts img])%list /\
    display_name (upload_request f bucket ts img)
    = "vertex-ai-registered-" ++ framework_name f ++ "-model-" ++ ts /\
    serving_container_image_uri (upload_request f bucket ts img) = img /\
    upload_labels (upload_request f bucket ts img)
    = [("registered_by_vertex_ai", "true")] /\
    (f = Sklearn ->
     container_request f use_gpu
     = {| framework := "sklearn"; framework_version := "1.0";
          accelerator := None |}) /\
    (f = Tensorflow ->
     container_request f use_gpu
     = {| framework := "tensorflow"; framework_version := "2.11";
          accelerator := Some (if use_gpu then "gpu" else "cpu") |}) /\
    (f = Pytorch ->
     container_request f use_gpu
     = {| framework := "pytorch"; framework_version := "1.12";
          accelerator := Some (if use_gpu then "gpu" else "cpu") |}) /\
    (f = Sklearn -> bucket = "gs://bucket" ->
     artifact_uri (upload_request f bucket ts img)
     = "gs://bucket/vertex-ai-registered-sklearn-model-" ++ ts).
Proof.
  intros Hb. rewrite (register_unfold C model use_gpu w bucket Hb).
  destruct (serializer_construction_trace C w) as [Hct _].
  destruct (fst (serializer_construction C w)) as [u|e];
    [|discriminate].
  cbn [raised_of] in Hct.
  cbn [_unwrapper fst snd]. rewrite register_try_dispatch.
  change (detect_framework (set_wrapper None model))
    with (detect_framework model).
  destruct (detect_framework model) as [f|]; [|discriminate].
  destruct (register_as C f (set_wrapper None model) bucket
              {| captured := wrapper model |} use_gpu
              (snd (serializer_construction C w)))
    as [res w1] eqn:Hrun.
  cbn [fst snd]. intros ->.
  destruct (register_as_ok C f _ bucket _ use_gpu _ w1 vm Hrun)
    as (ts & e1 & e2 & e3 & img & _ & _ & _ & Himg & _ & Ht & _).
  exists f, ts, img. cbn [log trace]. rewrite Ht, Hct.
  split; [reflexivity|].
  split.
  { rewrite !resolved_images_app. cbn. rewrite !app_nil_r.
    reflexivity. }
  split; [assumption|].
  split.
  { rewrite !uploads_app. cbn. rewrite !app_nil_r. reflexivity. }
  split; [reflexivity|].
  split; [reflexivity|].
  split; [reflexivity|].
  split; [intros ->; reflexivity|].
  split; [intros ->; reflexivity|].
  split; [intros ->; reflexivity|].
  intros -> ->. reflexivity.
Qed.

Lemma register_serving_container_witness :
  Py.truthy
    (staging_bucket
       (global_config (Sim.world (Some "gs://bucket") Sim.empty_env)))
  = Some "gs://bucket" /\
  (exists vm,
     fst (fst (register Sim.collaborators Sim.keras_model true
                 (Sim.world (Some "gs://bucket") Sim.empty_env))) = Ok vm) /\
  exists f,
    detect_framework Sim.keras_model = Some f /\
    resolved_images
      (trace (snd (register Sim.collaborators Sim.keras_model true
                     (Sim.world (Some "gs://bucket") Sim.empty_env))))
    = [container_request f true].
Proof.
  split; [reflexivity|].
  split; [eexists; reflexivity|].
  destruct (register_serving_container Sim.collaborators Sim.keras_model true
              (Sim.world (Some "gs://bucket") Sim.empty_env) "gs://bucket"
              _ eq_refl eq_refl)
    as (f & ts & img & Hf & Hr & _).
  exists f. split; [exact Hf | exact Hr].
Defined.

(** C7, as the specification states it, fails: registering a sklearn model
    with [use_gpu] set goes through, yet the container is resolved without
    an accelerator and not with "gpu". *)
Lemma sklearn_container_ignores_use_gpu :
  (exists vm,
     fst (fst (register Sim.collaborators Sim.sklearn_model true
                 (Sim.world (Some "gs://bucket") Sim.empty_env))) = Ok vm) /\
  detect_framework Sim.sklearn_model = Some Sklearn /\
  resolved_images
    (trace (snd (register Sim.collaborators Sim.sklearn_model true
                   (Sim.world (Some "gs://bucket") Sim.empty_env))))
  = [{| framework := "sklearn"; framework_version := "1.0";
        accelerator := None |}] /\
  resolved_images
    (trace (snd (register Sim.collaborators Sim.sklearn_model true
                   (Sim.world (Some "gs://bucket") Sim.empty_env))))
  <> [container_request_as_specified Sklearn true].
Proof.
  split; [eexists; reflexivity|].
  split; [reflexivity|].
  split; [reflexivity|].
  vm_compute. discriminate.
Qed.

(** ** Model Garden *)

(** Resolution of a publisher model: the [/]-free name is prefixed, and
    every failure becomes InvalidModelGardenReferenceError. *)
Lemma get_publisher_model_resource_run {E : Type} (C : Collaborators E)
    (short_model_name : string) (w : World E) :
  _get_publisher_model_resource C short_model_name w =
  match PublisherModel_get C (publisher_resource short_model_name) (env w) with
  | Ok pm =>
      (Ok pm,
       log (EvCall (CPublisherModel (publisher_resource short_model_name))
              None) w)
  | Raise e =>
      (Raise InvalidModelGardenReferenceError,
       log (EvCall (CPublisherModel (publisher_resource short_model_name))
              (Some e)) w)
  end.
Proof.
  unfold _get_publisher_model_resource, publisher_resource, call_read.
  destruct (Py.contains "/" short_model_name); cbn;
    destruct (PublisherModel_get C _ (env w)); reflexivity.
Qed.




(** ** Dictionaries *)

Lemma dict_get_key {V : Type} (d : Py.dict V) (k : string) :
  In k (Py.dict_keys d) -> exists v, Py.dict_get d k = Some v.
Proof.
  induction d as [|[k' v'] d IH]; simpl; [intros []|].
  intros [Hk | Hin].
  - subst k'. rewrite String.eqb_refl. eexists; reflexivity.
  - destruct (String.eqb k' k); [eexists; reflexivity | apply IH, Hin].
Qed.

Lemma dict_get_in {V : Type} (d : Py.dict V) (k : string) (v : V) :
  Py.dict_get d k = Some v -> In (k, v) d.
Proof.
  induction d as [|[k' v'] d IH]; simpl; [discriminate|].
  destruct (String.eqb k' k) eqn:Hk.
  - intros H; injection H as <-. apply String.eqb_eq in Hk. subst k'.
    left; reflexivity.
  - intros H. right. apply IH, H.
Qed.

Lemma option_string_eqb_true (a : option string) (b : string) :
  option_string_eqb a b = true <-> a = Some b.
Proof.
  destruct a as [s|]; simpl.
  - rewrite String.eqb_eq. split; [intros ->; reflexivity|].
    intros H; injection H as ->; reflexivity.
  - split; discriminate.
Qed.

Lemma option_string_eqb_false (a : option string) (b : string) :
  option_string_eqb a b = false <-> a <> Some b.
Proof.
  rewrite <- option_string_eqb_true.
  destruct (option_string_eqb a b); split; congruence.
Qed.

(** ** Loading and scanning *)

(** Deserializing a model and its Rewrapper and reapplying the latter
    follows the loading discipline. *)
Lemma load_block_loaded {E : Type} (C : Collaborators E)
    (model_path rewrapper_path : string) (w : World E) :
  Loaded C model_path rewrapper_path w
    ((model <- do_deserialize C model_path ;;
      rewrapper <- do_deserialize C rewrapper_path ;;
      model <- do_call_rewrapper rewrapper model ;;
      ret (VObj model)) w).
Proof.
  unfold bind, do_deserialize, call_read, do_call_rewrapper, ret. cbn.
  destruct (deserialize C model_path (env w)) as [mo|e] eqn:Hm; cbn;
    [|apply loaded_no_model; assumption].
  destruct (deserialize C rewrapper_path (env w)) as [ro|e] eqn:Hr; cbn;
    [|eapply loaded_no_rewrapper; eassumption].
  destruct (call_rewrapper ro mo) as [v|e] eqn:Hc.
  - destruct ro as [?|rw], mo as [md|?]; try discriminate Hc.
    injection Hc as <-. apply loaded_rewrapped; assumption.
  - eapply loaded_ill_typed; eassumption.
Qed.


(** The loop over the labels follows the scanning discipline. *)
Lemma scan_labels_scanned {E : Type} (C : Collaborators E)
    (vm : ModelResource) (model_name : string) (keys : list string) :
  (forall k, In k keys -> exists v, Py.dict_get (labels vm) k = Some v) ->
  forall w : World E,
    Scanned C vm model_name keys w (scan_labels C vm model_name keys w).
Proof.
  induction keys as [|k keys IH]; intros Hkeys w.
  - apply scanned_all.
  - destruct (Hkeys k (or_introl eq_refl)) as [v Hv].
    assert (Hrest : forall k', In k' keys ->
              exists v', Py.dict_get (labels vm) k' = Some v').
    { intros k' Hin. apply Hkeys. right. exact Hin. }
    specialize (IH Hrest).
    simpl. unfold try_label. rewrite Hv.
    destruct (Py.re_match_tuned_model_id v) eqn:Hmatch;
      [|eapply scanned_no_match; eauto].
    unfold bind. rewrite get_publisher_model_resource_run.
    destruct (PublisherModel_get C _ (env w)) as [pm|e] eqn:Hpm.
    + unfold call_read, ret. cbn.
      destruct (model_garden_from_pretrained C _ pm (Some vm) (env w))
        as [h|[msg|class]] eqn:Hbuild; cbn.
      * eapply scanned_handle; eauto.
      * eapply scanned_value_error; eauto.
      * eapply scanned_other_error; eauto.
    + unfold InvalidModelGardenReferenceError.
      eapply scanned_unresolved; eauto.
Qed.

(** A scan calls no deserializer and ends in a handle, in
    NotFromModelGardenError or in an exception that is no [ValueError]. *)
Lemma scanned_outcome {E : Type} (C : Collaborators E) (vm : ModelResource)
    (model_name : string) (keys : list string) (w : World E)
    (out : Res Value * World E) :
  Scanned C vm model_name keys w out ->
  count is_deserialize (trace (snd out)) = count is_deserialize (trace w) /\
  ((exists h, fst out = Ok (VHandle h))
   \/ fst out = Raise (NotFromModelGardenError model_name)
   \/ exists class, fst out = Raise (OtherError class)).
Proof.
  induction 1 as [w | k v ks w out Hv Hm Hs IH
                 | k v ks w e out Hv Hm id Hpm Hs IH
                 | k v ks w pm h Hv Hm id Hpm Hb
                 | k v ks w pm msg out Hv Hm id Hpm Hb Hs IH
                 | k v ks w pm class Hv Hm id Hpm Hb];
    cbn [fst snd log trace] in *.
  - split; [reflexivity|]. right; left; reflexivity.
  - exact IH.
  - destruct IH as [IHc IHo]. split; [|exact IHo].
    rewrite IHc, count_app. cbn. lia.
  - split; [|left; eexists; reflexivity].
    rewrite !count_app. cbn. lia.
  - destruct IH as [IHc IHo]. split; [|exact IHo].
    rewrite IHc, !count_app. cbn. lia.
  - split; [|right; right; eexists; reflexivity].
    rewrite !count_app. cbn. lia.
Qed.

(** When no label value matches the pattern the scan finds nothing and
    calls nobody. *)
Lemma scanned_without_match {E : Type} (C : Collaborators E)
    (vm : ModelResource) (model_name : string) (keys : list string)
    (w : World E) (out : Res Value * World E) :
  Scanned C vm model_name keys w out ->
  (forall k v, In (k, v) (labels vm) ->
     Py.re_match_tuned_model_id v = false) ->
  out = (Raise (NotFromModelGardenError model_name), w).
Proof.
  intros Hs Hno.
  induction Hs as [w | k v ks w out Hv Hm Hs IH
                  | k v ks w e out Hv Hm id Hpm Hs IH
                  | k v ks w pm h Hv Hm id Hpm Hb
                  | k v ks w pm msg out Hv Hm id Hpm Hb Hs IH
                  | k v ks w pm class Hv Hm id Hpm Hb];
    try (apply dict_get_in in Hv; rewrite (Hno k v Hv) in Hm;
         discriminate Hm).
  - reflexivity.
  - exact IH.
Qed.

(** The block of [model_name], once the model resource is fetched. *)
Lemma from_registered_model_run {E : Type} (C : Collaborators E)
    (model_name : string) (vm : ModelResource) (w : World E) :
  Model_get C model_name (global_config w) (env w) = Ok vm ->
  from_registered_model C model_name w =
  let w1 := log (EvCall (CGetModel model_name) None) w in
  if option_string_eqb
       (Py.dict_get (labels vm) "registered_by_vertex_ai") "true"
  then
    match _get_model_file_from_image_uri (image_uri vm) with
    | Ok model_file =>
        (model <- do_deserialize C (Py.os_path_join (uri vm) model_file) ;;
         rewrapper <-
           do_deserialize C (Py.os_path_join (uri vm) "rewrapper") ;;
         model <- do_call_rewrapper rewrapper model ;;
         ret (VObj model)) w1
    | Raise e => (Raise e, w1)
    end
  else
    match labels vm with
    | [] => (Raise (NotRegisteredError model_name), w1)
    | _ :: _ => scan_labels C vm model_name (Py.dict_keys (labels vm)) w1
    end.
Proof.
  intros Hget. unfold from_registered_model, bind at 1, call_read.
  rewrite Hget. cbn.
  destruct (option_string_eqb _ "true").
  - unfold bind at 1, lift_res.
    destruct (_get_model_file_from_image_uri (image_uri vm)); reflexivity.
  - destruct (labels vm); reflexivity.
Qed.

Lemma from_pretrained_model_name {E : Type} (C : Collaborators E)
    (model_name : string) (w : World E) :
  Py.nonempty model_name = true ->
  from_pretrained C (Some model_name) None None w
  = from_registered_model C model_name w.
Proof.
  intros Hne. unfold from_pretrained, bind, lift_res. cbn.
  rewrite Hne. reflexivity.
Qed.

Lemma append_inv_head (a b c : string) : a ++ b = a ++ c -> b = c.
Proof.
  induction a as [|ch a IH]; simpl; [trivial|].
  intros H. injection H as H. apply IH, H.
Qed.

Lemma not_from_model_garden_is_not_not_registered (model_name : string) :
  NotFromModelGardenError model_name <> NotRegisteredError model_name.
Proof.
  unfold NotFromModelGardenError, NotRegisteredError. intros H.
  injection H as H.
  apply append_inv_head in H. discriminate H.
Qed.

(** ** Retrieval of a registered model *)

(** C10: a fetched model whose label registered_by_vertex_ai is present
    with a value other than the exact string "true" does not take the
    registered-model branch (nothing is deserialized) and does not raise
    NotRegisteredError; its labels are scanned for the tuned-model-id
    pattern, and when no label value matches the result is
    NotFromModelGardenError. *)
Theorem registered_label_must_equal_true {E : Type} (C : Collaborators E)
    (model_name : string) (vm : ModelResource) (w : World E)
    (value : string) :
  Py.nonempty model_name = true ->
  Model_get C model_name (global_config w) (env w) = Ok vm ->
  Py.dict_get (labels vm) "registered_by_vertex_ai" = Some value ->
  value <> "true" ->
  let w1 := log (EvCall (CGetModel model_name) None) w in
  let out := from_pretrained C (Some model_name) None None w in
  Scanned C vm model_name (Py.dict_keys (labels vm)) w1 out /\
  count is_deserialize (trace (snd out)) = count is_deserialize (trace w) /\
  fst out <> Raise (NotRegisteredError model_name) /\
  ((forall k v, In (k, v) (labels vm) ->
      Py.re_match_tuned_model_id v = false) ->
   out = (Raise (NotFromModelGardenError model_name), w1)).
Proof.
  intros Hne Hget Hlabel Hvalue w1 out.
  assert (Hscan : Scanned C vm model_name (Py.dict_keys (labels vm)) w1 out).
  { subst out. rewrite (from_pretrained_model_name C model_name w Hne).
    rewrite (from_registered_model_run C model_name vm w Hget). cbv zeta.
    assert (Hno : option_string_eqb
                    (Py.dict_get (labels vm) "registered_by_vertex_ai")
                    "true" = false).
    { apply option_string_eqb_false. rewrite Hlabel. intros H.
      injection H as H. exact (Hvalue H). }
    rewrite Hno.
    destruct (labels vm) as [|kv rest] eqn:Hl; [discriminate Hlabel|].
    rewrite <- Hl. apply scan_labels_scanned.
    intros k Hin. apply dict_get_key, Hin. }
  split; [exact Hscan|].
  destruct (scanned_outcome C vm model_name _ w1 out Hscan) as [Hc Ho].
  split.
  { rewrite Hc. subst w1. cbn [log trace]. rewrite count_app. cbn. lia. }
  split.
  { destruct Ho as [[h Hh] | [Hg | [class Hother]]].
    - rewrite Hh. discriminate.
    - rewrite Hg. intros H. injection H as H.
      apply (not_from_model_garden_is_not_not_registered model_name).
      unfold NotFromModelGardenError, NotRegisteredError. rewrite H.
      reflexivity.
    - rewrite Hother. discriminate. }
  intros Hno. exact (scanned_without_match C vm model_name _ w1 out Hscan Hno).
Qed.

Lemma registered_label_must_equal_true_witness :
  Py.nonempty "mislabelled" = true /\
  Model_get Sim.collaborators "mislabelled"
    (global_config (Sim.world None Sim.garden_env))
    (env (Sim.world None Sim.garden_env)) = Ok Sim.mislabelled_model /\
  Py.dict_get (labels Sim.mislabelled_model) "registered_by_vertex_ai"
  = Some "True" /\
  "True" <> "true" /\
  fst (from_pretrained Sim.collaborators (Some "mislabelled") None None
         (Sim.world None Sim.garden_env))
  <> Raise (NotRegisteredError "mislabelled").
Proof.
  split; [reflexivity|]. split; [reflexivity|]. split; [reflexivity|].
  split; [discriminate|].
  apply (registered_label_must_equal_true Sim.collaborators "mislabelled"
           Sim.mislabelled_model (Sim.world None Sim.garden_env) "True");
    try reflexivity.
  discriminate.
Defined.

(** The file name derived from a container image URI, by cases. *)
Lemma model_file_from_image_uri_cases (container_image_uri : string) :
  (Py.contains "tf" container_image_uri = true ->
   _get_model_file_from_image_uri container_image_uri = Ok EmptyString) /\
  (Py.contains "tf" container_image_uri = false ->
   Py.contains "sklearn" container_image_uri = true ->
   _get_model_file_from_image_uri container_image_uri = Ok "model.pkl") /\
  (Py.contains "tf" container_image_uri = false ->
   Py.contains "sklearn" container_image_uri = false ->
   Py.contains "pytorch" container_image_uri = true ->
   _get_model_file_from_image_uri container_image_uri = Ok "model.mar") /\
  (Py.contains "tf" container_image_uri = false ->
   Py.contains "sklearn" container_image_uri = false ->
   Py.contains "pytorch" container_image_uri = false ->
   _get_model_file_from_image_uri container_image_uri
   = Raise UnsupportedFrameworkError_load).
Proof.
  unfold _get_model_file_from_image_uri. repeat split.
  - intros ->. reflexivity.
  - intros -> ->. reflexivity.
  - intros -> -> ->. reflexivity.
  - intros -> -> ->. reflexivity.
Qed.

(** C5, as amended: for a model resource fetched by
    [from_pretrained(model_name=...)]: with label
    registered_by_vertex_ai=true the model file is derived from the
    container image URI ("tf" inside gives the whole directory, else
    "sklearn" gives model.pkl, else "pytorch" gives model.mar, else
    UnsupportedFrameworkError_load is raised with nothing deserialized),
    the model and the Rewrapper are deserialized from under the artifact
    URI, the Rewrapper is reapplied and the model returned; with no labels
    at all NotRegisteredError is raised; otherwise the labels are scanned
    as [Scanned] says: a resolution failure or a [ValueError] of the handle
    construction moves on to the next label, any other exception of the
    handle construction comes out, and a scan that runs out of labels
    raises NotFromModelGardenError. *)
Theorem from_pretrained_registered_model_dispatch {E : Type}
    (C : Collaborators E) (model_name : string) (vm : ModelResource)
    (w : World E) :
  Py.nonempty model_name = true ->
  Model_get C model_name (global_config w) (env w) = Ok vm ->
  let w1 := log (EvCall (CGetModel model_name) None) w in
  let out := from_pretrained C (Some model_name) None None w in
  let registered := Py.dict_get (labels vm) "registered_by_vertex_ai" in
  (registered = Some "true" ->
   forall model_file,
     (Py.contains "tf" (image_uri vm) = true /\ model_file = EmptyString)
     \/ (Py.contains "tf" (image_uri vm) = false /\
         Py.contains "sklearn" (image_uri vm) = true /\
         model_file = "model.pkl")
     \/ (Py.contains "tf" (image_uri vm) = false /\
         Py.contains "sklearn" (image_uri vm) = false /\
         Py.contains "pytorch" (image_uri vm) = true /\
         model_file = "model.mar") ->
     Loaded C (Py.os_path_join (uri vm) model_file)
       (Py.os_path_join (uri vm) "rewrapper") w1 out) /\
  (registered = Some "true" ->
   Py.contains "tf" (image_uri vm) = false ->
   Py.contains "sklearn" (image_uri vm) = false ->
   Py.contains "pytorch" (image_uri vm) = false ->
   out = (Raise UnsupportedFrameworkError_load, w1)) /\
  (labels vm = [] -> out = (Raise (NotRegisteredError model_name), w1)) /\
  (registered <> Some "true" -> labels vm <> [] ->
   Scanned C vm model_name (Py.dict_keys (labels vm)) w1 out).
Proof.
  intros Hne Hget w1 out registered.
  assert (Hout : out = from_registered_model C model_name w).
  { apply from_pretrained_model_name, Hne. }
  rewrite (from_registered_model_run C model_name vm w Hget) in Hout.
  cbv zeta in Hout. fold w1 in Hout. fold registered in Hout.
  destruct (model_file_from_image_uri_cases (image_uri vm))
    as (Htf & Hsk & Hpt & Hnone).
  repeat split.
  - intros Hreg model_file Hfile.
    apply option_string_eqb_true in Hreg. rewrite Hreg in Hout.
    assert (Hf : _get_model_file_from_image_uri (image_uri vm)
                 = Ok model_file).
    { destruct Hfile as [[H1 ->] | [(H1 & H2 & ->) | (H1 & H2 & H3 & ->)]];
        auto. }
    rewrite Hf in Hout. rewrite Hout. apply load_block_loaded.
  - intros Hreg H1 H2 H3.
    apply option_string_eqb_true in Hreg. rewrite Hreg in Hout.
    rewrite (Hnone H1 H2 H3) in Hout. exact Hout.
  - intros Hl. rewrite Hout. subst registered. rewrite Hl. reflexivity.
  - intros Hreg Hl.
    apply option_string_eqb_false in Hreg. rewrite Hreg in Hout.
    rewrite Hout.
    destruct (labels vm) as [|kv rest] eqn:Hlabels; [contradiction|].
    rewrite <- Hlabels. apply scan_labels_scanned.
    intros k Hin. apply dict_get_key, Hin.
Qed.

Lemma from_pretrained_registered_model_dispatch_witness :
  Py.nonempty "unlabelled" = true /\
  Model_get Sim.collaborators "unlabelled"
    (global_config (Sim.world None Sim.garden_env))
    (env (Sim.world None Sim.garden_env)) = Ok Sim.unlabelled_model /\
  from_pretrained Sim.collaborators (Some "unlabelled") None None
    (Sim.world None Sim.garden_env)
  = (Raise (NotRegisteredError "unlabelled"),
     log (EvCall (CGetModel "unlabelled") None)
       (Sim.world None Sim.garden_env)).
Proof.
  split; [reflexivity|]. split; [reflexivity|].
  apply (from_pretrained_registered_model_dispatch Sim.collaborators
           "unlabelled" Sim.unlabelled_model
           (Sim.world None Sim.garden_env) eq_refl eq_refl).
  reflexivity.
Defined.

(** C5, as the specification states it, fails: the first matching label of
    the tuned model resolves, the construction of its handle raises an
    exception that is no [ValueError], and that exception comes out: the
    scan does not go on to the other matching label, no candidate yields a
    handle, and the result is not NotFromModelGardenError. *)
Lemma handle_construction_error_ends_scan :
  Py.re_match_tuned_model_id "text-bison-001" = true /\
  Py.re_match_tuned_model_id "chat-bison-001" = true /\
  from_pretrained Sim.collaborators_failing_build (Some "tuned") None None
    (Sim.world None Sim.garden_env)
  = (Raise (OtherError "RuntimeError"),
     {| global_config := Sim.config None;
        env := Sim.garden_env;
        trace :=
          [EvCall (CGetModel "tuned") None;
           EvCall (CPublisherModel "publishers/google/models/text-bison@001")
             None;
           EvCall
             (CBuildHandle "publishers/google/models/text-bison@001"
                {| resource_name :=
                     "publishers/google/models/text-bison@001" |}
                (Some Sim.tuned_model))
             (Some (OtherError "RuntimeError"))] |}) /\
  fst (from_pretrained Sim.collaborators_failing_build (Some "tuned") None
         None (Sim.world None Sim.garden_env))
  <> Raise (NotFromModelGardenError "tuned").
Proof.
  split; [reflexivity|]. split; [reflexivity|]. split; [reflexivity|].
  vm_compute. discriminate.
Qed.

(** ** Retrieval from a training job *)






(** A running job that goes on to succeed yields its model, wrapped again;
    one that goes on to fail yields JobNotSucceededError. *)
Example running_job_then_succeeded :
  fst (from_pretrained Sim.collaborators None (Some "job-1") None
         (Sim.world None Sim.garden_env))
  = Ok (VObj (OModel Sim.sklearn_model)) /\
  map (fun ev => match ev with EvCall c _ => [c] | _ => [] end)
    (trace (snd (from_pretrained Sim.collaborators None (Some "job-1") None
                   (Sim.world None Sim.garden_env))))
  = [[CGetJob "job-1"]; [CJobState "job-1"]; [CPoll "job-1"];
     [CJobState "job-1"];
     [CDeserialize "gs://bucket/job-1/output/output_estimator"];
     [CDeserialize "gs://bucket/job-1/output/rewrapper"]; []].
Proof. split; reflexivity. Qed.

Example running_job_then_failed :
  fst (from_pretrained Sim.collaborators None (Some "job-3") None
         (Sim.world None Sim.garden_env))
  = Raise JobNotSucceededError.
Proof. reflexivity. Qed.

(** ** Paths *)

Lemma append_assoc (a b c : string) : (a ++ b) ++ c = a ++ (b ++ c).
Proof.
  induction a as [|ch a IH]; simpl; [reflexivity|]. rewrite IH. reflexivity.
Qed.

Lemma append_empty_r (a : string) : a ++ EmptyString = a.
Proof.
  induction a as [|ch a IH]; simpl; [reflexivity|]. rewrite IH. reflexivity.
Qed.

Lemma nonempty_append_r (a b : string) :
  Py.nonempty b = true -> Py.nonempty (a ++ b) = true.
Proof. destruct a; simpl; [trivial | reflexivity]. Qed.

Lemma endswith_append (a b : string) :
  Py.nonempty b = true ->
  Py.endswith (a ++ b) "/" = Py.endswith b "/".
Proof.
  intros Hb. induction a as [|ch a IH]; [reflexivity|].
  simpl append. simpl Py.endswith. rewrite IH.
  destruct (a ++ b) as [|ch' rest] eqn:Hab.
  - destruct a; simpl in Hab; [subst b; discriminate Hb | discriminate Hab].
  - destruct (Ascii.eqb ch "/"); reflexivity.
Qed.


(** [os.path.join] with a second component that is not absolute. *)
Lemma os_path_join_relative (a b : string) :
  Py.startswith b "/" = false ->
  Py.os_path_join a b = (a ++ separator a) ++ b.
Proof.
  intros Hb. unfold Py.os_path_join, separator. rewrite Hb.
  destruct (negb (Py.nonempty a) || Py.endswith a "/"); simpl.
  - rewrite append_empty_r. reflexivity.
  - rewrite append_assoc. reflexivity.
Qed.

Lemma separator_append (a b : string) :
  Py.nonempty b = true ->
  separator (a ++ b) = if Py.endswith b "/" then EmptyString else "/".
Proof.
  intros Hb. unfold separator.
  rewrite nonempty_append_r, endswith_append by assumption. reflexivity.
Qed.





(** ** The round trip *)








(** The three frameworks go round on the simulated collaborators, and the
    tensorflow model is read from its directory with a final slash. *)
Example round_trip_runs :
  let w0 := Sim.world (Some "gs://bucket") Sim.empty_env in
  let back (m : ModelObj) :=
    match register Sim.collaborators m false w0 with
    | (Ok vm, _, w') =>
        fst (from_pretrained Sim.collaborators (Some (name vm)) None None w')
    | (Raise e, _, _) => Raise e
    end in
  back Sim.sklearn_model = Ok (VObj (OModel Sim.sklearn_model)) /\
  back Sim.keras_model = Ok (VObj (OModel Sim.keras_model)) /\
  back Sim.torch_model = Ok (VObj (OModel Sim.torch_model)).
Proof. repeat split. Qed.

(** ** The tuned-model-id pattern *)

Lemma skip_lower_decompose (s : string) :
  exists a, s = a ++ Py.skip_lower s /\ all_chars Py.is_lower a = true.
Proof.
  induction s as [|c s IH].
  - exists EmptyString. split; reflexivity.
  - simpl. destruct (Py.is_lower c) eqn:Hc.
    + destruct IH as (a & Hs & Ha). exists (String c a). split.
      * simpl. rewrite <- Hs. reflexivity.
      * simpl. rewrite Hc, Ha. reflexivity.
    + exists EmptyString. split; reflexivity.
Qed.

Lemma skip_lower_run (a rest : string) :
  all_chars Py.is_lower a = true ->
  Py.skip_lower (a ++ String "-" rest) = String "-" rest.
Proof.
  induction a as [|c a IH]; simpl; [reflexivity|].
  intros H. apply andb_prop in H as [Hc Ha]. rewrite Hc. apply IH, Ha.
Qed.

Lemma lower_run_dash_spec (s rest : string) :
  Py.lower_run_dash s = Some rest <->
  exists a,
    s = a ++ "-" ++ rest /\ Py.nonempty a = true /\
    all_chars Py.is_lower a = true.
Proof.
  split.
  - destruct s as [|c s]; simpl; [discriminate|].
    destruct (Py.is_lower c) eqn:Hc; [|discriminate].
    destruct (skip_lower_decompose s) as (a & Hs & Ha).
    destruct (Py.skip_lower s) as [|d rest'] eqn:Hskip; [discriminate|].
    destruct (Ascii.eqb d "-") eqn:Hd.
    + apply Ascii.eqb_eq in Hd. subst d. intros H; injection H as <-.
      exists (String c a). simpl. rewrite Hc, Ha, Hs at 1.
      repeat split.
    + intros H. exfalso.
      destruct d as [[] [] [] [] [] [] [] []]; try discriminate H;
        discriminate Hd.
  - intros (a & -> & Hne & Ha). destruct a as [|c a]; [discriminate Hne|].
    simpl in Ha. apply andb_prop in Ha as [Hc Ha].
    simpl. rewrite Hc. rewrite (skip_lower_run a rest Ha). reflexivity.
Qed.

Lemma three_digits_end_spec (s : string) :
  Py.three_digits_end s = true <->
  exists d tail,
    s = d ++ tail /\ String.length d = 3 /\
    all_chars Py.is_digit d = true /\
    (tail = EmptyString \/ tail = line_feed).
Proof.
  split.
  - destruct s as [|a [|b [|c rest]]]; simpl; try discriminate.
    intros H. apply andb_prop in H as [H Hrest].
    apply andb_prop in H as [H Hc]. apply andb_prop in H as [Ha Hb].
    exists (String a (String b (String c EmptyString))), rest.
    simpl. rewrite Ha, Hb, Hc. repeat split.
    destruct rest as [|ch rest]; [left; reflexivity|].
    destruct rest; [|destruct ch as [[] [] [] [] [] [] [] []];
                     discriminate Hrest].
    destruct ch as [[] [] [] [] [] [] [] []]; try discriminate Hrest.
    right. reflexivity.
  - intros (d & tail & -> & Hlen & Hd & Htail).
    destruct d as [|a [|b [|c [|x d]]]]; try discriminate Hlen.
    simpl in Hd. apply andb_prop in Hd as [Ha Hd].
    apply andb_prop in Hd as [Hb Hd]. apply andb_prop in Hd as [Hc _].
    simpl. rewrite Ha, Hb, Hc.
    destruct Htail as [-> | ->]; reflexivity.
Qed.

(** X22: the pattern [from_pretrained] tests the labels with accepts
    exactly: lowercase letters, a dash, lowercase letters, a dash, three
    digits, and then nothing or one final line feed. *)
Lemma re_match_tuned_model_id_spec (s : string) :
  Py.re_match_tuned_model_id s = true <->
  exists a b d tail,
    s = a ++ "-" ++ b ++ "-" ++ d ++ tail /\
    Py.nonempty a = true /\ all_chars Py.is_lower a = true /\
    Py.nonempty b = true /\ all_chars Py.is_lower b = true /\
    String.length d = 3 /\ all_chars Py.is_digit d = true /\
    (tail = EmptyString \/ tail = line_feed).
Proof.
  unfold Py.re_match_tuned_model_id. split.
  - destruct (Py.lower_run_dash s) as [s1|] eqn:H1; [|discriminate].
    destruct (Py.lower_run_dash s1) as [s2|] eqn:H2; [|discriminate].
    intros H3.
    apply lower_run_dash_spec in H1 as (a & -> & Hna & Ha).
    apply lower_run_dash_spec in H2 as (b & -> & Hnb & Hb).
    apply three_digits_end_spec in H3 as (d & tail & -> & Hlen & Hd & Ht).
    exists a, b, d, tail. repeat split; assumption.
  - intros (a & b & d & tail & -> & Hna & Ha & Hnb & Hb & Hlen & Hd & Ht).
    assert (H1 : Py.lower_run_dash (a ++ "-" ++ b ++ "-" ++ d ++ tail)
                 = Some (b ++ "-" ++ d ++ tail)).
    { apply lower_run_dash_spec. exists a. repeat split; assumption. }
    assert (H2 : Py.lower_run_dash (b ++ "-" ++ d ++ tail)
                 = Some (d ++ tail)).
    { apply lower_run_dash_spec. exists b. repeat split; assumption. }
    rewrite H1, H2. apply three_digits_end_spec.
    exists d, tail. repeat split; assumption.
Qed.

(** * Further properties of the workflow *)

(** ** The argument check, for any number of arguments *)

Lemma passed_args_from (fn_args : Py.dict (option string)) (n : nat) :
  fold_left
    (fun passed kv =>
       match snd kv with
       | Some _ => passed + 1
       | None => passed
       end)
    fn_args n
  = n + length (non_null_values fn_args).
Proof.
  revert n. induction fn_args as [|[k v] l IH]; intros n; simpl.
  - lia.
  - rewrite IH. destruct v; simpl; lia.
Qed.

(** X1: whatever arguments [from_pretrained] grows, with ASCII names, the
    check passes exactly when one value of the dictionary is not [None];
    otherwise it raises the [ValueError] that lists every key, in order,
    each the way [repr] prints it: between single quotes, or between
    double quotes when the key holds a single quote and no double quote,
    with backslashes, the quote in use and control characters escaped. *)
Theorem check_passes_iff_one_value (fn_args : Py.dict (option string)) :
  Forall (fun kv => ascii_text (fst kv) = true) fn_args ->
  (length (non_null_values fn_args) = 1 ->
   _check_from_pretrained_passed_exactly_one_arg fn_args = Ok tt) /\
  (length (non_null_values fn_args) <> 1 ->
   _check_from_pretrained_passed_exactly_one_arg fn_args
   = Raise (ValueError
              ("Exactly one of " ++ Py.repr_list (map fst fn_args)
               ++ " must be provided to from_pretrained."))).
Proof.
  intros _.
  unfold _check_from_pretrained_passed_exactly_one_arg, passed_args.
  rewrite passed_args_from. simpl Nat.add. split; intros H.
  - rewrite H. reflexivity.
  - destruct (Nat.eqb (length (non_null_values fn_args)) 1) eqn:Heq.
    + apply Nat.eqb_eq in Heq. contradiction.
    + reflexivity.
Qed.

Lemma check_passes_iff_one_value_witness :
  Forall (fun kv => ascii_text (fst kv) = true)
    [("model's_name", None); ("custom_job_name", Some "job-1");
     ("endpoint\name", Some "e")] /\
  length
    (non_null_values
       [("model's_name", None); ("custom_job_name", Some "job-1");
        ("endpoint\name", Some "e")]) <> 1 /\
  _check_from_pretrained_passed_exactly_one_arg
    [("model's_name", None); ("custom_job_name", Some "job-1");
     ("endpoint\name", Some "e")]
  = Raise
      (ValueError
         ("Exactly one of ["
          ++ String Py.double_quote "model's_name"
          ++ String Py.double_quote
               ", 'custom_job_name', 'endpoint\\name'] must be provided to from_pretrained.")).
Proof.
  assert (Hascii :
            Forall (fun kv => ascii_text (fst kv) = true)
              [("model's_name", None : option string);
               ("custom_job_name", Some "job-1");
               ("endpoint\name", Some "e")])
    by (repeat constructor).
  split; [exact Hascii|].
  split; [cbn; discriminate|].
  apply (proj2
           (check_passes_iff_one_value
              [("model's_name", None); ("custom_job_name", Some "job-1");
               ("endpoint\name", Some "e")] Hascii)).
  cbn. discriminate.
Defined.

(** ** Verification of a job *)

(** X2: a job is accepted exactly when its label trained_by_vertex_ai is
    the string "true"; a missing label, an empty value or any other
    spelling is refused with the same [ValueError]. *)
Theorem verify_custom_job_iff (job : Job) :
  (_verify_custom_job job = Ok tt <->
   Py.dict_get (job_labels job) "trained_by_vertex_ai" = Some "true") /\
  (_verify_custom_job job = Raise UnverifiedJobError <->
   Py.dict_get (job_labels job) "trained_by_vertex_ai" <> Some "true").
Proof.
  unfold _verify_custom_job.
  destruct (Py.dict_get (job_labels job) "trained_by_vertex_ai") as [v|]
    eqn:Hget.
  - simpl. destruct (String.eqb v "true") eqn:Heq.
    + apply String.eqb_eq in Heq. subst v. simpl. split; split;
        try reflexivity; try discriminate; intros H; try discriminate H.
      exfalso. apply H. reflexivity.
    + assert (Hneq : Some v <> Some "true").
      { intros H. injection H as ->. rewrite String.eqb_refl in Heq.
        discriminate Heq. }
      rewrite orb_true_r. split; split; intros H;
        try discriminate H; try reflexivity; try assumption.
      contradiction.
  - simpl. split; split; intros H; try discriminate H; try reflexivity.
    discriminate.
Qed.

(** ** The model file of an image *)

Lemma prefix_append (a b : string) : String.prefix a (a ++ b) = true.
Proof.
  induction a as [|c a IH]; simpl; [destruct b; reflexivity|].
  destruct (ascii_dec c c) as [_|Hn]; [exact IH | contradiction].
Qed.

Lemma contains_prefix (sub s : string) :
  String.prefix sub s = true -> Py.contains sub s = true.
Proof.
  intros H. destruct s; cbn [Py.contains]; rewrite H; reflexivity.
Qed.

Lemma contains_inside (sub a b : string) :
  Py.contains sub (a ++ sub ++ b) = true.
Proof.
  induction a as [|c a IH].
  - change (EmptyString ++ sub ++ b) with (sub ++ b).
    apply contains_prefix, prefix_append.
  - simpl append. cbn [Py.contains]. rewrite IH. apply orb_true_r.
Qed.

(** X3: "tf" anywhere in a container image URI decides for the whole
    directory, whatever else the URI names; without "tf", "sklearn"
    anywhere decides for model.pkl, also in a URI that names pytorch. *)
Theorem tf_in_image_uri_wins (a b : string) :
  _get_model_file_from_image_uri (a ++ "tf" ++ b) = Ok EmptyString /\
  (Py.contains "tf" (a ++ "sklearn" ++ b) = false ->
   _get_model_file_from_image_uri (a ++ "sklearn" ++ b) = Ok "model.pkl").
Proof.
  unfold _get_model_file_from_image_uri. split.
  - rewrite (contains_inside "tf" a b). reflexivity.
  - intros ->. rewrite (contains_inside "sklearn" a b). reflexivity.
Qed.

Lemma tf_in_image_uri_wins_witness :
  Py.contains "tf"
    ("us-docker.pkg.dev/vertex-ai/prediction/" ++ "sklearn" ++
     "-cpu.1-0:latest") = false /\
  _get_model_file_from_image_uri
    ("us-docker.pkg.dev/vertex-ai/prediction/" ++ "sklearn" ++
     "-cpu.1-0:latest") = Ok "model.pkl".
Proof.
  split; [reflexivity|].
  apply (tf_in_image_uri_wins "us-docker.pkg.dev/vertex-ai/prediction/"
           "-cpu.1-0:latest").
  reflexivity.
Defined.

(** ** Resolution of a publisher model *)

(** X4: resolving a short name and resolving the full resource name it
    stands for are the same call with the same outcome, and the only
    exception the resolution lets out is InvalidModelGardenReferenceError,
    whatever the lookup raised. *)
Theorem publisher_model_full_name_is_fixed {E : Type} (C : Collaborators E)
    (short_model_name : string) (w : World E) :
  (Py.contains "/" short_model_name = false ->
   _get_publisher_model_resource C
     ("publishers/google/models/" ++ short_model_name) w
   = _get_publisher_model_resource C short_model_name w) /\
  (forall e,
     fst (_get_publisher_model_resource C short_model_name w) = Raise e ->
     e = InvalidModelGardenReferenceError).
Proof.
  repeat split.
  - intros Hno. unfold _get_publisher_model_resource.
    rewrite Hno.
    assert (Hfull : Py.contains "/"
                      ("publishers/google/models/" ++ short_model_name)
                    = true) by reflexivity.
    rewrite Hfull. reflexivity.
  - intros e. rewrite get_publisher_model_resource_run.
    destruct (PublisherModel_get C _ (env w)); cbn; intros H;
      [discriminate H | injection H as <-; reflexivity].
Qed.

Lemma publisher_model_full_name_is_fixed_witness :
  Py.contains "/" "text-bison@001" = false /\
  _get_publisher_model_resource Sim.collaborators
    "publishers/google/models/text-bison@001"
    (Sim.world None Sim.garden_env)
  = _get_publisher_model_resource Sim.collaborators "text-bison@001"
      (Sim.world None Sim.garden_env).
Proof.
  split; [reflexivity|].
  apply (publisher_model_full_name_is_fixed Sim.collaborators
           "text-bison@001" (Sim.world None Sim.garden_env)).
  reflexivity.
Defined.

(** ** Where a finished job is read *)

(** X5: whatever the output directory of the job, with or without a final
    slash, the estimator and the Rewrapper are read from
    <directory>/output/output_estimator and <directory>/output/rewrapper
    with single slashes; for an empty directory both paths are relative. *)
Theorem job_output_paths (job_dir : string) :
  Py.os_path_join (_generate_remote_job_output_path job_dir)
    _OUTPUT_ESTIMATOR_DIR
  = job_dir ++ separator job_dir ++ "output/output_estimator" /\
  Py.os_path_join (_generate_remote_job_output_path job_dir) _REWRAPPER_NAME
  = job_dir ++ separator job_dir ++ "output/rewrapper" /\
  (Py.endswith job_dir "/" = true -> separator job_dir = EmptyString) /\
  (Py.nonempty job_dir = true -> Py.endswith job_dir "/" = false ->
   separator job_dir = "/") /\
  (job_dir = EmptyString -> separator job_dir = EmptyString).
Proof.
  unfold _generate_remote_job_output_path, _OUTPUT_DIR,
    _OUTPUT_ESTIMATOR_DIR, _REWRAPPER_NAME.
  rewrite (os_path_join_relative job_dir "output") by reflexivity.
  rewrite !os_path_join_relative by reflexivity.
  rewrite separator_append by reflexivity. cbn [Py.endswith].
  rewrite !append_assoc. cbn.
  repeat split.
  - unfold separator. intros ->. rewrite orb_true_r. reflexivity.
  - unfold separator. intros -> ->. reflexivity.
  - intros ->. reflexivity.
Qed.

Lemma job_output_paths_witness :
  Py.endswith "gs://bucket/job-1/" "/" = true /\
  Py.os_path_join (_generate_remote_job_output_path "gs://bucket/job-1/")
    _OUTPUT_ESTIMATOR_DIR
  = "gs://bucket/job-1/output/output_estimator".
Proof.
  split; [reflexivity|].
  destruct (job_output_paths "gs://bucket/job-1/")
    as (Hpath & _ & Hslash & _).
  rewrite Hpath, (Hslash eq_refl). reflexivity.
Defined.
(** ** Retrieval only reads *)

Lemma retrieves_refl {E A : Type} (w : World E) (r : Res A) :
  Retrieves 0 0 0 w (r, w).
Proof.
  exists []. cbn. rewrite app_nil_r. repeat split; lia.
Qed.

Lemma retrieves_weaken {E A : Type} (p d r p' d' r' : nat) (w : World E)
    (out : Res A * World E) :
  Retrieves p d r w out -> p <= p' -> d <= d' -> r <= r' ->
  Retrieves p' d' r' w out.
Proof.
  intros (mid & Ht & Hw & Hp & Hd & Hr) Hp' Hd' Hr'.
  exists mid. repeat split; try assumption; lia.
Qed.

Lemma retrieves_trans {E A B : Type} (p1 d1 r1 p2 d2 r2 : nat)
    (w : World E) (o1 : Res A * World E) (o2 : Res B * World E) :
  Retrieves p1 d1 r1 w o1 -> Retrieves p2 d2 r2 (snd o1) o2 ->
  Retrieves (p1 + p2) (d1 + d2) (r1 + r2) w o2.
Proof.
  intros (m1 & Ht1 & Hw1 & Hp1 & Hd1 & Hr1)
         (m2 & Ht2 & Hw2 & Hp2 & Hd2 & Hr2).
  exists (m1 ++ m2)%list. repeat split.
  - rewrite Ht2, Ht1, app_assoc. reflexivity.
  - rewrite forallb_app, Hw1, Hw2. reflexivity.
  - rewrite count_app. lia.
  - rewrite count_app. lia.
  - rewrite count_app. lia.
Qed.

Lemma retrieves_bind {E A B : Type} (p1 d1 r1 p2 d2 r2 p d r : nat)
    (c : M E A) (k : A -> M E B) (w : World E) :
  Retrieves p1 d1 r1 w (c w) ->
  (forall a w1, c w = (Ok a, w1) -> Retrieves p2 d2 r2 w1 (k a w1)) ->
  p1 + p2 <= p -> d1 + d2 <= d -> r1 + r2 <= r ->
  Retrieves p d r w (bind c k w).
Proof.
  intros Hc Hk Hp Hd Hr. unfold bind.
  destruct (c w) as [[a|e] w1] eqn:Hcw.
  - apply (retrieves_weaken (p1 + p2) (d1 + d2) (r1 + r2));
      try assumption.
    apply (retrieves_trans p1 d1 r1 p2 d2 r2 w (Ok a, w1));
      [exact Hc|]. apply Hk. reflexivity.
  - apply (retrieves_weaken p1 d1 r1); try lia.
    destruct Hc as (mid & H). exists mid. exact H.
Qed.

(** A call that is neither a write, nor a wait, nor a deserialization. *)
Lemma retrieves_call_read {E A : Type} (c : Call) (f : E -> Res A)
    (w : World E) :
  (forall r, writes_nothing (EvCall c r) = true) ->
  (forall r, is_poll (EvCall c r) = false) ->
  (forall r, is_deserialize (EvCall c r) = false) ->
  Retrieves 0 0 0 w (call_read c f w).
Proof.
  intros Hw Hp Hd. unfold call_read. cbv zeta.
  exists [EvCall c (raised_of (f (env w)))]. cbn [snd log trace].
  unfold count. cbn [filter forallb is_rewrap].
  rewrite Hw, Hp, Hd. cbn. repeat split; lia.
Qed.

Lemma retrieves_deserialize {E : Type} (C : Collaborators E)
    (path : string) (w : World E) :
  Retrieves 0 1 0 w (do_deserialize C path w).
Proof.
  unfold do_deserialize, call_read. cbv zeta.
  exists [EvCall (CDeserialize path) (raised_of (deserialize C path (env w)))].
  cbn. repeat split; lia.
Qed.

Lemma retrieves_wait {E : Type} (C : Collaborators E) (job : Job)
    (w : World E) :
  Retrieves 1 0 0 w
    (call_write (CPoll (job_name job))
       (get_remote_logs_until_complete C job) w).
Proof.
  unfold call_write.
  destruct (get_remote_logs_until_complete C job (env w)) as [r e'].
  exists [EvCall (CPoll (job_name job)) (raised_of r)].
  cbn. repeat split; lia.
Qed.

Lemma retrieves_lift {E A : Type} (r : Res A) (w : World E) :
  Retrieves 0 0 0 w (lift_res r w).
Proof. apply retrieves_refl. Qed.

Lemma retrieves_call_rewrapper {E : Type} (rewrapper model : Obj)
    (w : World E) :
  Retrieves 0 0 1 w (do_call_rewrapper rewrapper model w).
Proof.
  unfold do_call_rewrapper.
  destruct (call_rewrapper rewrapper model).
  - exists [EvRewrap]. cbn. repeat split; lia.
  - apply (retrieves_weaken 0 0 0); try lia. apply retrieves_refl.
Qed.

Lemma retrieves_load {E : Type} (C : Collaborators E)
    (model_path rewrapper_path : string) (w : World E) :
  Retrieves 0 2 1 w
    ((model <- do_deserialize C model_path ;;
      rewrapper <- do_deserialize C rewrapper_path ;;
      model <- do_call_rewrapper rewrapper model ;;
      ret (VObj model)) w).
Proof.
  apply (retrieves_bind 0 1 0 0 1 1); try lia;
    [apply retrieves_deserialize|].
  intros mo w1 _.
  apply (retrieves_bind 0 1 0 0 0 1); try lia;
    [apply retrieves_deserialize|].
  intros ro w2 _.
  apply (retrieves_bind 0 0 1 0 0 0); try lia;
    [apply retrieves_call_rewrapper|].
  intros v w3 _. apply retrieves_refl.
Qed.

Lemma retrieves_publisher {E : Type} (C : Collaborators E)
    (short_model_name : string) (w : World E) :
  Retrieves 0 0 0 w (_get_publisher_model_resource C short_model_name w).
Proof.
  rewrite get_publisher_model_resource_run.
  destruct (PublisherModel_get C _ (env w)) as [pm|e].
  - exists [EvCall (CPublisherModel (publisher_resource short_model_name))
              None].
    cbn. repeat split; lia.
  - exists [EvCall (CPublisherModel (publisher_resource short_model_name))
              (Some e)].
    cbn. repeat split; lia.
Qed.

Lemma retrieves_scan {E : Type} (C : Collaborators E) (vm : ModelResource)
    (model_name : string) (keys : list string) (w : World E) :
  Retrieves 0 0 0 w (scan_labels C vm model_name keys w).
Proof.
  revert w. induction keys as [|k keys IH]; intros w.
  - apply retrieves_refl.
  - simpl. unfold try_label.
    destruct (Py.dict_get (labels vm) k) as [v|]; [|apply retrieves_refl].
    destruct (Py.re_match_tuned_model_id v); [|apply IH].
    match goal with
    | |- Retrieves 0 0 0 w (match ?run w with _ => _ end) =>
        assert (Hrun : Retrieves 0 0 0 w (run w))
    end.
    { apply (retrieves_bind 0 0 0 0 0 0); try lia;
        [apply retrieves_publisher|].
      intros pm w1 _.
      apply (retrieves_bind 0 0 0 0 0 0); try lia;
        [apply retrieves_call_read; intros; reflexivity|].
      intros h w2 _. apply retrieves_refl. }
    match goal with
    | |- Retrieves 0 0 0 w (match ?run with _ => _ end) =>
        destruct run as [[v'|[msg|class]] w'] eqn:Heq
    end.
    + exact Hrun.
    + apply (retrieves_trans 0 0 0 0 0 0 w
               (Raise (A := Value) (ValueError msg), w'));
        [exact Hrun | apply IH].
    + exact Hrun.
Qed.

Lemma retrieves_registered_model {E : Type} (C : Collaborators E)
    (model_name : string) (w : World E) :
  Retrieves 0 2 1 w (from_registered_model C model_name w).
Proof.
  unfold from_registered_model.
  apply (retrieves_bind 0 0 0 0 2 1); try lia;
    [apply retrieves_call_read; intros; reflexivity|].
  intros vm w1 _.
  destruct (option_string_eqb _ "true").
  - apply (retrieves_bind 0 0 0 0 2 1); try lia; [apply retrieves_lift|].
    intros model_file w2 _. apply retrieves_load.
  - apply (retrieves_weaken 0 0 0); try lia.
    destruct (labels vm); [apply retrieves_refl | apply retrieves_scan].
Qed.

Lemma retrieves_custom_job {E : Type} (C : Collaborators E)
    (custom_job_name : string) (w : World E) :
  Retrieves 1 2 1 w (from_custom_job C custom_job_name w).
Proof.
  unfold from_custom_job.
  apply (retrieves_bind 0 0 0 1 2 1); try lia;
    [apply retrieves_call_read; intros; reflexivity|].
  intros job w1 _.
  apply (retrieves_bind 0 0 0 1 2 1); try lia;
    [apply retrieves_call_read; intros; reflexivity|].
  intros s w2 _.
  apply (retrieves_bind 0 0 0 1 2 1); try lia; [apply retrieves_lift|].
  intros u w3 _.
  apply (retrieves_bind 1 0 0 0 2 1); try lia.
  { destruct (state_in s (JOB_PENDING_STATES C)).
    - apply (retrieves_bind 1 0 0 0 0 0); try lia; [apply retrieves_wait|].
      intros u' w4 _. apply retrieves_call_read; intros; reflexivity.
    - apply (retrieves_weaken 0 0 0); try lia. apply retrieves_refl. }
  intros s' w4 _.
  destruct (JobState_eqb s' JOB_STATE_SUCCEEDED).
  2:{ apply (retrieves_weaken 0 0 0); try lia. apply retrieves_refl. }
  apply (retrieves_bind 0 2 1 0 0 0); try lia;
    [|intros; apply retrieves_refl].
  unfold _get_model_from_successful_custom_job.
  apply (retrieves_bind 0 1 0 0 1 1); try lia;
    [apply retrieves_deserialize|].
  intros mo w5 _.
  apply (retrieves_bind 0 1 0 0 0 1); try lia;
    [apply retrieves_deserialize|].
  intros ro w6 _.
  apply (retrieves_bind 0 0 1 0 0 0); try lia;
    [apply retrieves_call_rewrapper|].
  intros v w7 _. apply retrieves_refl.
Qed.

(** X6: whatever its arguments and whatever the collaborators answer,
    [from_pretrained] serializes nothing, uploads nothing and detaches no
    wrapper, waits for a job at most once, deserializes at most two
    objects and applies a Rewrapper at most once. *)
Theorem from_pretrained_only_reads {E : Type} (C : Collaborators E)
    (model_name custom_job_name foundation_model_name : option string)
    (w : World E) :
  exists mid,
    trace (snd (from_pretrained C model_name custom_job_name
                  foundation_model_name w))
    = (trace w ++ mid)%list /\
    forallb writes_nothing mid = true /\
    count is_poll mid <= 1 /\
    count is_deserialize mid <= 2 /\
    count is_rewrap mid <= 1.
Proof.
  change (Retrieves 1 2 1 w
            (from_pretrained C model_name custom_job_name
               foundation_model_name w)).
  unfold from_pretrained.
  apply (retrieves_bind 0 0 0 1 2 1); try lia; [apply retrieves_lift|].
  intros u w1 _.
  destruct (Py.truthy model_name).
  { apply (retrieves_weaken 0 2 1); try lia.
    apply retrieves_registered_model. }
  destruct (Py.truthy custom_job_name); [apply retrieves_custom_job|].
  apply (retrieves_weaken 0 0 0); try lia.
  destruct (Py.truthy foundation_model_name); [|apply retrieves_refl].
  unfold from_foundation_model.
  apply (retrieves_bind 0 0 0 0 0 0); try lia;
    [apply retrieves_publisher|].
  intros pm w2 _.
  apply (retrieves_bind 0 0 0 0 0 0); try lia;
    [apply retrieves_call_read; intros; reflexivity|].
  intros h w3 _. apply retrieves_refl.
Qed.

(** ** What is uploaded *)

Lemma register_as_upload {E : Type} (C : Collaborators E) (f : Framework)
    (model : ModelObj) (bucket : string) (rewrapper : Rewrapper)
    (use_gpu : bool) (w w' : World E) (res : Res ModelResource) :
  register_as C f model bucket rewrapper use_gpu w = (res, w') ->
  uploads (trace w') = uploads (trace w)
  \/ exists ts img,
       trace w'
       = (trace w
          ++ map returned
               (firstn 4
                  (registration_calls f model bucket rewrapper use_gpu ts
                     img))
          ++ [EvCall (CUpload (upload_request f bucket ts img))
                (raised_of res)])%list.
Proof.
  destruct f; unfold_routines; repeat run_call; intros H;
    injection H as <- <-;
    first
      [ left; cbn [trace log set_env]; rewrite !uploads_app; cbn;
        rewrite ?app_nil_r; reflexivity
      | right; do 2 eexists; cbn; rewrite <- !app_assoc; reflexivity ].
Qed.

(** X7: with a staging bucket configured, [register] attempts at most one
    upload, and only after the unique name was drawn, the Rewrapper and
    the unwrapped model were both serialized and the serving image was
    resolved, each call having returned, in that order; a registration
    that fails earlier uploads nothing. *)
Theorem register_uploads_complete_artifacts {E : Type} (C : Collaborators E)
    (model : ModelObj) (use_gpu : bool) (w : World E) (bucket : string) :
  Py.truthy (staging_bucket (global_config w)) = Some bucket ->
  uploads (trace (snd (register C model use_gpu w))) = uploads (trace w)
  \/ exists f ts img r,
       detect_framework model = Some f /\
       trace (snd (register C model use_gpu w))
       = (trace w ++ [EvUnwrap; EvCall CAnySerializer None]
          ++ map returned
               (firstn 4
                  (registration_calls f (set_wrapper None model) bucket
                     {| captured := wrapper model |} use_gpu ts img))
          ++ [EvCall (CUpload (upload_request f bucket ts img)) r;
              EvRewrap])%list.
Proof.
  intros Hb. rewrite (register_unfold C model use_gpu w bucket Hb).
  destruct (serializer_construction_trace C w) as [Hct _].
  destruct (fst (serializer_construction C w)) as [u|e0];
    cbn [raised_of] in Hct.
  2:{ left. cbn [snd]. rewrite Hct, uploads_app. cbn.
      rewrite app_nil_r. reflexivity. }
  cbn [_unwrapper fst snd]. rewrite register_try_dispatch.
  change (detect_framework (set_wrapper None model))
    with (detect_framework model).
  destruct (detect_framework model) as [f|].
  - destruct (register_as C f (set_wrapper None model) bucket
                {| captured := wrapper model |} use_gpu
                (snd (serializer_construction C w)))
      as [res w1] eqn:Hrun.
    destruct (register_as_upload C f _ bucket _ use_gpu _ w1 res Hrun)
      as [Hsame | (ts & img & Ht)].
    + left. cbn [snd log trace]. rewrite uploads_app, Hsame, Hct.
      rewrite uploads_app. cbn. rewrite !app_nil_r.
      reflexivity.
    + right. exists f, ts, img, (raised_of res). split; [reflexivity|].
      cbn [snd log trace]. rewrite Ht, Hct.
      rewrite <- !app_assoc. reflexivity.
  - left. cbn [raise snd fst log trace]. rewrite uploads_app, Hct.
    rewrite uploads_app. cbn. rewrite !app_nil_r. reflexivity.
Qed.

Lemma register_uploads_complete_artifacts_witness :
  Py.truthy
    (staging_bucket
       (global_config (Sim.world (Some "gs://bucket") Sim.empty_env)))
  = Some "gs://bucket" /\
  (uploads
     (trace (snd (register Sim.collaborators Sim.xgboost_model false
                    (Sim.world (Some "gs://bucket") Sim.empty_env))))
   = uploads (trace (Sim.world (Some "gs://bucket") Sim.empty_env))
   \/ exists f ts img r,
        detect_framework Sim.xgboost_model = Some f /\
        trace (snd (register Sim.collaborators Sim.xgboost_model false
                      (Sim.world (Some "gs://bucket") Sim.empty_env)))
        = (trace (Sim.world (Some "gs://bucket") Sim.empty_env)
           ++ [EvUnwrap; EvCall CAnySerializer None]
           ++ map returned
                (firstn 4
                   (registration_calls f (set_wrapper None Sim.xgboost_model)
                      "gs://bucket"
                      {| captured := wrapper Sim.xgboost_model |} false ts
                      img))
           ++ [EvCall (CUpload (upload_request f "gs://bucket" ts img)) r;
               EvRewrap])%list).
Proof.
  split; [reflexivity|].
  exact (register_uploads_complete_artifacts Sim.collaborators
           Sim.xgboost_model false
           (Sim.world (Some "gs://bucket") Sim.empty_env) "gs://bucket"
           eq_refl).
Defined.

(** * Properties of the specialist pool service client *)

Module SpecialistPoolServiceClientFacts.

Import SpecialistPoolServiceClient.

(** ** Resource paths *)

Lemma strip_prefix_append (p s : string) : strip_prefix p (p ++ s) = Some s.
Proof.
  induction p as [|c p IH]; simpl; [reflexivity|].
  rewrite Ascii.eqb_refl. exact IH.
Qed.

Lemma strip_prefix_inv (p s rest : string) :
  strip_prefix p s = Some rest -> s = p ++ rest.
Proof.
  revert s. induction p as [|c p IH]; intros s; simpl.
  - intros H; injection H as ->; reflexivity.
  - destruct s as [|b s]; [discriminate|].
    destruct (Ascii.eqb c b) eqn:Hcb; [|discriminate].
    apply Ascii.eqb_eq in Hcb. subst b. intros H.
    rewrite (IH s H). reflexivity.
Qed.

Lemma append_one (a : string) (c : ascii) (b : string) :
  (a ++ String c EmptyString) ++ b = a ++ String c b.
Proof. rewrite append_assoc. reflexivity. Qed.

Lemma one_line_cons (c : ascii) (g : string) :
  one_line (String c g) ->
  is_line_feed c = false /\ (g = EmptyString \/ one_line g).
Proof.
  unfold one_line, free_of. simpl. intros [_ H].
  apply andb_prop in H as [Hc Hg]. split.
  - unfold is_line_feed. destruct (Ascii.eqb c "010"); [discriminate Hc|].
    reflexivity.
  - destruct g as [|c' g]; [left; reflexivity|].
    right. split; [reflexivity | exact Hg].
Qed.

(** The last group of a pattern takes a whole line. *)
Lemma lazy_group_end (name taken g : string) :
  one_line g ->
  lazy_group (re_match []) name taken g = Some [(name, taken ++ g)].
Proof.
  revert taken. induction g as [|c g IH]; intros taken Hg.
  - destruct Hg as [Hne _]. discriminate Hne.
  - apply one_line_cons in Hg as [Hc Hg]. simpl. rewrite Hc.
    destruct Hg as [-> | Hg].
    + reflexivity.
    + destruct g as [|c' g]; [destruct Hg as [Hne _]; discriminate Hne|].
      assert (Hend : at_end (String c' g) = false).
      { apply one_line_cons in Hg as [Hc' _]. simpl.
        destruct g; [exact Hc' | reflexivity]. }
      rewrite Hend. rewrite (IH _ Hg), append_one. reflexivity.
Qed.

(** A group in front of a literal that starts with a slash takes a plain
    segment whole. *)
Lemma lazy_group_stop (k : string -> option (Py.dict string))
    (name taken g rest : string) (groups : Py.dict string) :
  (forall c s, Ascii.eqb c "/" = false -> k (String c s) = None) ->
  plain_segment g ->
  k rest = Some groups ->
  lazy_group k name taken (g ++ rest) = Some ((name, taken ++ g) :: groups).
Proof.
  intros Hk. revert taken. induction g as [|c g IH]; intros taken Hg Hrest.
  - destruct Hg as [[Hne _] _]. discriminate Hne.
  - destruct Hg as [Hline Hslash].
    apply one_line_cons in Hline as [Hc Hline].
    unfold free_of in Hslash. simpl in Hslash.
    apply andb_prop in Hslash as [_ Hslash].
    simpl. rewrite Hc. destruct Hline as [-> | Hline].
    + simpl. rewrite Hrest. reflexivity.
    + destruct g as [|c' g]; [destruct Hline as [Hne _]; discriminate Hne|].
      assert (Hc' : Ascii.eqb c' "/" = false).
      { simpl in Hslash. apply andb_prop in Hslash as [H _].
        destruct (Ascii.eqb c' "/"); [discriminate H | reflexivity]. }
      simpl append at 1. rewrite (Hk c' _ Hc').
      change (String c' (g ++ rest)) with (String c' g ++ rest).
      rewrite (IH _ (conj Hline Hslash) Hrest), append_one. reflexivity.
Qed.

(** What a group matched, read back from a match. *)
Lemma lazy_group_inv (k : string -> option (Py.dict string))
    (name taken s : string) (d : Py.dict string) :
  lazy_group k name taken s = Some d ->
  exists g rest groups,
    s = g ++ rest /\ one_line g /\ k rest = Some groups /\
    d = (name, taken ++ g) :: groups.
Proof.
  revert taken. induction s as [|c s IH]; intros taken; simpl;
    [discriminate|].
  destruct (is_line_feed c) eqn:Hc; [discriminate|].
  assert (Hfree : negb (Ascii.eqb c "010") = true).
  { unfold is_line_feed in Hc. rewrite Hc. reflexivity. }
  destruct (k s) as [groups|] eqn:Hk.
  - intros H; injection H as <-.
    exists (String c EmptyString), s, groups. repeat split; try assumption.
    unfold free_of. simpl. rewrite Hfree. reflexivity.
  - intros H. destruct (IH _ H) as (g & rest & groups & -> & Hg & Hrest & ->).
    exists (String c g), rest, groups. repeat split; try assumption.
    + unfold free_of. simpl. rewrite Hfree. destruct Hg as [_ Hg]. exact Hg.
    + rewrite append_one. reflexivity.
Qed.

Lemma at_end_inv (s : string) :
  at_end s = true -> s = EmptyString \/ s = line_feed.
Proof.
  destruct s as [|c [|c' s]]; simpl; try discriminate; auto.
  unfold is_line_feed. intros H. apply Ascii.eqb_eq in H. subst c.
  right. reflexivity.
Qed.

(** Paths of one segment. *)
Lemma single_segment_round_trip (prefix name segment : string) :
  groupdict_or_empty (re_match [Lit prefix; Group name] (prefix ++ segment))
  = [(name, segment)] <-> one_line segment.
Proof.
  cbn [re_match]. rewrite strip_prefix_append. split.
  - destruct (lazy_group _ name EmptyString segment) as [d|] eqn:Hm;
      [|simpl; intros H; discriminate H].
    simpl. intros ->.
    apply lazy_group_inv in Hm as (g & rest & groups & Hs & Hg & _ & Hd).
    injection Hd as Hd _. simpl in Hd. subst g. exact Hg.
  - intros Hline.
    pose proof (lazy_group_end name EmptyString segment Hline) as Hend.
    cbn [re_match] in Hend. rewrite Hend. reflexivity.
Qed.

(** X8: a billing account, folder, organization or project path parses
    back to the segment it was built from exactly when the segment is not
    empty and has no line feed; in every other case the parser gives
    something else (an empty dictionary or a shorter segment). *)
Theorem single_segment_paths_round_trip (segment : string) :
  (parse_common_billing_account_path (common_billing_account_path segment)
   = [("billing_account", segment)] <-> one_line segment) /\
  (parse_common_folder_path (common_folder_path segment)
   = [("folder", segment)] <-> one_line segment) /\
  (parse_common_organization_path (common_organization_path segment)
   = [("organization", segment)] <-> one_line segment) /\
  (parse_common_project_path (common_project_path segment)
   = [("project", segment)] <-> one_line segment).
Proof.
  split;
    [exact (single_segment_round_trip "billingAccounts/" "billing_account"
              segment)|].
  split; [exact (single_segment_round_trip "folders/" "folder" segment)|].
  split;
    [exact (single_segment_round_trip "organizations/" "organization"
              segment)|].
  exact (single_segment_round_trip "projects/" "project" segment).
Qed.

Lemma slash_literal_needs_slash (text : string) (pattern : list Piece)
    (c : ascii) (s : string) :
  Ascii.eqb c "/" = false ->
  re_match (Lit (String "/" text) :: pattern) (String c s) = None.
Proof.
  intros Hc. cbn [re_match strip_prefix].
  rewrite Ascii.eqb_sym, Hc. reflexivity.
Qed.

(** X9: a location path and a specialist pool path parse back to their
    segments when every segment is non-empty and on one line and every
    segment but the last is free of slashes; the last may contain them. *)
Theorem resource_paths_round_trip (project location specialist_pool : string) :
  plain_segment project ->
  (one_line location ->
   parse_common_location_path (common_location_path project location)
   = [("project", project); ("location", location)]) /\
  (plain_segment location -> one_line specialist_pool ->
   parse_specialist_pool_path
     (specialist_pool_path project location specialist_pool)
   = [("project", project); ("location", location);
      ("specialist_pool", specialist_pool)]).
Proof.
  intros Hp. split.
  - intros Hl.
    unfold parse_common_location_path, common_location_path.
    cbn [re_match]. rewrite strip_prefix_append.
    rewrite (lazy_group_stop _ "project" EmptyString project
               ("/locations/" ++ location)
               [("location", location)]).
    + reflexivity.
    + intros c s Hc.
      apply (slash_literal_needs_slash "locations/" [Group "location"] c s
               Hc).
    + exact Hp.
    + cbn [re_match]. rewrite strip_prefix_append.
      apply (lazy_group_end "location" EmptyString location Hl).
  - intros Hl Hs.
    unfold parse_specialist_pool_path, specialist_pool_path.
    cbn [re_match]. rewrite strip_prefix_append.
    rewrite (lazy_group_stop _ "project" EmptyString project
               ("/locations/" ++ location ++ "/specialistPools/"
                ++ specialist_pool)
               [("location", location);
                ("specialist_pool", specialist_pool)]).
    + reflexivity.
    + intros c s Hc.
      apply (slash_literal_needs_slash "locations/"
               [Group "location"; Lit "/specialistPools/";
                Group "specialist_pool"] c s Hc).
    + exact Hp.
    + cbn [re_match]. rewrite strip_prefix_append.
      rewrite (lazy_group_stop _ "location" EmptyString location
                 ("/specialistPools/" ++ specialist_pool)
                 [("specialist_pool", specialist_pool)]).
      * reflexivity.
      * intros c s Hc.
        apply (slash_literal_needs_slash "specialistPools/"
                 [Group "specialist_pool"] c s Hc).
      * exact Hl.
      * cbn [re_match]. rewrite strip_prefix_append.
        apply (lazy_group_end "specialist_pool" EmptyString specialist_pool
                 Hs).
Qed.

Lemma resource_paths_round_trip_witness :
  plain_segment "my-project" /\ plain_segment "us-central1" /\
  one_line "my-pool" /\
  parse_common_location_path (common_location_path "my-project" "us-central1")
  = [("project", "my-project"); ("location", "us-central1")] /\
  parse_specialist_pool_path
    (specialist_pool_path "my-project" "us-central1" "my-pool")
  = [("project", "my-project"); ("location", "us-central1");
     ("specialist_pool", "my-pool")].
Proof.
  assert (Hp : plain_segment "my-project") by (repeat split).
  assert (Hl : plain_segment "us-central1") by (repeat split).
  assert (Hs : one_line "my-pool") by (repeat split).
  split; [exact Hp|]. split; [exact Hl|]. split; [exact Hs|].
  split.
  - exact (proj1
             (resource_paths_round_trip "my-project" "us-central1" "my-pool"
                Hp)
             (proj1 Hl)).
  - exact (proj2
             (resource_paths_round_trip "my-project" "us-central1" "my-pool"
                Hp)
             Hl Hs).
Defined.

Lemma free_of_append (c : ascii) (a b : string) :
  free_of c (a ++ b) = free_of c a && free_of c b.
Proof.
  unfold free_of. induction a as [|x a IH]; simpl; [reflexivity|].
  rewrite IH, andb_assoc. reflexivity.
Qed.

Lemma one_line_append (a b : string) :
  one_line a -> free_of "010" b = true -> one_line (a ++ b).
Proof.
  intros [Hne Ha] Hb. split.
  - destruct a; [discriminate Hne | reflexivity].
  - rewrite free_of_append, Ha, Hb. reflexivity.
Qed.

(** X10: a project segment that itself contains "/locations/" does not
    come back: the parser gives the part before the first "/locations/" as
    the project and puts the remainder into the location. *)
Theorem location_path_splits_at_first_marker (project inner location : string) :
  plain_segment project -> one_line inner -> one_line location ->
  parse_common_location_path
    (common_location_path (project ++ "/locations/" ++ inner) location)
  = [("project", project);
     ("location", inner ++ "/locations/" ++ location)].
Proof.
  intros Hp Hi Hl.
  unfold parse_common_location_path, common_location_path.
  cbn [re_match]. rewrite strip_prefix_append.
  rewrite !append_assoc.
  rewrite (lazy_group_stop _ "project" EmptyString project
             ("/locations/" ++ inner ++ "/locations/" ++ location)
             [("location", inner ++ "/locations/" ++ location)]).
  - reflexivity.
  - intros c s Hc.
    apply (slash_literal_needs_slash "locations/" [Group "location"] c s Hc).
  - exact Hp.
  - cbn [re_match]. rewrite strip_prefix_append.
    apply (lazy_group_end "location" EmptyString).
    apply one_line_append; [exact Hi|].
    rewrite free_of_append. destruct Hl as [_ Hl]. rewrite Hl. reflexivity.
Qed.

Lemma location_path_splits_at_first_marker_witness :
  plain_segment "my-project" /\ one_line "global" /\ one_line "us-central1" /\
  parse_common_location_path
    (common_location_path ("my-project" ++ "/locations/" ++ "global")
       "us-central1")
  = [("project", "my-project");
     ("location", "global" ++ "/locations/" ++ "us-central1")].
Proof.
  assert (Hp : plain_segment "my-project") by (repeat split).
  assert (Hi : one_line "global") by (repeat split).
  assert (Hl : one_line "us-central1") by (repeat split).
  split; [exact Hp|]. split; [exact Hi|]. split; [exact Hl|].
  exact (location_path_splits_at_first_marker "my-project" "global"
           "us-central1" Hp Hi Hl).
Defined.

Lemma end_inv (rest : string) (groups : Py.dict string) :
  re_match [] rest = Some groups ->
  groups = [] /\ (rest = EmptyString \/ rest = line_feed).
Proof.
  cbn [re_match]. destruct (at_end rest) eqn:Hend; [|discriminate].
  intros H; injection H as <-. split; [reflexivity|].
  apply at_end_inv, Hend.
Qed.

(** X11: whatever the text, the location parser returns the empty
    dictionary or a project and a location that are non-empty and free of
    line feeds, and the path built from them is the text, up to one final
    line feed that the parser drops. *)
Theorem parsed_location_builds_the_path (path : string) :
  parse_common_location_path path = []
  \/ exists project location tail,
       parse_common_location_path path
       = [("project", project); ("location", location)] /\
       one_line project /\ one_line location /\
       (tail = EmptyString \/ tail = line_feed) /\
       path = common_location_path project location ++ tail.
Proof.
  unfold parse_common_location_path.
  destruct (re_match _ path) as [d|] eqn:Hm; [|left; reflexivity].
  right. cbn [re_match] in Hm.
  destruct (strip_prefix "projects/" path) as [r0|] eqn:H0;
    [|discriminate Hm].
  apply strip_prefix_inv in H0. subst path.
  apply lazy_group_inv in Hm as (p & r1 & g1 & -> & Hp & Hk1 & ->).
  destruct (strip_prefix "/locations/" r1) as [r2|] eqn:H1;
    [|discriminate Hk1].
  apply strip_prefix_inv in H1. subst r1.
  apply lazy_group_inv in Hk1 as (l & r3 & g2 & -> & Hl & Hk2 & ->).
  apply (end_inv r3 g2) in Hk2 as [-> Htail].
  exists p, l, r3. simpl groupdict_or_empty.
  repeat split; try assumption; try (destruct Hp; assumption);
    try (destruct Hl; assumption).
  unfold common_location_path. rewrite !append_assoc. reflexivity.
Qed.

(** X12: the same for the specialist pool parser, with its three
    segments. *)
Theorem parsed_specialist_pool_builds_the_path (path : string) :
  parse_specialist_pool_path path = []
  \/ exists project location specialist_pool tail,
       parse_specialist_pool_path path
       = [("project", project); ("location", location);
          ("specialist_pool", specialist_pool)] /\
       one_line project /\ one_line location /\ one_line specialist_pool /\
       (tail = EmptyString \/ tail = line_feed) /\
       path = specialist_pool_path project location specialist_pool ++ tail.
Proof.
  unfold parse_specialist_pool_path.
  destruct (re_match _ path) as [d|] eqn:Hm; [|left; reflexivity].
  right. cbn [re_match] in Hm.
  destruct (strip_prefix "projects/" path) as [r0|] eqn:H0;
    [|discriminate Hm].
  apply strip_prefix_inv in H0. subst path.
  apply lazy_group_inv in Hm as (p & r1 & g1 & -> & Hp & Hk1 & ->).
  destruct (strip_prefix "/locations/" r1) as [r2|] eqn:H1;
    [|discriminate Hk1].
  apply strip_prefix_inv in H1. subst r1.
  apply lazy_group_inv in Hk1 as (l & r3 & g2 & -> & Hl & Hk2 & ->).
  destruct (strip_prefix "/specialistPools/" r3) as [r4|] eqn:H2;
    [|discriminate Hk2].
  apply strip_prefix_inv in H2. subst r3.
  apply lazy_group_inv in Hk2 as (sp & r5 & g3 & -> & Hs & Hk3 & ->).
  apply (end_inv r5 g3) in Hk3 as [-> Htail].
  exists p, l, sp, r5. simpl groupdict_or_empty.
  repeat split; try assumption; try (destruct Hp; assumption);
    try (destruct Hl; assumption); try (destruct Hs; assumption).
  unfold specialist_pool_path. rewrite !append_assoc. reflexivity.
Qed.

(** ** The mTLS endpoint *)

Lemma free_of_cons (c x : ascii) (s : string) :
  free_of c (String x s) = true ->
  Ascii.eqb x c = false /\ free_of c s = true.
Proof.
  unfold free_of. simpl. intros H. apply andb_prop in H as [Hx Hs].
  split; [|exact Hs]. destruct (Ascii.eqb x c); [discriminate Hx|reflexivity].
Qed.

Lemma take_name_run (name rest : string) :
  free_of "." name = true ->
  take_name (name ++ String "." rest) = (name, String "." rest).
Proof.
  induction name as [|c name IH]; intros H; [reflexivity|].
  apply free_of_cons in H as [Hc Hn].
  simpl. rewrite Hc, (IH Hn). reflexivity.
Qed.

Lemma take_name_inv (s name rest : string) :
  take_name s = (name, rest) ->
  s = name ++ rest /\ free_of "." name = true /\
  (rest = EmptyString \/ exists r, rest = String "." r).
Proof.
  revert name rest. induction s as [|c s IH]; intros name rest; simpl.
  - intros H; injection H as <- <-. repeat split. left; reflexivity.
  - destruct (Ascii.eqb c ".") eqn:Hc.
    + apply Ascii.eqb_eq in Hc. subst c.
      intros H; injection H as <- <-. repeat split.
      right. eexists; reflexivity.
    + destruct (take_name s) as [n r] eqn:Ht.
      intros H; injection H as <- <-.
      destruct (IH n r eq_refl) as (-> & Hn & Hr).
      repeat split; [|exact Hr].
      unfold free_of. simpl. rewrite Hc. exact Hn.
Qed.

Lemma strip_prefix_miss (c x : ascii) (old s : string) :
  Ascii.eqb x c = false ->
  strip_prefix (String c old) (String x s) = None.
Proof.
  intros H. cbn [strip_prefix]. rewrite Ascii.eqb_sym, H. reflexivity.
Qed.

Lemma replace_skip (old new a s : string) :
  replace_from old new (String.length a) (a ++ s) = replace_from old new 0 s.
Proof.
  induction a as [|c a IH]; simpl; [|exact IH].
  destruct s; reflexivity.
Qed.

Lemma replace_step (old new : string) (c : ascii) (s : string) :
  replace_from old new 0 (String c s)
  = match strip_prefix old (String c s) with
    | Some _ => new ++ replace_from old new (String.length old - 1) s
    | None => String c (replace_from old new 0 s)
    end.
Proof. reflexivity. Qed.

(** An occurrence at the front is replaced and passed over. *)
Lemma replace_hit (c : ascii) (old new s : string) :
  replace_from (String c old) new 0 (String c (old ++ s))
  = new ++ replace_from (String c old) new 0 s.
Proof.
  rewrite replace_step.
  change (String c (old ++ s)) with (String c old ++ s).
  rewrite strip_prefix_append.
  assert (Hlen : String.length (String c old) - 1 = String.length old)
    by (simpl; lia).
  rewrite Hlen, replace_skip. reflexivity.
Qed.

(** A run without dots is copied when what is looked for starts with a
    dot. *)
Lemma replace_over_name (old new name s : string) :
  free_of "." name = true ->
  replace_from (String "." old) new 0 (name ++ s)
  = name ++ replace_from (String "." old) new 0 s.
Proof.
  induction name as [|c name IH]; intros H; [reflexivity|].
  apply free_of_cons in H as [Hc Hn].
  change (String c name ++ s) with (String c (name ++ s)).
  rewrite replace_step, (strip_prefix_miss "." c old (name ++ s) Hc), (IH Hn).
  reflexivity.
Qed.

(** Two texts with a dot after a dot-free start agree on where the first
    dot is when one starts with the other. *)
Lemma strip_prefix_first_dot (a x n y r : string) :
  free_of "." a = true -> free_of "." n = true ->
  strip_prefix (a ++ String "." x) (n ++ String "." y) = Some r ->
  strip_prefix x y = Some r.
Proof.
  revert n. induction a as [|c a IH]; intros n Ha Hn.
  - destruct n as [|d n]; cbn [append strip_prefix].
    + rewrite Ascii.eqb_refl. trivial.
    + apply free_of_cons in Hn as [Hd _].
      rewrite Ascii.eqb_sym, Hd. intros H; discriminate H.
  - apply free_of_cons in Ha as [Hc Ha].
    destruct n as [|d n]; cbn [append strip_prefix].
    + rewrite Hc. intros H; discriminate H.
    + apply free_of_cons in Hn as [_ Hn].
      destruct (Ascii.eqb c d); [|intros H; discriminate H].
      apply IH; assumption.
Qed.

(** A run without dots in front of ".sandbox.googleapis.com" holds no
    occurrence of "sandbox.googleapis.com". *)
Lemma replace_over_sandbox_name (new name rest : string) :
  free_of "." name = true ->
  replace_from "sandbox.googleapis.com" new 0
    (name ++ String "." (String "s" ("andbox.googleapis.com" ++ rest)))
  = name
    ++ String "."
         (new ++ replace_from "sandbox.googleapis.com" new 0 rest).
Proof.
  induction name as [|c name IH]; intros H.
  - change (EmptyString
            ++ String "." (String "s" ("andbox.googleapis.com" ++ rest)))
      with (String "." (String "s" ("andbox.googleapis.com" ++ rest))).
    rewrite replace_step.
    rewrite (strip_prefix_miss "s" "." "andbox.googleapis.com" _ eq_refl).
    rewrite (replace_hit "s" "andbox.googleapis.com" new rest).
    reflexivity.
  - pose proof H as Hall. apply free_of_cons in H as [Hc Hn].
    change (String c name
            ++ String "." (String "s" ("andbox.googleapis.com" ++ rest)))
      with (String c
              (name
               ++ String "." (String "s" ("andbox.googleapis.com" ++ rest)))).
    rewrite replace_step.
    destruct (strip_prefix "sandbox.googleapis.com"
                (String c
                   (name
                    ++ String "."
                         (String "s" ("andbox.googleapis.com" ++ rest)))))
      as [r|] eqn:Hp.
    + exfalso.
      assert (Hx : strip_prefix "googleapis.com"
                     (String "s" ("andbox.googleapis.com" ++ rest))
                   = Some r).
      { apply (strip_prefix_first_dot "sandbox" "googleapis.com"
                 (String c name)
                 (String "s" ("andbox.googleapis.com" ++ rest)) r);
          [reflexivity | exact Hall | exact Hp]. }
      discriminate Hx.
    + rewrite (IH Hn). reflexivity.
Qed.

(** The two conversions, on an endpoint whose first label is [name]. *)
Lemma mtls_endpoint_shapes (name rest : string) :
  Py.nonempty name = true -> free_of "." name = true ->
  _get_default_mtls_endpoint (Some (name ++ ".googleapis.com" ++ rest))
  = Returned
      (Some (name ++ ".mtls.googleapis.com"
             ++ replace ".googleapis.com" ".mtls.googleapis.com" rest)) /\
  _get_default_mtls_endpoint
    (Some (name ++ ".sandbox.googleapis.com" ++ rest))
  = Returned
      (Some (name ++ ".mtls.sandbox.googleapis.com"
             ++ replace "sandbox.googleapis.com"
                  "mtls.sandbox.googleapis.com" rest)).
Proof.
  intros Hne Hfree.
  assert (Hne' : forall s, Py.nonempty (name ++ s) = true).
  { intros s. destruct name; [discriminate Hne | reflexivity]. }
  unfold _get_default_mtls_endpoint, Py.truthy, mtls_endpoint_re_match,
    replace.
  split.
  - rewrite Hne'.
    change (name ++ ".googleapis.com" ++ rest)
      with (name ++ String "." ("googleapis.com" ++ rest)).
    rewrite (take_name_run name ("googleapis.com" ++ rest) Hfree).
    rewrite Hne.
    assert (H1 : optional_group ".mtls" (String "." ("googleapis.com" ++ rest))
                 = (None, String "." ("googleapis.com" ++ rest)))
      by reflexivity.
    assert (H2 : optional_group ".sandbox"
                   (String "." ("googleapis.com" ++ rest))
                 = (None, String "." ("googleapis.com" ++ rest)))
      by reflexivity.
    assert (H3 : optional_group ".googleapis.com"
                   (String "." ("googleapis.com" ++ rest))
                 = (Some ".googleapis.com", rest)).
    { unfold optional_group.
      change (String "." ("googleapis.com" ++ rest))
        with (".googleapis.com" ++ rest).
      rewrite (strip_prefix_append ".googleapis.com" rest). reflexivity. }
    rewrite H1, H2, H3.
    cbn [mtls_group googledomain_group sandbox_group is_some orb negb].
    rewrite (replace_over_name "googleapis.com" _ name _ Hfree).
    rewrite (replace_hit "." "googleapis.com" ".mtls.googleapis.com" rest).
    reflexivity.
  - rewrite Hne'.
    change (name ++ ".sandbox.googleapis.com" ++ rest)
      with (name
            ++ String "." (String "s" ("andbox.googleapis.com" ++ rest))).
    rewrite (take_name_run name
               (String "s" ("andbox.googleapis.com" ++ rest)) Hfree).
    rewrite Hne.
    assert (H1 : optional_group ".mtls"
                   (String "." (String "s" ("andbox.googleapis.com" ++ rest)))
                 = (None,
                    String "."
                      (String "s" ("andbox.googleapis.com" ++ rest))))
      by reflexivity.
    assert (H2 : optional_group ".sandbox"
                   (String "." (String "s" ("andbox.googleapis.com" ++ rest)))
                 = (Some ".sandbox", ".googleapis.com" ++ rest)).
    { unfold optional_group.
      change (String "." (String "s" ("andbox.googleapis.com" ++ rest)))
        with (".sandbox" ++ (".googleapis.com" ++ rest)).
      rewrite (strip_prefix_append ".sandbox" (".googleapis.com" ++ rest)).
      reflexivity. }
    assert (H3 : optional_group ".googleapis.com" (".googleapis.com" ++ rest)
                 = (Some ".googleapis.com", rest)).
    { unfold optional_group.
      rewrite (strip_prefix_append ".googleapis.com" rest). reflexivity. }
    rewrite H1, H2, H3.
    cbn [mtls_group googledomain_group sandbox_group is_some orb negb].
    rewrite (replace_over_sandbox_name _ name rest Hfree).
    reflexivity.
Qed.

(** X13: for an endpoint whose first label is NAME, the documented
    conversions hold with whatever follows the domain kept in place:
    NAME.googleapis.com becomes NAME.mtls.googleapis.com,
    NAME.sandbox.googleapis.com becomes NAME.mtls.sandbox.googleapis.com,
    and the same replacement is made in every later occurrence of the
    domain in the rest of the text. *)
Theorem default_mtls_endpoint_converts (name rest : string) :
  Py.nonempty name = true -> free_of "." name = true ->
  _get_default_mtls_endpoint (Some (name ++ ".googleapis.com" ++ rest))
  = Returned
      (Some (name ++ ".mtls.googleapis.com"
             ++ replace ".googleapis.com" ".mtls.googleapis.com" rest)) /\
  _get_default_mtls_endpoint
    (Some (name ++ ".sandbox.googleapis.com" ++ rest))
  = Returned
      (Some (name ++ ".mtls.sandbox.googleapis.com"
             ++ replace "sandbox.googleapis.com"
                  "mtls.sandbox.googleapis.com" rest)).
Proof. exact (mtls_endpoint_shapes name rest). Qed.

Lemma default_mtls_endpoint_converts_witness :
  Py.nonempty "us-central1-aiplatform" = true /\
  free_of "." "us-central1-aiplatform" = true /\
  _get_default_mtls_endpoint
    (Some ("us-central1-aiplatform" ++ ".googleapis.com" ++ ":443"))
  = Returned (Some "us-central1-aiplatform.mtls.googleapis.com:443").
Proof.
  split; [reflexivity|]. split; [reflexivity|].
  exact (proj1 (default_mtls_endpoint_converts "us-central1-aiplatform"
                  ":443" eq_refl eq_refl)).
Defined.

Lemma mtls_endpoint_kept (name rest : string) :
  Py.nonempty name = true -> free_of "." name = true ->
  _get_default_mtls_endpoint (Some (name ++ ".mtls" ++ rest))
  = Returned (Some (name ++ ".mtls" ++ rest)).
Proof.
  intros Hne Hfree.
  assert (Hne' : forall s, Py.nonempty (name ++ s) = true).
  { intros s. destruct name; [discriminate Hne | reflexivity]. }
  unfold _get_default_mtls_endpoint, Py.truthy, mtls_endpoint_re_match.
  rewrite Hne'.
  change (name ++ ".mtls" ++ rest) with (name ++ String "." ("mtls" ++ rest)).
  rewrite (take_name_run name ("mtls" ++ rest) Hfree), Hne.
  assert (H1 : optional_group ".mtls" (String "." ("mtls" ++ rest))
               = (Some ".mtls", rest)).
  { unfold optional_group.
    change (String "." ("mtls" ++ rest)) with (".mtls" ++ rest).
    rewrite (strip_prefix_append ".mtls" rest). reflexivity. }
  rewrite H1.
  destruct (optional_group ".sandbox" rest) as [sb r2].
  destruct (optional_group ".googleapis.com" r2) as [gd r3].
  reflexivity.
Qed.

Lemma optional_group_inv (text s : string) (g : option string)
    (rest : string) :
  optional_group text s = (g, rest) ->
  (g = Some text /\ s = text ++ rest) \/ (g = None /\ rest = s).
Proof.
  unfold optional_group.
  destruct (strip_prefix text s) as [r|] eqn:Hs; intros H;
    injection H as <- <-.
  - left. split; [reflexivity | apply strip_prefix_inv, Hs].
  - right. split; reflexivity.
Qed.

(** X14: converting an endpoint that was already converted changes
    nothing: whatever [_get_default_mtls_endpoint] returns, it returns
    again when given it. *)
Theorem default_mtls_endpoint_idempotent (api_endpoint result : option string) :
  _get_default_mtls_endpoint api_endpoint = Returned result ->
  _get_default_mtls_endpoint result = Returned result.
Proof.
  intros Hrun. pose proof Hrun as Hkeep. revert Hrun.
  unfold _get_default_mtls_endpoint at 1.
  destruct (Py.truthy api_endpoint) as [endpoint|] eqn:Htruthy.
  2:{ intros H; injection H as <-. exact Hkeep. }
  apply truthy_some in Htruthy as [-> Hne].
  unfold mtls_endpoint_re_match.
  destruct (take_name endpoint) as [name r0] eqn:Hname.
  apply take_name_inv in Hname as (-> & Hfree & _).
  destruct (Py.nonempty name) eqn:Hnn; [|discriminate].
  destruct (optional_group ".mtls" r0) as [mt r1] eqn:H1.
  destruct (optional_group ".sandbox" r1) as [sb r2] eqn:H2.
  destruct (optional_group ".googleapis.com" r2) as [gd r3] eqn:H3.
  cbn [mtls_group googledomain_group sandbox_group].
  destruct (is_some mt || negb (is_some gd)) eqn:Hkept.
  { intros H; injection H as <-. exact Hkeep. }
  apply orb_false_elim in Hkept as [Hmt Hgd].
  destruct mt as [?|]; [discriminate Hmt|].
  destruct gd as [gd|]; [|discriminate Hgd].
  apply optional_group_inv in H1 as [[H1 _] | [_ ->]]; [discriminate H1|].
  apply optional_group_inv in H3 as [[_ ->] | [H3 _]]; [|discriminate H3].
  apply optional_group_inv in H2 as [[-> ->] | [-> <-]]; intros _.
  - change (name ++ ".sandbox" ++ ".googleapis.com" ++ r3)
      with (name ++ ".sandbox.googleapis.com" ++ r3) in Hkeep.
    rewrite (proj2 (mtls_endpoint_shapes name r3 Hnn Hfree)) in Hkeep.
    injection Hkeep as <-.
    change (name ++ ".mtls.sandbox.googleapis.com"
            ++ replace "sandbox.googleapis.com"
                 "mtls.sandbox.googleapis.com" r3)
      with (name ++ ".mtls"
            ++ (".sandbox.googleapis.com"
                ++ replace "sandbox.googleapis.com"
                     "mtls.sandbox.googleapis.com" r3)).
    apply mtls_endpoint_kept; assumption.
  - rewrite (proj1 (mtls_endpoint_shapes name r3 Hnn Hfree)) in Hkeep.
    injection Hkeep as <-.
    change (name ++ ".mtls.googleapis.com"
            ++ replace ".googleapis.com" ".mtls.googleapis.com" r3)
      with (name ++ ".mtls"
            ++ (".googleapis.com"
                ++ replace ".googleapis.com" ".mtls.googleapis.com" r3)).
    apply mtls_endpoint_kept; assumption.
Qed.

Lemma default_mtls_endpoint_idempotent_witness :
  _get_default_mtls_endpoint (Some "aiplatform.googleapis.com")
  = Returned (Some "aiplatform.mtls.googleapis.com") /\
  _get_default_mtls_endpoint (Some "aiplatform.mtls.googleapis.com")
  = Returned (Some "aiplatform.mtls.googleapis.com").
Proof.
  split; [reflexivity|].
  apply (default_mtls_endpoint_idempotent (Some "aiplatform.googleapis.com")).
  reflexivity.
Defined.

(** X15: an endpoint is refused, with the [AttributeError] of a match
    that did not happen, exactly when it starts with a dot; every other
    endpoint, the empty one and [None] included, gets an answer. *)
Theorem default_mtls_endpoint_raises_iff_leading_dot (endpoint : string) :
  (exists rest, endpoint = String "." rest) <->
  (exists e, _get_default_mtls_endpoint (Some endpoint) = Thrown e).
Proof.
  split.
  - intros [rest ->]. eexists. reflexivity.
  - intros [e H]. revert H. unfold _get_default_mtls_endpoint.
    destruct (Py.truthy (Some endpoint)) as [ep|] eqn:Htruthy;
      [|discriminate].
    apply truthy_some in Htruthy as [Heq Hne]. injection Heq as <-.
    unfold mtls_endpoint_re_match.
    destruct (take_name endpoint) as [name r0] eqn:Hname.
    apply take_name_inv in Hname as (-> & _ & Hr0).
    destruct name as [|c name].
    + destruct Hr0 as [-> | [r ->]]; [discriminate Hne|].
      intros _. exists r. reflexivity.
    + cbn [Py.nonempty].
      destruct (optional_group ".mtls" r0) as [mt r1].
      destruct (optional_group ".sandbox" r1) as [sb r2].
      destruct (optional_group ".googleapis.com" r2) as [gd r3].
      cbn [mtls_group googledomain_group sandbox_group].
      destruct (is_some mt || negb (is_some gd)); [discriminate|].
      destruct (is_some sb); discriminate.
Qed.

(** ** Endpoint and client certificate *)

Lemma one_of_cert (v : string) :
  one_of v ["true"; "false"] = true -> v = "true" \/ v = "false".
Proof.
  unfold one_of. cbn [existsb]. intros H.
  apply orb_prop in H as [H | H]; [left | right].
  - apply String.eqb_eq in H. congruence.
  - rewrite orb_false_r in H. apply String.eqb_eq in H. congruence.
Qed.

(** X16: the only ways [get_mtls_endpoint_and_cert_source] fails, in the
    order it checks them: GOOGLE_API_USE_CLIENT_CERTIFICATE (default
    "false") is neither "true" nor "false", which is a [ValueError] whatever
    else is wrong; else GOOGLE_API_USE_MTLS_ENDPOINT (default "auto") is
    none of "auto", "never", "always", which is a MutualTLSChannelError;
    else the default client certificate source is consulted (certificates
    on, none given in the options, a default exists) and raises. *)
Theorem endpoint_choice_failures (environ : Environ) (mtls : Mtls)
    (client_options : option ClientOptions) (e : error) :
  let use_client_cert :=
    getenv (GOOGLE_API_USE_CLIENT_CERTIFICATE environ) "false" in
  let use_mtls_endpoint :=
    getenv (GOOGLE_API_USE_MTLS_ENDPOINT environ) "auto" in
  let given :=
    match client_options with
    | Some o => client_cert_source o
    | None => None
    end in
  get_mtls_endpoint_and_cert_source environ mtls client_options = Thrown e
  <->
  (one_of use_client_cert ["true"; "false"] = false /\
   e = ClientValueError
         "Environment variable `GOOGLE_API_USE_CLIENT_CERTIFICATE` must be either `true` or `false`")
  \/ (one_of use_client_cert ["true"; "false"] = true /\
      one_of use_mtls_endpoint ["auto"; "never"; "always"] = false /\
      e = MutualTLSChannelError
            "Environment variable `GOOGLE_API_USE_MTLS_ENDPOINT` must be `never`, `auto` or `always`")
  \/ (use_client_cert = "true" /\
      one_of use_mtls_endpoint ["auto"; "never"; "always"] = true /\
      given = None /\ has_default_client_cert_source mtls = true /\
      default_client_cert_source mtls = Thrown e).
Proof.
  cbv zeta. unfold get_mtls_endpoint_and_cert_source.
  set (cert := getenv (GOOGLE_API_USE_CLIENT_CERTIFICATE environ) "false").
  set (endp := getenv (GOOGLE_API_USE_MTLS_ENDPOINT environ) "auto").
  set (options := match client_options with
                  | Some o => o
                  | None => default_client_options
                  end).
  assert (Hgiven : match client_options with
                   | Some o => client_cert_source o
                   | None => None
                   end = client_cert_source options).
  { subst options. destruct client_options; reflexivity. }
  rewrite Hgiven. clear Hgiven.
  destruct (one_of cert ["true"; "false"]) eqn:Hcert; cbn [negb].
  2:{ split.
      - intros H; injection H as <-. left. split; reflexivity.
      - intros [[_ ->] | [[H _] | [H _]]]; [reflexivity | discriminate H |].
        rewrite H in Hcert. discriminate Hcert. }
  destruct (one_of endp ["auto"; "never"; "always"]) eqn:Hendp; cbn [negb].
  2:{ split.
      - intros H; injection H as <-. right; left. repeat split.
      - intros [[H _] | [[_ [_ ->]] | [_ [H _]]]];
          [discriminate H | reflexivity | discriminate H]. }
  destruct (String.eqb cert "true") eqn:Htrue.
  - apply String.eqb_eq in Htrue.
    destruct (client_cert_source options) as [source|] eqn:Hsrc.
    + split; [discriminate|].
      intros [[H _] | [[_ [H _]] | (_ & _ & H & _)]]; discriminate H.
    + destruct (has_default_client_cert_source mtls) eqn:Hhas.
      * destruct (default_client_cert_source mtls) as [source|e'] eqn:Hdef.
        -- split; [discriminate|].
           intros [[H _] | [[_ [H _]] | (_ & _ & _ & _ & H)]];
             discriminate H.
        -- split.
           ++ intros H; injection H as <-. right; right. repeat split.
              exact Htrue.
           ++ intros [[H _] | [[_ [H _]] | (_ & _ & _ & _ & H)]];
                try discriminate H.
              injection H as <-. reflexivity.
      * split; [discriminate|].
        intros [[H _] | [[_ [H _]] | (_ & _ & _ & H & _)]]; discriminate H.
  - split; [discriminate|].
    intros [[H _] | [[_ [H _]] | [H _]]]; try discriminate H.
    rewrite H in Htrue. discriminate Htrue.
Qed.

(** X17: what [get_mtls_endpoint_and_cert_source] returns: a client
    certificate source only when GOOGLE_API_USE_CLIENT_CERTIFICATE is
    "true" (one given in the options is dropped otherwise); the endpoint of
    the options, as it is, whenever one is given; and otherwise the mTLS
    default exactly when GOOGLE_API_USE_MTLS_ENDPOINT is "always", or is
    "auto" (its default) and a certificate source was found, the plain
    default in every other case. *)
Theorem endpoint_choice (environ : Environ) (mtls : Mtls)
    (client_options : option ClientOptions) (endpoint : string)
    (source : option string) :
  get_mtls_endpoint_and_cert_source environ mtls client_options
  = Returned (endpoint, source) ->
  let use_client_cert :=
    getenv (GOOGLE_API_USE_CLIENT_CERTIFICATE environ) "false" in
  let use_mtls_endpoint :=
    getenv (GOOGLE_API_USE_MTLS_ENDPOINT environ) "auto" in
  let given :=
    match client_options with
    | Some o => api_endpoint o
    | None => None
    end in
  (source <> None -> use_client_cert = "true") /\
  (forall explicit, given = Some explicit -> endpoint = explicit) /\
  (given = None ->
   (use_mtls_endpoint = "always"
    \/ (use_mtls_endpoint = "auto" /\ source <> None) ->
    endpoint = DEFAULT_MTLS_ENDPOINT) /\
   (use_mtls_endpoint <> "always" ->
    use_mtls_endpoint <> "auto" \/ source = None ->
    endpoint = DEFAULT_ENDPOINT)) /\
  DEFAULT_MTLS_ENDPOINT = "aiplatform.mtls.googleapis.com" /\
  DEFAULT_ENDPOINT = "aiplatform.googleapis.com".
Proof.
  cbv zeta. unfold get_mtls_endpoint_and_cert_source.
  set (cert := getenv (GOOGLE_API_USE_CLIENT_CERTIFICATE environ) "false").
  set (endp := getenv (GOOGLE_API_USE_MTLS_ENDPOINT environ) "auto").
  set (options := match client_options with
                  | Some o => o
                  | None => default_client_options
                  end).
  assert (Hgiven : match client_options with
                   | Some o => api_endpoint o
                   | None => None
                   end = api_endpoint options).
  { subst options. destruct client_options; reflexivity. }
  rewrite Hgiven. clear Hgiven.
  destruct (negb (one_of cert ["true"; "false"])); [discriminate|].
  destruct (negb (one_of endp ["auto"; "never"; "always"])); [discriminate|].
  match goal with
  | |- match ?run with _ => _ end = _ -> _ =>
      destruct run as [src|] eqn:Hfound; [|discriminate]
  end.
  intros H. injection H as Hendpoint <-.
  assert (Hsource : src <> None -> cert = "true").
  { intros Hsome. destruct (String.eqb cert "true") eqn:Htrue.
    - apply String.eqb_eq, Htrue.
    - injection Hfound as <-. contradiction. }
  split; [exact Hsource|].
  split.
  { intros explicit Hexp. rewrite Hexp in Hendpoint. symmetry.
    exact Hendpoint. }
  split; [|split; reflexivity].
  intros Hnone. rewrite Hnone in Hendpoint. split.
  - intros [-> | [-> Hsome]].
    + rewrite <- Hendpoint. reflexivity.
    + rewrite <- Hendpoint. destruct src; [reflexivity | contradiction].
  - intros Hnot Hor. rewrite <- Hendpoint.
    destruct (String.eqb endp "always") eqn:Halways.
    + apply String.eqb_eq in Halways. contradiction.
    + destruct (String.eqb endp "auto") eqn:Hauto; [|reflexivity].
      apply String.eqb_eq in Hauto.
      destruct Hor as [Hne | ->]; [contradiction | reflexivity].
Qed.

Lemma endpoint_choice_witness :
  get_mtls_endpoint_and_cert_source
    {| GOOGLE_API_USE_CLIENT_CERTIFICATE := None;
       GOOGLE_API_USE_MTLS_ENDPOINT := None |}
    {| has_default_client_cert_source := true;
       default_client_cert_source := Returned "default-source" |}
    (Some {| api_endpoint := None;
             client_cert_source := Some "my-source" |})
  = Returned ("aiplatform.googleapis.com", None) /\
  ((None : option string) <> None ->
   getenv None "false" = "true").
Proof.
  split; [reflexivity|].
  exact (proj1 (endpoint_choice
                  {| GOOGLE_API_USE_CLIENT_CERTIFICATE := None;
                     GOOGLE_API_USE_MTLS_ENDPOINT := None |}
                  {| has_default_client_cert_source := true;
                     default_client_cert_source := Returned "default-source" |}
                  (Some {| api_endpoint := None;
                           client_cert_source := Some "my-source" |})
                  "aiplatform.googleapis.com" None eq_refl)).
Defined.

End SpecialistPoolServiceClientFacts.

(** ** Pipeline job schedules *)

Module PipelineJobScheduleFacts.

Import PipelineJobSchedule.

Section Facts.

Context {E Msg T : Type} (svc : Service E Msg T).

Lemma or_idempotent (a b : option string) : or_ (or_ a b) b = or_ a b.
Proof.
  unfold or_.
  destruct (truth (option_map Str a)) eqn:Ha.
  - rewrite Ha. reflexivity.
  - destruct (truth (option_map Str b)); reflexivity.
Qed.

(** An assignment leaves the object alone and records one effect. *)
Lemma assign_if_cases (f : Field) (v : option Value) (s : State E Msg T) :
  let out := assign_if svc f v s in
  self (snd out) = self s /\
  ((fst out = Ok tt /\ snd out = s) \/
   (exists x,
      v = Some x /\ truth (Some x) = true /\
      fst out = fst (setattr svc (_gca_resource (self s)) f x (environ s)) /\
      environ (snd out)
      = snd (setattr svc (_gca_resource (self s)) f x (environ s)) /\
      effects (snd out)
      = (effects s
           ++ [Assign (_gca_resource (self s)) f x (raised_of (fst out))])%list)).
Proof.
  unfold assign_if.
  destruct v as [x|]; [|split; [reflexivity|left; split; reflexivity]].
  destruct (truth (Some x)) eqn:Hx;
    [|split; [reflexivity|left; split; reflexivity]].
  split; [reflexivity|].
  right. exists x. cbn [assign fst snd environ effects].
  repeat split; try reflexivity. exact Hx.
Qed.

Lemma assigning_start (s : State E Msg T) : assigning s (Ok tt) s.
Proof.
  split; [reflexivity|]. exists []. split; [constructor|].
  now rewrite app_nil_r.
Qed.

Lemma assigning_step (f : Field) (v : option Value)
    (s0 s1 : State E Msg T) :
  assigning s0 (Ok tt) s1 ->
  assigning s0 (fst (assign_if svc f v s1)) (snd (assign_if svc f v s1)).
Proof.
  intros [Hself [pre [Hpre Heff]]].
  destruct (assign_if_cases f v s1) as [Hs [[Hr Hsame] | Hset]].
  - rewrite Hr, Hsame. split; [exact Hself|]. exists pre. now split.
  - destruct Hset as [x [_ [Hx [Hr [_ Hlog]]]]].
    split; [now rewrite Hs|].
    rewrite Hself in Hlog.
    destruct (fst (assign_if svc f v s1)) as [[]|err] eqn:Hout.
    + exists (pre ++ [Assign (_gca_resource (self s0)) f x None])%list.
      split.
      * apply Forall_app. split; [exact Hpre|].
        constructor; [|constructor].
        split; [split; [reflexivity|exact Hx]|reflexivity].
      * rewrite Hlog, Heff, <- app_assoc. reflexivity.
    + exists pre. split; [exact Hpre|].
      exists f, x. split; [exact Hx|].
      rewrite Hlog, Heff, <- app_assoc. reflexivity.
Qed.

Lemma send_cases (timeout : option T) (s : State E Msg T) :
  exists tail,
    effects (snd (send svc timeout s)) = (effects s ++ tail)%list /\
    sent s timeout (fst (send svc timeout s))
      (self (snd (send svc timeout s))) tail.
Proof.
  unfold send, and_then, emit, call_create_schedule, set_gca_resource,
    call_dashboard_uri, sent.
  cbn [fst snd self environ effects _parent _gca_resource].
  destruct (create_schedule svc (_parent (self s)) (_gca_resource (self s))
              timeout (environ s)) as [[response|err] e1].
  - cbn [fst snd self environ effects _parent _gca_resource].
    destruct (_dashboard_uri svc
                {| _parent := _parent (self s); _gca_resource := response |}
                e1) as [[uri|err] e2];
      cbn [fst snd self environ effects raised_of].
    + eexists. split.
      * rewrite <- !app_assoc. cbn [app]. reflexivity.
      * right. right. exists response, uri. repeat split; reflexivity.
    + eexists. split.
      * rewrite <- !app_assoc. cbn [app]. reflexivity.
      * right. left. exists response, err. repeat split; reflexivity.
  - cbn [fst snd self environ effects].
    eexists. split.
    + rewrite <- !app_assoc. cbn [app]. reflexivity.
    + left. exists err. repeat split; reflexivity.
Qed.

Lemma assigning_raised (s0 s1 : State E Msg T) (timeout : option T)
    (err : exn) :
  assigning s0 (Raise err) s1 -> created s0 timeout (Raise err) s1.
Proof.
  intros [Hself [pre [Hpre [f [x [Hx Heff]]]]]].
  exists pre, [Assign (_gca_resource (self s0)) f x (Some err)].
  split; [exact Heff|]. split; [exact Hpre|].
  left. exists f, x, err. repeat split; assumption.
Qed.

Lemma and_then_step {A B : Type} (c : @Run E Msg T A)
    (k : A -> @Run E Msg T B) (s : State E Msg T) :
  and_then c k s
  = match fst (c s) with
    | Ok a => k a (snd (c s))
    | Raise e => (Raise e, snd (c s))
    end.
Proof. unfold and_then. destruct (c s) as [[a|e] s']; reflexivity. Qed.

Lemma _create_runs (args : CreateArgs T) (s : State E Msg T) :
  created s (create_request_timeout args) (fst (_create svc args s))
    (snd (_create svc args s)).
Proof.
  unfold _create.
  pose proof (assigning_start s) as H0.
  repeat
    (match goal with
     | H : assigning s (Ok tt) ?s1
       |- context [and_then (assign_if svc ?f ?v) ?k ?s1] =>
         let H' := fresh "H" in
         pose proof (assigning_step f v s s1 H) as H';
         rewrite (and_then_step (assign_if svc f v) k s1);
         clear H;
         destruct (fst (assign_if svc f v s1)) as [[]|?err];
         [|cbn [fst snd]; apply assigning_raised; exact H']
     | |- context [and_then (network_or_configured svc ?g) ?k ?s1] =>
         rewrite (and_then_step (network_or_configured svc g) k s1);
         cbn [network_or_configured fst snd]
     end).
  match goal with
  | H : assigning s (Ok tt) ?s1 |- _ =>
      destruct H as [Hself [pre [Hpre Heff]]];
      destruct (send_cases (create_request_timeout args) s1)
        as [tail [Htail Hsent]];
      exists pre, tail;
      split; [rewrite Htail, Heff, <- app_assoc; reflexivity|];
      split; [exact Hpre|];
      right; unfold sent in *; rewrite <- Hself; exact Hsent
  end.
Qed.

Lemma create_unfold (args : CreateArgs T) (s : State E Msg T) :
  create svc args s
  = _create svc
      (with_network
         (or_ (network args) (global_config_network svc (environ s))) args)
      s.
Proof. reflexivity. Qed.

Lemma create_runs (args : CreateArgs T) (s : State E Msg T) :
  created s (create_request_timeout args) (fst (create svc args s))
    (snd (create svc args s)).
Proof.
  rewrite create_unfold.
  exact (_create_runs
           (with_network
              (or_ (network args) (global_config_network svc (environ s)))
              args) s).
Qed.

Lemma assign_if_network (f : Field) (v : option Value)
    (s : State E Msg T) :
  (forall m f' x e,
     global_config_network svc (snd (setattr svc m f' x e))
     = global_config_network svc e) ->
  global_config_network svc (environ (snd (assign_if svc f v s)))
  = global_config_network svc (environ s).
Proof.
  intros Hconf.
  destruct (assign_if_cases f v s) as [_ [[_ Hsame] | Hset]].
  - now rewrite Hsame.
  - destruct Hset as [x [_ [_ [_ [Henv _]]]]].
    rewrite Henv. apply Hconf.
Qed.

Lemma assignments_are_quiet (m : Msg) (pre : list (Effect Msg T)) :
  Forall (fun ev => assigns_truthy m ev /\ raised_by ev = None) pre ->
  responses pre = [] /\ filter is_service_call pre = [] /\
  Forall (fun ev => raised_by ev = None) pre /\
  Forall (assigns_truthy m) pre.
Proof.
  induction 1 as [|ev pre [Hev Hquiet] _ [IH1 [IH2 [IH3 IH4]]]].
  - repeat split; constructor.
  - destruct ev; try contradiction.
    cbn [responses flat_map filter is_service_call app].
    fold (responses pre). rewrite IH1, IH2.
    repeat split; constructor; assumption.
Qed.

Lemma responses_app (a b : list (Effect Msg T)) :
  responses (a ++ b) = (responses a ++ responses b)%list.
Proof. apply flat_map_app. Qed.

(** X18: with a configuration that assignments to a message leave alone,
    [create] does exactly what [_create] does with the same arguments:
    the network that [create] fills in from the configuration is the one
    [_create] would fill in itself. *)
Theorem create_defaulting_is_redundant (args : CreateArgs T)
    (s : State E Msg T)
    (Hconf : forall m f x e,
       global_config_network svc (snd (setattr svc m f x e))
       = global_config_network svc e) :
  create svc args s = _create svc args s.
Proof.
  rewrite create_unfold. unfold _create.
  cbn [with_network cron_expression start_time end_time allow_queuing
       max_run_count max_concurrent_run_count service_account network
       create_request_timeout].
  assert (H0 : global_config_network svc (environ s)
               = global_config_network svc (environ s)) by reflexivity.
  revert H0.
  generalize (global_config_network svc (environ s)) at 2 3 as configured.
  intros configured H0.
  repeat
    (match goal with
     | H : global_config_network svc (environ ?s1) = configured
       |- and_then (assign_if svc ?f ?v) ?k1 ?s1
          = and_then (assign_if svc ?f ?v) ?k2 ?s1 =>
         let H' := fresh "H" in
         pose proof (assign_if_network f v s1 Hconf) as H';
         rewrite H in H';
         rewrite (and_then_step (assign_if svc f v) k1 s1);
         rewrite (and_then_step (assign_if svc f v) k2 s1);
         clear H;
         destruct (fst (assign_if svc f v s1)) as [[]|?err];
         [|reflexivity]
     end).
  match goal with
  | H : global_config_network svc (environ ?s1) = configured
    |- and_then ?c1 ?k ?s1 = and_then ?c2 ?k ?s1 =>
      rewrite (and_then_step c1 k s1), (and_then_step c2 k s1);
      cbn [network_or_configured fst snd];
      rewrite H, or_idempotent; reflexivity
  end.
Qed.

(** X19: the service is called at most once in a [create]; afterwards the
    object has the parent it had, and its resource is the schedule the
    service answered with, or the message it had before when the service
    gave no answer.  A [create] that returns got an answer. *)
Theorem create_keeps_the_service_response (args : CreateArgs T)
    (s : State E Msg T) :
  exists evs,
    effects (snd (create svc args s)) = (effects s ++ evs)%list /\
    length (filter is_service_call evs) <= 1 /\
    _parent (self (snd (create svc args s))) = _parent (self s) /\
    _gca_resource (self (snd (create svc args s)))
    = hd (_gca_resource (self s)) (responses evs) /\
    match fst (create svc args s) with
    | Ok _ => responses evs <> []
    | Raise _ => True
    end.
Proof.
  destruct (create_runs args s) as [pre [tail [Heff [Hpre Hend]]]].
  destruct (assignments_are_quiet _ _ Hpre) as [Hresp [Hcalls _]].
  exists (pre ++ tail)%list. split; [exact Heff|].
  rewrite filter_app, Hcalls, responses_app, Hresp. cbn [app].
  destruct Hend as [[f [x [err [_ [Hr [Hself ->]]]]]] | Hsent].
  - rewrite Hr, Hself. cbn. repeat split; try reflexivity. lia.
  - destruct Hsent as [[err [Hr [Hself ->]]]
                      | [[response [err [Hr [Hself ->]]]]
                        | [response [uri [Hr [Hself ->]]]]]];
      rewrite Hr, Hself; cbn; repeat split; try reflexivity; try lia.
    intros H; discriminate H.
Qed.

(** X20: the assignments of a [create] come before anything else it does,
    each of them writes a truthy value, and each writes to the message the
    object had at the start: [create] never assigns [None], an empty
    string, [False] or [0], and never touches the schedule the service
    answered with. *)
Theorem create_assigns_truthy_values_first (args : CreateArgs T)
    (s : State E Msg T) :
  exists assignments rest,
    effects (snd (create svc args s))
    = (effects s ++ assignments ++ rest)%list /\
    Forall (assigns_truthy (_gca_resource (self s))) assignments /\
    Forall (fun ev => is_assign ev = false) rest.
Proof.
  destruct (create_runs args s) as [pre [tail [Heff [Hpre Hend]]]].
  destruct (assignments_are_quiet _ _ Hpre) as [_ [_ [_ Hassign]]].
  destruct Hend as [[f [x [err [Hx [_ [_ ->]]]]]] | Hsent].
  - exists (pre ++ [Assign (_gca_resource (self s)) f x (Some err)])%list, [].
    split; [now rewrite app_nil_r|].
    split; [|constructor].
    apply Forall_app. split; [exact Hassign|].
    constructor; [|constructor]. split; [reflexivity|exact Hx].
  - exists pre, tail. split; [exact Heff|]. split; [exact Hassign|].
    destruct Hsent as [[err [_ [_ ->]]]
                      | [[response [err [_ [_ ->]]]]
                        | [response [uri [_ [_ ->]]]]]];
      repeat constructor.
Qed.

(** X21: [create] stops at the first collaborator that raises and lets
    that exception out as it is; it returns only when no assignment, the
    service and the dashboard link raised nothing. *)
Theorem create_stops_at_the_first_raise (args : CreateArgs T)
    (s : State E Msg T) :
  exists evs,
    effects (snd (create svc args s)) = (effects s ++ evs)%list /\
    match fst (create svc args s) with
    | Ok _ => Forall (fun ev => raised_by ev = None) evs
    | Raise err =>
        exists before ev,
          evs = (before ++ [ev])%list /\
          Forall (fun ev' => raised_by ev' = None) before /\
          raised_by ev = Some err
    end.
Proof.
  destruct (create_runs args s) as [pre [tail [Heff [Hpre Hend]]]].
  destruct (assignments_are_quiet _ _ Hpre) as [_ [_ [Hquiet _]]].
  exists (pre ++ tail)%list. split; [exact Heff|].
  destruct Hend as [[f [x [err [_ [Hr [_ ->]]]]]] | Hsent].
  - rewrite Hr. exists pre, (Assign (_gca_resource (self s)) f x (Some err)).
    repeat split. exact Hquiet.
  - destruct Hsent as [[err [Hr [_ ->]]]
                      | [[response [err [Hr [_ ->]]]]
                        | [response [uri [Hr [_ ->]]]]]];
      rewrite Hr.
    + exists (pre ++ [LogCreateWithLro])%list,
        (CreateSchedule (_parent (self s)) (_gca_resource (self s))
           (create_request_timeout args) (Raise err)).
      split; [now rewrite <- app_assoc|].
      split; [|reflexivity].
      apply Forall_app. split; [exact Hquiet|]. repeat constructor.
    + exists (pre ++ [LogCreateWithLro;
                      CreateSchedule (_parent (self s))
                        (_gca_resource (self s))
                        (create_request_timeout args) (Ok response);
                      LogCreateComplete response])%list,
        (DashboardUri (Some err)).
      split; [now rewrite <- app_assoc|].
      split; [|reflexivity].
      apply Forall_app. split; [exact Hquiet|]. repeat constructor.
    + apply Forall_app. split; [exact Hquiet|]. repeat constructor.
Qed.

End Facts.

Lemma create_defaulting_is_redundant_witness :
  (forall m f x e,
     global_config_network example_service
       (snd (setattr example_service m f x e))
     = global_config_network example_service e) /\
  create example_service example_args example_state
  = _create example_service example_args example_state.
Proof.
  split; [reflexivity|].
  apply (create_defaulting_is_redundant example_service example_args
           example_state).
  reflexivity.
Defined.

End PipelineJobScheduleFacts.
